(** * Monitoring_Automation: alert lifecycle of the polling monitor

    A shallow embedding of [Monitoring_Automation.py].  The module-level
    lists and flags of the script are the fields of one record, [World];
    every function of the script that touches them is a function on
    [World], and the ones that can raise live in a small state-and-exception
    monad in which, as in Python, the mutations made before a [raise]
    survive it.

    What the script receives from outside (query replies of the three
    backends, the outcome of each webhook request, today's date, which
    scheduled jobs are due) is an argument of the function that asks for
    it.  Strings are sequences of characters with code points below 256. *)

From Stdlib Require Import String Ascii List Bool Arith Lia DecimalString.
Import ListNotations.
Open Scope string_scope.
Open Scope list_scope.

Infix "+++" := String.append (right associativity, at level 60).

(** ** Python built-ins used by the script *)

(** ["\r"] *)
Definition CR : string := String (ascii_of_nat 13) EmptyString.

(** [str(n)] for a non-negative integer. *)
Definition str_of_nat (n : nat) : string :=
  NilEmpty.string_of_uint (Nat.to_uint n).

(** [sub in s] on strings: substring containment. *)
Fixpoint str_in (sub s : string) : bool :=
  String.prefix sub s
  || match s with
     | EmptyString => false
     | String _ rest => str_in sub rest
     end.

(** [x in l] on lists: linear scan with [==]. *)
Definition py_in {A : Type} (eqb : A -> A -> bool) (x : A) (l : list A) : bool :=
  existsb (eqb x) l.

(** [any(ext in s for ext in keywords)] *)
Definition any_in (keywords : list string) (s : string) : bool :=
  existsb (fun ext => str_in ext s) keywords.

(** [l.remove(x)]: drops the first element equal to [x]; [None] stands for
    the [ValueError] raised when there is none. *)
Fixpoint list_remove {A : Type} (eqb : A -> A -> bool) (x : A) (l : list A)
  : option (list A) :=
  match l with
  | [] => None
  | y :: rest =>
      if eqb y x then Some rest
      else match list_remove eqb x rest with
           | Some rest' => Some (y :: rest')
           | None => None
           end
  end.

(** The loop
<<
    for error in stored:
        if error not in current:
            stored.remove(error)
>>
    A Python list iterator is an index into the live list: each round reads
    [stored[i]] if [i < len(stored)] and moves to [i + 1], whatever the body
    did to the list.  [fuel] bounds the rounds; [length stored] rounds always
    suffice ([remove_inactive_fuel]). *)
Fixpoint remove_inactive_from {A : Type} (eqb : A -> A -> bool)
    (current : list A) (fuel i : nat) (stored : list A) : list A :=
  match fuel with
  | 0 => stored
  | S fuel' =>
      match nth_error stored i with
      | None => stored
      | Some error =>
          if negb (py_in eqb error current) then
            match list_remove eqb error stored with
            | Some stored' => remove_inactive_from eqb current fuel' (S i) stored'
            | None => stored
            end
          else remove_inactive_from eqb current fuel' (S i) stored
      end
  end.

Definition remove_inactive {A : Type} (eqb : A -> A -> bool)
    (current stored : list A) : list A :=
  remove_inactive_from eqb current (length stored) 0 stored.

(** The joining loop shared by the status messages and the alert batch:
<<
    for x in range(n):
        temp_string = temp_string + l[x]
        if x != n - 1:
            temp_string = temp_string + "\r"
>> *)
Fixpoint join_cr (l : list string) : string :=
  match l with
  | [] => ""
  | [x] => x
  | x :: rest => x +++ CR +++ join_cr rest
  end.

(** [str.isnumeric] on one character: the decimal digits and, below 256,
    the superscripts U+00B2, U+00B3, U+00B9 and the fractions U+00BC..U+00BE. *)
Definition isnumeric_char (c : ascii) : bool :=
  let n := nat_of_ascii c in
  ((48 <=? n) && (n <=? 57))%nat
  || (n =? 178)%nat || (n =? 179)%nat || (n =? 185)%nat
  || (n =? 188)%nat || (n =? 189)%nat || (n =? 190)%nat.

Definition isdecimal_char (c : ascii) : bool :=
  let n := nat_of_ascii c in ((48 <=? n) && (n <=? 57))%nat.

Definition isnumeric (s : string) : bool :=
  match s with
  | EmptyString => false
  | _ => forallb isnumeric_char (list_ascii_of_string s)
  end.

(** ** Exceptions *)

Record exn : Type := Exception { exn_class : string; exn_msg : string }.

(** [repr] of a string: between apostrophes, or between double quotes when
    the string holds an apostrophe and no double quote; the backslash and
    the quote chosen are escaped, and so is every character that is not
    printable (the control characters, U+007F to U+00A0 and U+00AD). *)
Definition double_quote : ascii := ascii_of_nat 34.

Definition hex_digit (n : nat) : ascii :=
  if (n <? 10)%nat then ascii_of_nat (48 + n) else ascii_of_nat (87 + n).

Definition repr_char (quote c : ascii) : string :=
  let n := nat_of_ascii c in
  if Ascii.eqb c "\"%char || Ascii.eqb c quote then
    String "\"%char (String c EmptyString)
  else if (n =? 9)%nat then "\t"
  else if (n =? 10)%nat then "\n"
  else if (n =? 13)%nat then "\r"
  else if (n <? 32)%nat || ((127 <=? n) && (n <=? 160))%nat || (n =? 173)%nat
  then String "\"%char
         (String "x"%char
            (String (hex_digit (n / 16))
               (String (hex_digit (n mod 16)) EmptyString)))
  else String c EmptyString.

Definition repr_str (s : string) : string :=
  let chars := list_ascii_of_string s in
  let quote :=
    if existsb (Ascii.eqb "'"%char) chars
       && negb (existsb (Ascii.eqb double_quote) chars)
    then double_quote else "'"%char in
  String quote
    (fold_right (fun c acc => repr_char quote c +++ acc)
       (String quote EmptyString) chars).

(** [repr(e)] and [str(e)] for an exception raised with one string. *)
Definition repr (e : exn) : string :=
  exn_class e +++ "(" +++ repr_str (exn_msg e) +++ ")".

Definition str (e : exn) : string := exn_msg e.

(** [int(s)] where [s] passed [str.isnumeric]: a value when every character
    is a decimal digit, [ValueError] otherwise.  That an interpreter which
    limits the length of integer strings also refuses more than 4300 digits
    is not modelled. *)
Definition int_of_numeric (s : string) : exn + nat :=
  if forallb isdecimal_char (list_ascii_of_string s) then
    inr (fold_left (fun acc c => 10 * acc + (nat_of_ascii c - 48))
           (list_ascii_of_string s) 0)
  else inl (Exception "ValueError"
              ("invalid literal for int() with base 10: '" +++ s +++ "'")).

(** ** Data exchanged with the outside *)

(** The four webhook destinations of the Channels region. *)
Inductive Channel : Type :=
| usingAlertChannel
| usingSODChannel
| usingNotifChannel
| usingHelpRequestChannel.

(** The body elements of a webhook payload: a message, or a report section
    made by [craft_report_section].  The fixed colours of messages are left
    out; the colour of a section depends on its content and is kept. *)
Inductive Block : Type :=
| Message (text : string)
| ReportSection (sidebar_color title content content_color : string).

Record Post : Type := mkPost {
  channel : Channel;
  head_text : string;
  body : list Block
}.

(** One call [add_to_alert_notif_push(category, device, message)]. *)
Definition Push : Type := (string * string * string)%type.

(** A device of a [getDevices] reply with its four status dimensions. *)
Record Device : Type := mkDevice {
  name : string;
  connectivity : string;
  subscriptions : string;
  latency : string;
  clocking : string
}.

(** A reply to [run_ddm_query]: the request raised, or it returned a status
    code and a body. *)
Definition DdmReply (J : Type) : Type := (exn + (nat * J))%type.

(** A SageVue system of the systems endpoint. *)
Record Fault : Type := mkFault { FaultMessage : string }.

Record System : Type := mkSystem {
  Status : string;
  Description : string;
  Faults : list Fault
}.

(** What the SageVue endpoints answer in one cycle.  For the two list
    endpoints the outer sum is the request and the inner one the decoding of
    the body ([.json()['Systems']], [.json()['Errors']]), which the script
    performs at different places. *)
Record SageVueApi : Type := mkSageVueApi {
  auth_query : exn + nat;
  login : exn + string;
  systems_get : exn + (exn + list System);
  devices_get : exn + (exn + list string)
}.

(** A room of the Fusion error and help lists: the Python list
    [[RoomName, RoomID, RawSerialValue, ...]]. *)
Record Room : Type := mkRoom {
  RoomName : string;
  RoomID : string;
  RawSerialValues : list string
}.

Definition list_eqb {A : Type} (eqb : A -> A -> bool) : list A -> list A -> bool :=
  fix go (l1 l2 : list A) : bool :=
    match l1, l2 with
    | [], [] => true
    | x :: r1, y :: r2 => eqb x y && go r1 r2
    | _, _ => false
    end.

Definition Room_eqb (a b : Room) : bool :=
  String.eqb (RoomName a) (RoomName b)
  && String.eqb (RoomID a) (RoomID b)
  && list_eqb String.eqb (RawSerialValues a) (RawSerialValues b).

(** What the Fusion database answers in one cycle. *)
Record FusionDb : Type := mkFusionDb {
  connect : option exn;
  offline_rooms : exn + list string;
  error_rooms : exn + list (string * string);
  error_message : string -> exn + list string;
  help_rooms : exn + list (string * string);
  help_message : string -> exn + list string
}.

(** ** The state of the script

    The first thirteen fields are the module-level variables the functions
    mutate and the next four the Prometheus gauges.  The last four are the
    script's surroundings: [console] holds what [click.echo] printed,
    [posted] the webhook requests that got a response (with its status
    code), [network] the outcomes of the webhook requests still to come
    (raise, or answer with a status; an empty list answers 200), and
    [pushed] the arguments of every call of [add_to_alert_notif_push], a
    history no function reads. *)
Record World : Type := mkWorld {
  SEND_ALERTS : bool;
  DDM_DOMAINS : list string;
  DDM_ERROR_LIST : list string;
  DDM_OFFLINE_LIST : list string;
  DDM_TEMP_LIST : list string;
  DDM_TEMP_OFFLINE_LIST : list string;
  ALERTS_TEMP_IGNORE : list string;
  ALERTS_NOTIF_LIST : list string;
  SageVue_SessionID : string;
  SageVue_Error_List : list string;
  Fusion_Error_List : list Room;
  Fusion_Offline_List : list string;
  Fusion_Help_Request_List : list Room;
  DDM_Total_Errors : nat;
  DDM_Missing_Devices : nat;
  Sagevue_Total_Errors : nat;
  Sagevue_Missing_Devices : nat;
  console : list string;
  posted : list (Post * nat);
  network : list (exn + nat);
  pushed : list Push
}.

Definition set_SEND_ALERTS (v : bool) (w : World) : World :=
  mkWorld v (DDM_DOMAINS w) (DDM_ERROR_LIST w) (DDM_OFFLINE_LIST w)
    (DDM_TEMP_LIST w) (DDM_TEMP_OFFLINE_LIST w) (ALERTS_TEMP_IGNORE w)
    (ALERTS_NOTIF_LIST w) (SageVue_SessionID w) (SageVue_Error_List w)
    (Fusion_Error_List w) (Fusion_Offline_List w)
    (Fusion_Help_Request_List w) (DDM_Total_Errors w)
    (DDM_Missing_Devices w) (Sagevue_Total_Errors w)
    (Sagevue_Missing_Devices w) (console w) (posted w) (network w)
    (pushed w).

Definition set_DDM_DOMAINS (v : list string) (w : World) : World :=
  mkWorld (SEND_ALERTS w) v (DDM_ERROR_LIST w) (DDM_OFFLINE_LIST w)
    (DDM_TEMP_LIST w) (DDM_TEMP_OFFLINE_LIST w) (ALERTS_TEMP_IGNORE w)
    (ALERTS_NOTIF_LIST w) (SageVue_SessionID w) (SageVue_Error_List w)
    (Fusion_Error_List w) (Fusion_Offline_List w)
    (Fusion_Help_Request_List w) (DDM_Total_Errors w)
    (DDM_Missing_Devices w) (Sagevue_Total_Errors w)
    (Sagevue_Missing_Devices w) (console w) (posted w) (network w)
    (pushed w).

Definition set_DDM_ERROR_LIST (v : list string) (w : World) : World :=
  mkWorld (SEND_ALERTS w) (DDM_DOMAINS w) v (DDM_OFFLINE_LIST w)
    (DDM_TEMP_LIST w) (DDM_TEMP_OFFLINE_LIST w) (ALERTS_TEMP_IGNORE w)
    (ALERTS_NOTIF_LIST w) (SageVue_SessionID w) (SageVue_Error_List w)
    (Fusion_Error_List w) (Fusion_Offline_List w)
    (Fusion_Help_Request_List w) (DDM_Total_Errors w)
    (DDM_Missing_Devices w) (Sagevue_Total_Errors w)
    (Sagevue_Missing_Devices w) (console w) (posted w) (network w)
    (pushed w).

Definition set_DDM_OFFLINE_LIST (v : list string) (w : World) : World :=
  mkWorld (SEND_ALERTS w) (DDM_DOMAINS w) (DDM_ERROR_LIST w) v
    (DDM_TEMP_LIST w) (DDM_TEMP_OFFLINE_LIST w) (ALERTS_TEMP_IGNORE w)
    (ALERTS_NOTIF_LIST w) (SageVue_SessionID w) (SageVue_Error_List w)
    (Fusion_Error_List w) (Fusion_Offline_List w)
    (Fusion_Help_Request_List w) (DDM_Total_Errors w)
    (DDM_Missing_Devices w) (Sagevue_Total_Errors w)
    (Sagevue_Missing_Devices w) (console w) (posted w) (network w)
    (pushed w).

Definition set_DDM_TEMP_LIST (v : list string) (w : World) : World :=
  mkWorld (SEND_ALERTS w) (DDM_DOMAINS w) (DDM_ERROR_LIST w)
    (DDM_OFFLINE_LIST w) v (DDM_TEMP_OFFLINE_LIST w) (ALERTS_TEMP_IGNORE w)
    (ALERTS_NOTIF_LIST w) (SageVue_SessionID w) (SageVue_Error_List w)
    (Fusion_Error_List w) (Fusion_Offline_List w)
    (Fusion_Help_Request_List w) (DDM_Total_Errors w)
    (DDM_Missing_Devices w) (Sagevue_Total_Errors w)
    (Sagevue_Missing_Devices w) (console w) (posted w) (network w)
    (pushed w).

Definition set_DDM_TEMP_OFFLINE_LIST (v : list string) (w : World) : World :=
  mkWorld (SEND_ALERTS w) (DDM_DOMAINS w) (DDM_ERROR_LIST w)
    (DDM_OFFLINE_LIST w) (DDM_TEMP_LIST w) v (ALERTS_TEMP_IGNORE w)
    (ALERTS_NOTIF_LIST w) (SageVue_SessionID w) (SageVue_Error_List w)
    (Fusion_Error_List w) (Fusion_Offline_List w)
    (Fusion_Help_Request_List w) (DDM_Total_Errors w)
    (DDM_Missing_Devices w) (Sagevue_Total_Errors w)
    (Sagevue_Missing_Devices w) (console w) (posted w) (network w)
    (pushed w).

Definition set_ALERTS_TEMP_IGNORE (v : list string) (w : World) : World :=
  mkWorld (SEND_ALERTS w) (DDM_DOMAINS w) (DDM_ERROR_LIST w)
    (DDM_OFFLINE_LIST w) (DDM_TEMP_LIST w) (DDM_TEMP_OFFLINE_LIST w) v
    (ALERTS_NOTIF_LIST w) (SageVue_SessionID w) (SageVue_Error_List w)
    (Fusion_Error_List w) (Fusion_Offline_List w)
    (Fusion_Help_Request_List w) (DDM_Total_Errors w)
    (DDM_Missing_Devices w) (Sagevue_Total_Errors w)
    (Sagevue_Missing_Devices w) (console w) (posted w) (network w)
    (pushed w).

Definition set_ALERTS_NOTIF_LIST (v : list string) (w : World) : World :=
  mkWorld (SEND_ALERTS w) (DDM_DOMAINS w) (DDM_ERROR_LIST w)
    (DDM_OFFLINE_LIST w) (DDM_TEMP_LIST w) (DDM_TEMP_OFFLINE_LIST w)
    (ALERTS_TEMP_IGNORE w) v (SageVue_SessionID w) (SageVue_Error_List w)
    (Fusion_Error_List w) (Fusion_Offline_List w)
    (Fusion_Help_Request_List w) (DDM_Total_Errors w)
    (DDM_Missing_Devices w) (Sagevue_Total_Errors w)
    (Sagevue_Missing_Devices w) (console w) (posted w) (network w)
    (pushed w).

Definition set_SageVue_SessionID (v : string) (w : World) : World :=
  mkWorld (SEND_ALERTS w) (DDM_DOMAINS w) (DDM_ERROR_LIST w)
    (DDM_OFFLINE_LIST w) (DDM_TEMP_LIST w) (DDM_TEMP_OFFLINE_LIST w)
    (ALERTS_TEMP_IGNORE w) (ALERTS_NOTIF_LIST w) v (SageVue_Error_List w)
    (Fusion_Error_List w) (Fusion_Offline_List w)
    (Fusion_Help_Request_List w) (DDM_Total_Errors w)
    (DDM_Missing_Devices w) (Sagevue_Total_Errors w)
    (Sagevue_Missing_Devices w) (console w) (posted w) (network w)
    (pushed w).

Definition set_SageVue_Error_List (v : list string) (w : World) : World :=
  mkWorld (SEND_ALERTS w) (DDM_DOMAINS w) (DDM_ERROR_LIST w)
    (DDM_OFFLINE_LIST w) (DDM_TEMP_LIST w) (DDM_TEMP_OFFLINE_LIST w)
    (ALERTS_TEMP_IGNORE w) (ALERTS_NOTIF_LIST w) (SageVue_SessionID w) v
    (Fusion_Error_List w) (Fusion_Offline_List w)
    (Fusion_Help_Request_List w) (DDM_Total_Errors w)
    (DDM_Missing_Devices w) (Sagevue_Total_Errors w)
    (Sagevue_Missing_Devices w) (console w) (posted w) (network w)
    (pushed w).

Definition set_Fusion_Error_List (v : list Room) (w : World) : World :=
  mkWorld (SEND_ALERTS w) (DDM_DOMAINS w) (DDM_ERROR_LIST w)
    (DDM_OFFLINE_LIST w) (DDM_TEMP_LIST w) (DDM_TEMP_OFFLINE_LIST w)
    (ALERTS_TEMP_IGNORE w) (ALERTS_NOTIF_LIST w) (SageVue_SessionID w)
    (SageVue_Error_List w) v (Fusion_Offline_List w)
    (Fusion_Help_Request_List w) (DDM_Total_Errors w)
    (DDM_Missing_Devices w) (Sagevue_Total_Errors w)
    (Sagevue_Missing_Devices w) (console w) (posted w) (network w)
    (pushed w).

Definition set_Fusion_Offline_List (v : list string) (w : World) : World :=
  mkWorld (SEND_ALERTS w) (DDM_DOMAINS w) (DDM_ERROR_LIST w)
    (DDM_OFFLINE_LIST w) (DDM_TEMP_LIST w) (DDM_TEMP_OFFLINE_LIST w)
    (ALERTS_TEMP_IGNORE w) (ALERTS_NOTIF_LIST w) (SageVue_SessionID w)
    (SageVue_Error_List w) (Fusion_Error_List w) v
    (Fusion_Help_Request_List w) (DDM_Total_Errors w)
    (DDM_Missing_Devices w) (Sagevue_Total_Errors w)
    (Sagevue_Missing_Devices w) (console w) (posted w) (network w)
    (pushed w).

Definition set_Fusion_Help_Request_List (v : list Room) (w : World) : World :=
  mkWorld (SEND_ALERTS w) (DDM_DOMAINS w) (DDM_ERROR_LIST w)
    (DDM_OFFLINE_LIST w) (DDM_TEMP_LIST w) (DDM_TEMP_OFFLINE_LIST w)
    (ALERTS_TEMP_IGNORE w) (ALERTS_NOTIF_LIST w) (SageVue_SessionID w)
    (SageVue_Error_List w) (Fusion_Error_List w) (Fusion_Offline_List w) v
    (DDM_Total_Errors w) (DDM_Missing_Devices w) (Sagevue_Total_Errors w)
    (Sagevue_Missing_Devices w) (console w) (posted w) (network w)
    (pushed w).

Definition set_DDM_Total_Errors (v : nat) (w : World) : World :=
  mkWorld (SEND_ALERTS w) (DDM_DOMAINS w) (DDM_ERROR_LIST w)
    (DDM_OFFLINE_LIST w) (DDM_TEMP_LIST w) (DDM_TEMP_OFFLINE_LIST w)
    (ALERTS_TEMP_IGNORE w) (ALERTS_NOTIF_LIST w) (SageVue_SessionID w)
    (SageVue_Error_List w) (Fusion_Error_List w) (Fusion_Offline_List w)
    (Fusion_Help_Request_List w) v (DDM_Missing_Devices w)
    (Sagevue_Total_Errors w) (Sagevue_Missing_Devices w) (console w)
    (posted w) (network w) (pushed w).

Definition set_DDM_Missing_Devices (v : nat) (w : World) : World :=
  mkWorld (SEND_ALERTS w) (DDM_DOMAINS w) (DDM_ERROR_LIST w)
    (DDM_OFFLINE_LIST w) (DDM_TEMP_LIST w) (DDM_TEMP_OFFLINE_LIST w)
    (ALERTS_TEMP_IGNORE w) (ALERTS_NOTIF_LIST w) (SageVue_SessionID w)
    (SageVue_Error_List w) (Fusion_Error_List w) (Fusion_Offline_List w)
    (Fusion_Help_Request_List w) (DDM_Total_Errors w) v
    (Sagevue_Total_Errors w) (Sagevue_Missing_Devices w) (console w)
    (posted w) (network w) (pushed w).

Definition set_Sagevue_Total_Errors (v : nat) (w : World) : World :=
  mkWorld (SEND_ALERTS w) (DDM_DOMAINS w) (DDM_ERROR_LIST w)
    (DDM_OFFLINE_LIST w) (DDM_TEMP_LIST w) (DDM_TEMP_OFFLINE_LIST w)
    (ALERTS_TEMP_IGNORE w) (ALERTS_NOTIF_LIST w) (SageVue_SessionID w)
    (SageVue_Error_List w) (Fusion_Error_List w) (Fusion_Offline_List w)
    (Fusion_Help_Request_List w) (DDM_Total_Errors w)
    (DDM_Missing_Devices w) v (Sagevue_Missing_Devices w) (console w)
    (posted w) (network w) (pushed w).

Definition set_Sagevue_Missing_Devices (v : nat) (w : World) : World :=
  mkWorld (SEND_ALERTS w) (DDM_DOMAINS w) (DDM_ERROR_LIST w)
    (DDM_OFFLINE_LIST w) (DDM_TEMP_LIST w) (DDM_TEMP_OFFLINE_LIST w)
    (ALERTS_TEMP_IGNORE w) (ALERTS_NOTIF_LIST w) (SageVue_SessionID w)
    (SageVue_Error_List w) (Fusion_Error_List w) (Fusion_Offline_List w)
    (Fusion_Help_Request_List w) (DDM_Total_Errors w)
    (DDM_Missing_Devices w) (Sagevue_Total_Errors w) v (console w)
    (posted w) (network w) (pushed w).

Definition set_console (v : list string) (w : World) : World :=
  mkWorld (SEND_ALERTS w) (DDM_DOMAINS w) (DDM_ERROR_LIST w)
    (DDM_OFFLINE_LIST w) (DDM_TEMP_LIST w) (DDM_TEMP_OFFLINE_LIST w)
    (ALERTS_TEMP_IGNORE w) (ALERTS_NOTIF_LIST w) (SageVue_SessionID w)
    (SageVue_Error_List w) (Fusion_Error_List w) (Fusion_Offline_List w)
    (Fusion_Help_Request_List w) (DDM_Total_Errors w)
    (DDM_Missing_Devices w) (Sagevue_Total_Errors w)
    (Sagevue_Missing_Devices w) v (posted w) (network w) (pushed w).

Definition set_posted (v : list (Post * nat)) (w : World) : World :=
  mkWorld (SEND_ALERTS w) (DDM_DOMAINS w) (DDM_ERROR_LIST w)
    (DDM_OFFLINE_LIST w) (DDM_TEMP_LIST w) (DDM_TEMP_OFFLINE_LIST w)
    (ALERTS_TEMP_IGNORE w) (ALERTS_NOTIF_LIST w) (SageVue_SessionID w)
    (SageVue_Error_List w) (Fusion_Error_List w) (Fusion_Offline_List w)
    (Fusion_Help_Request_List w) (DDM_Total_Errors w)
    (DDM_Missing_Devices w) (Sagevue_Total_Errors w)
    (Sagevue_Missing_Devices w) (console w) v (network w) (pushed w).

Definition set_network (v : list (exn + nat)) (w : World) : World :=
  mkWorld (SEND_ALERTS w) (DDM_DOMAINS w) (DDM_ERROR_LIST w)
    (DDM_OFFLINE_LIST w) (DDM_TEMP_LIST w) (DDM_TEMP_OFFLINE_LIST w)
    (ALERTS_TEMP_IGNORE w) (ALERTS_NOTIF_LIST w) (SageVue_SessionID w)
    (SageVue_Error_List w) (Fusion_Error_List w) (Fusion_Offline_List w)
    (Fusion_Help_Request_List w) (DDM_Total_Errors w)
    (DDM_Missing_Devices w) (Sagevue_Total_Errors w)
    (Sagevue_Missing_Devices w) (console w) (posted w) v (pushed w).

Definition set_pushed (v : list Push) (w : World) : World :=
  mkWorld (SEND_ALERTS w) (DDM_DOMAINS w) (DDM_ERROR_LIST w)
    (DDM_OFFLINE_LIST w) (DDM_TEMP_LIST w) (DDM_TEMP_OFFLINE_LIST w)
    (ALERTS_TEMP_IGNORE w) (ALERTS_NOTIF_LIST w) (SageVue_SessionID w)
    (SageVue_Error_List w) (Fusion_Error_List w) (Fusion_Offline_List w)
    (Fusion_Help_Request_List w) (DDM_Total_Errors w)
    (DDM_Missing_Devices w) (Sagevue_Total_Errors w)
    (Sagevue_Missing_Devices w) (console w) (posted w) (network w) v.
(** ** State and exceptions

    A computation takes the state and gives back a value or a raised
    exception together with the state it left behind. *)

Inductive Res (A : Type) : Type :=
| Val (a : A)
| Exc (e : exn).
Arguments Val {A} a.
Arguments Exc {A} e.

Definition M (A : Type) : Type := World -> Res A * World.

Definition ret {A : Type} (a : A) : M A := fun w => (Val a, w).

Definition raise {A : Type} (e : exn) : M A := fun w => (Exc e, w).

Definition bind {A B : Type} (m : M A) (k : A -> M B) : M B :=
  fun w =>
    match m w with
    | (Val a, w') => k a w'
    | (Exc e, w') => (Exc e, w')
    end.

(** [try: m  except ... as e: handler e] *)
Definition try_except {A : Type} (m : M A) (handler : exn -> M A) : M A :=
  fun w =>
    match m w with
    | (Val a, w') => (Val a, w')
    | (Exc e, w') => handler e w'
    end.

Definition gets {A : Type} (f : World -> A) : M A := fun w => (Val (f w), w).

Definition modify (f : World -> World) : M unit := fun w => (Val tt, f w).

Definition lift {A : Type} (r : exn + A) : M A :=
  match r with
  | inl e => raise e
  | inr a => ret a
  end.

Notation "x <- m ;; k" := (bind m (fun x => k))
  (at level 61, m at next level, right associativity).
Notation "m ;; k" := (bind m (fun _ => k))
  (at level 61, right associativity).

(** [for x in l: body x], for a list the body does not mutate. *)
Fixpoint for_each {A : Type} (l : list A) (body : A -> M unit) : M unit :=
  match l with
  | [] => ret tt
  | x :: rest => body x ;; for_each rest body
  end.

Definition exec {A : Type} (m : M A) (w : World) : World := snd (m w).

Definition result {A : Type} (m : M A) (w : World) : Res A := fst (m w).

(** ** Script data *)

Definition PROG_REFRESH_FREQUENCY : nat := 15.

Definition BLACKLISTED_KEYWORDS : list string :=
  ["ExampleKeyword1"; "Test Devices"].

Definition ALERT_NOTIF_DISABLE : string :=
  "Alerting notifications are now disabled.".

Definition ALERT_NOTIF_ENABLE : string :=
  "Alerting notifications are now enabled.".

(** The state the module body sets up before anything runs; [net] is what
    the webhook endpoints will do. *)
Definition initial (net : list (exn + nat)) : World :=
  mkWorld false [] [] [] [] [] [] [] "Placeholder" [] [] [] [] 0 0 0 0
    [] [] net [].

(** ** Zoom POST functions *)

Definition click_echo (line : string) : M unit :=
  modify (fun w => set_console (console w ++ [line]) w).

(** [requests.post] to a webhook: the next outcome of [network] decides
    whether it raises or returns a response. *)
Definition requests_post (p : Post) : M nat :=
  fun w =>
    match network w with
    | [] => (Val 200, set_posted (posted w ++ [(p, 200)]) w)
    | inr code :: rest =>
        (Val code, set_posted (posted w ++ [(p, code)]) (set_network rest w))
    | inl e :: rest => (Exc e, set_network rest w)
    end.

Definition send_notification (message : string) : M unit :=
  requests_post (mkPost usingNotifChannel "Program Notification"
                   [Message message]) ;;
  ret tt.

Definition send_help_request (room message : string) : M unit :=
  send_alerts <- gets SEND_ALERTS ;;
  if send_alerts then
    requests_post (mkPost usingHelpRequestChannel "Help Request Alert"
                     [Message ("Room - " +++ room);
                      Message ("Customer says: " +++ message)]) ;;
    ret tt
  else ret tt.

Definition send_alert_notif : M unit :=
  send_alerts <- gets SEND_ALERTS ;;
  notif_list <- gets ALERTS_NOTIF_LIST ;;
  (if send_alerts && (0 <? length notif_list)%nat then
     let temp_string := join_cr notif_list in
     requests_post
       (mkPost usingAlertChannel "Device Alert"
          [Message (str_of_nat (length notif_list) +++ " new device alert"
                    +++ (if (1 <? length notif_list)%nat then "s." else "."));
           Message temp_string]) ;;
     ret tt
   else ret tt) ;;
  modify (set_ALERTS_NOTIF_LIST []).

Definition craft_report_section (service content : string) : Block :=
  let color :=
    if String.eqb content "No errors to report."
       || String.eqb content "No mics with low batteries."
    then "#00FF00" else "#C107EB" in
  ReportSection color ("--- " +++ service +++ " --- ") content color.

(** ** Script methods *)

Definition enable_alerts (send_notif : bool) : M unit :=
  modify (set_SEND_ALERTS true) ;;
  if send_notif then send_notification ALERT_NOTIF_ENABLE else ret tt.

Definition disable_alerts (send_notif : bool) : M unit :=
  modify (set_SEND_ALERTS false) ;;
  if send_notif then send_notification ALERT_NOTIF_DISABLE else ret tt.

(** [request.args.get] hands [None] over for a missing parameter; using it
    where a string is required raises [TypeError]. *)
Definition as_str (arg : option string) : M string :=
  match arg with
  | Some s => ret s
  | None =>
      raise (Exception "TypeError"
               ("can only concatenate str (not "
                +++ String double_quote "NoneType"
                +++ String double_quote ") to str"))
  end.

(** [mute_thread] up to its [time.sleep]: the acknowledgement, the keyword
    entering the mute list, and the number of minutes to sleep. *)
Definition mute_thread_enter (keyword : option string) (minutes : string)
  : M nat :=
  kw <- as_str keyword ;;
  send_notification ("Muting alerts containing " +++ kw +++ " for "
                     +++ minutes +++ " minutes.") ;;
  modify (fun w => set_ALERTS_TEMP_IGNORE (ALERTS_TEMP_IGNORE w ++ [kw]) w) ;;
  lift (int_of_numeric minutes).

(** [mute_thread] after its [time.sleep]. *)
Definition mute_thread_leave (keyword : option string) : M unit :=
  kw <- as_str keyword ;;
  ignore <- gets ALERTS_TEMP_IGNORE ;;
  match list_remove String.eqb kw ignore with
  | Some ignore' => modify (set_ALERTS_TEMP_IGNORE ignore')
  | None => raise (Exception "ValueError" "list.remove(x): x not in list")
  end ;;
  send_notification ("Alerts containing " +++ kw +++ " are no longer muted!").

(** [args] is [[keyword, length]] as [manual_mute] builds it.  The sleep
    between the two halves changes nothing of the state by itself, and the
    definition follows the runs in which it returns: [time.sleep] raising
    [OverflowError] inside the [try], as it does for more than 9223372036
    seconds, is not modelled. *)
Definition mute_thread (args : option string * option string) : M string :=
  match snd args with
  | None =>
      raise (Exception "TypeError"
               "descriptor 'isnumeric' for 'str' objects doesn't apply to a 'NoneType' object")
  | Some minutes =>
      if negb (isnumeric minutes) then
        kw <- as_str (fst args) ;;
        send_notification ("Cannot mute alerts containing " +++ kw
                           +++ " - time parameter is invalid.") ;;
        ret "Success"
      else
        try_except
          (mute_thread_enter (fst args) minutes ;;
           mute_thread_leave (fst args) ;;
           ret "Success")
          (fun _ =>
             kw <- as_str (fst args) ;;
             send_notification ("Unknown error muting alerts containing "
                                +++ kw +++ ".") ;;
             ret "Error")
  end.

Definition add_to_alert_notif_push (category device message : string)
    (w : World) : World :=
  let w := set_pushed (pushed w ++ [(category, device, message)]) w in
  if negb (any_in (ALERTS_TEMP_IGNORE w) device)
     && negb (any_in (ALERTS_TEMP_IGNORE w) message)
  then set_ALERTS_NOTIF_LIST
         (ALERTS_NOTIF_LIST w
          ++ [category +++ " - " +++ device +++ " - " +++ message]) w
  else w.

(** ** DDM functions *)

Definition run_ddm_query {J : Type} (reply : DdmReply J) (status_code : nat)
  : M J :=
  match reply with
  | inl e => raise e
  | inr (code, json) =>
      if (code =? status_code)%nat then ret json
      else raise (Exception "Exception"
                    ("Unexpected status code returned: " +++ str_of_nat code))
  end.

Definition get_dante_domains (reply : DdmReply (list string)) : M unit :=
  modify (set_DDM_DOMAINS []) ;;
  temp_domains <- run_ddm_query reply 200 ;;
  modify (fun w => set_DDM_DOMAINS (DDM_DOMAINS w ++ temp_domains) w).

(** The four tests of the body of
    [for device in result["data"]["domain"]["devices"]], once their condition
    holds. *)

(** Connectivity error (device offline). *)
Definition ddm_connectivity_error (domain : string) (device : Device)
    (w : World) : World :=
  let connectivity_string :=
    domain +++ " - " +++ name device +++ " is offline." in
  let w := set_DDM_TEMP_OFFLINE_LIST
             (DDM_TEMP_OFFLINE_LIST w ++ [connectivity_string]) w in
  if negb (py_in String.eqb connectivity_string (DDM_OFFLINE_LIST w)) then
    add_to_alert_notif_push "DDM" domain (name device +++ " is offline.")
      (set_DDM_OFFLINE_LIST (DDM_OFFLINE_LIST w ++ [connectivity_string]) w)
  else w.

(** Subscription error (flow is not connected). *)
Definition ddm_subscription_error (domain : string) (device : Device)
    (w : World) : World :=
  let sub_string :=
    domain +++ " - " +++ name device +++ " has a subscription error." in
  let w := set_DDM_TEMP_LIST (DDM_TEMP_LIST w ++ [sub_string]) w in
  if negb (py_in String.eqb sub_string (DDM_ERROR_LIST w)) then
    add_to_alert_notif_push "DDM" domain
      (name device +++ " has a subscription error.")
      (set_DDM_ERROR_LIST (DDM_ERROR_LIST w ++ [sub_string]) w)
  else w.

(** Latency error. *)
Definition ddm_latency_error (domain : string) (device : Device)
    (w : World) : World :=
  let latency_string :=
    domain +++ " - " +++ name device +++ " has a latency error." in
  let w := set_DDM_TEMP_LIST (DDM_TEMP_LIST w ++ [latency_string]) w in
  if negb (py_in String.eqb latency_string (DDM_ERROR_LIST w)) then
    add_to_alert_notif_push "DDM" domain
      (name device +++ " has a latency error.")
      (set_DDM_ERROR_LIST (DDM_ERROR_LIST w ++ [latency_string]) w)
  else w.

(** Clocking error. *)
Definition ddm_clocking_error (domain : string) (device : Device)
    (w : World) : World :=
  let clock_string :=
    domain +++ " - " +++ name device +++ " has a clocking error." in
  let w := set_DDM_TEMP_LIST (DDM_TEMP_LIST w ++ [clock_string]) w in
  if negb (py_in String.eqb clock_string (DDM_ERROR_LIST w)) then
    add_to_alert_notif_push "DDM" domain
      (name device +++ " has a clocking error.")
      (set_DDM_ERROR_LIST (DDM_ERROR_LIST w ++ [clock_string]) w)
  else w.

(** The loop body.  In the source the connectivity test is indented one
    column less than the statements after it, which puts the other three
    tests inside its block: they are made for offline devices only. *)
Definition ddm_device (domain : string) (device : Device) (w : World) : World :=
  if String.eqb (connectivity device) "ERROR" then
    let w := ddm_connectivity_error domain device w in
    let w := if String.eqb (subscriptions device) "ERROR"
             then ddm_subscription_error domain device w else w in
    let w := if String.eqb (latency device) "ERROR"
             then ddm_latency_error domain device w else w in
    if String.eqb (clocking device) "ERROR"
    then ddm_clocking_error domain device w else w
  else w.

(** The [try] block of [ddm_thread]: one query per domain, in order, until
    one raises. *)
Definition ddm_scan (api : string -> DdmReply (list Device)) : M unit :=
  domains <- gets DDM_DOMAINS ;;
  for_each domains (fun domain =>
    devices <- run_ddm_query (api domain) 200 ;;
    modify (fun w => fold_left (fun w device => ddm_device domain device w)
                       devices w)).

Definition ddm_thread (api : string -> DdmReply (list Device)) : M unit :=
  modify (set_DDM_TEMP_LIST []) ;;
  modify (set_DDM_TEMP_OFFLINE_LIST []) ;;
  try_except (ddm_scan api) (fun e => click_echo (repr e)) ;;
  modify (fun w => set_DDM_ERROR_LIST
            (remove_inactive String.eqb (DDM_TEMP_LIST w) (DDM_ERROR_LIST w)) w) ;;
  modify (fun w => set_DDM_OFFLINE_LIST
            (remove_inactive String.eqb (DDM_TEMP_OFFLINE_LIST w)
               (DDM_OFFLINE_LIST w)) w) ;;
  modify (fun w => set_DDM_Missing_Devices (length (DDM_OFFLINE_LIST w)) w) ;;
  modify (fun w => set_DDM_Total_Errors (length (DDM_ERROR_LIST w)) w).

Definition get_ddm_status_message (w : World) : string :=
  let temp_string := join_cr (DDM_ERROR_LIST w) +++ join_cr (DDM_OFFLINE_LIST w) in
  if (length (DDM_ERROR_LIST w) =? 0)%nat && (length (DDM_OFFLINE_LIST w) =? 0)%nat
  then "No errors to report."
  else temp_string.

(** ** SageVue functions *)

(** The body of [for fault in system["Faults"]]; [temp_error_list] is the
    local list of the thread. *)
Definition sage_vue_fault (system : System)
    (st : list string * World) (fault : Fault) : list string * World :=
  let (temp_error_list, w) := st in
  let error_id := Description system +++ " - " +++ FaultMessage fault in
  let temp_error_list := temp_error_list ++ [error_id] in
  if negb (py_in String.eqb error_id (SageVue_Error_List w))
     && negb (str_in "DAN1" (FaultMessage fault))
     && negb (str_in "NTP" (FaultMessage fault))
  then (temp_error_list,
        add_to_alert_notif_push "SageVue" (Description system)
          (FaultMessage fault)
          (set_SageVue_Error_List (SageVue_Error_List w ++ [error_id]) w))
  else (temp_error_list, w).

Definition sage_vue_system (st : list string * World) (system : System)
  : list string * World :=
  if negb (String.eqb (Status system) "Green")
  then fold_left (sage_vue_fault system) (Faults system) st
  else st.

Definition sage_vue_scan (systems : list System) : M (list string) :=
  fun w => let (temp_error_list, w') := fold_left sage_vue_system systems ([], w) in
           (Val temp_error_list, w').

(** The two loops of the thread over [systems]: the scan for new errors and
    the removal of the ones that are gone. *)
Definition sage_vue_diff (systems : list System) : M unit :=
  temp_error_list <- sage_vue_scan systems ;;
  modify (fun w => set_SageVue_Error_List
            (remove_inactive String.eqb temp_error_list
               (SageVue_Error_List w)) w).

Definition sage_vue_thread (api : SageVueApi) : M unit :=
  try_except
    (api_check <- lift (auth_query api) ;;
     (if (api_check =? 400)%nat || (api_check =? 401)%nat then
        session_id <- lift (login api) ;;
        modify (set_SageVue_SessionID session_id)
      else ret tt) ;;
     api_systems <- lift (systems_get api) ;;
     api_devices <- lift (devices_get api) ;;
     systems <- lift api_systems ;;
     sage_vue_diff systems ;;
     modify (fun w => set_Sagevue_Total_Errors
               (length (SageVue_Error_List w)) w) ;;
     errors <- lift api_devices ;;
     modify (set_Sagevue_Missing_Devices (length errors)))
    (fun e => click_echo (repr e)).

Definition get_sage_vue_status_message (w : World) : string :=
  if (length (SageVue_Error_List w) =? 0)%nat then "No errors to report."
  else join_cr (SageVue_Error_List w).

(** ** Fusion functions *)

(** [room[2]]: the first [RawSerialValue] appended to [[RoomName, RoomID]]. *)
Definition room_2 (room : Room) : M string :=
  match RawSerialValues room with
  | message :: _ => ret message
  | [] => raise (Exception "IndexError" "list index out of range")
  end.

(** The body of the loop over the offline rooms of the first query. *)
Definition fusion_offline_room (st : list string * World) (room_name : string)
  : list string * World :=
  let (temp_offline, w) := st in
  let temp_offline := temp_offline ++ [room_name] in
  if negb (py_in String.eqb room_name (Fusion_Offline_List w)) then
    if negb (any_in BLACKLISTED_KEYWORDS room_name) then
      (temp_offline,
       add_to_alert_notif_push "Fusion" room_name "Room has gone offline"
         (set_Fusion_Offline_List (Fusion_Offline_List w ++ [room_name]) w))
    else (temp_offline, w)
  else (temp_offline, w).

Definition fusion_offline_scan (rows : list string) : M (list string) :=
  fun w => let (temp_offline, w') := fold_left fusion_offline_room rows ([], w) in
           (Val temp_offline, w').

(** The second query of a section: one message query per room, whose rows
    are appended to the room. *)
Fixpoint fetch_messages (query : string -> exn + list string)
    (rows : list (string * string)) : M (list Room) :=
  match rows with
  | [] => ret []
  | (room_name, room_id) :: rest =>
      messages <- lift (query room_id) ;;
      rooms <- fetch_messages query rest ;;
      ret (mkRoom room_name room_id messages :: rooms)
  end.

Definition fusion_error_room (room : Room) : M unit :=
  error_list <- gets Fusion_Error_List ;;
  if negb (py_in Room_eqb room error_list) then
    message <- room_2 room ;;
    if negb (str_in "1:notice" message) && negb (str_in "0:ok" message) then
      modify (fun w =>
        add_to_alert_notif_push "Fusion" (RoomName room) message
          (set_Fusion_Error_List (Fusion_Error_List w ++ [room]) w))
    else ret tt
  else ret tt.

Definition fusion_help_room (room : Room) : M unit :=
  help_list <- gets Fusion_Help_Request_List ;;
  if negb (py_in Room_eqb room help_list) then
    modify (fun w => set_Fusion_Help_Request_List
              (Fusion_Help_Request_List w ++ [room]) w) ;;
    message <- room_2 room ;;
    send_help_request (RoomName room) message
  else ret tt.

(** The two loops over the offline rooms: the scan for new ones and the
    removal of the ones that are back. *)
Definition fusion_offline_diff (rows : list string) : M unit :=
  temp_offline <- fusion_offline_scan rows ;;
  modify (fun w => set_Fusion_Offline_List
            (remove_inactive String.eqb temp_offline (Fusion_Offline_List w)) w).

Definition fusion_thread (db : FusionDb) : M unit :=
  match connect db with
  | Some e => raise e
  | None => ret tt
  end ;;
  rows <- lift (offline_rooms db) ;;
  fusion_offline_diff rows ;;
  rows <- lift (error_rooms db) ;;
  temp_error <- fetch_messages (error_message db) rows ;;
  for_each temp_error fusion_error_room ;;
  modify (fun w => set_Fusion_Error_List
            (remove_inactive Room_eqb temp_error (Fusion_Error_List w)) w) ;;
  rows <- lift (help_rooms db) ;;
  temp_error <- fetch_messages (help_message db) rows ;;
  for_each temp_error fusion_help_room ;;
  modify (fun w => set_Fusion_Help_Request_List
            (remove_inactive Room_eqb temp_error (Fusion_Help_Request_List w)) w).

Fixpoint fusion_error_lines (rooms : list Room) : M (list string) :=
  match rooms with
  | [] => ret []
  | room :: rest =>
      message <- room_2 room ;;
      lines <- fusion_error_lines rest ;;
      ret ((RoomName room +++ " - " +++ message) :: lines)
  end.

Definition get_fusion_status_message : M string :=
  error_list <- gets Fusion_Error_List ;;
  offline_list <- gets Fusion_Offline_List ;;
  if (length error_list =? 0)%nat && (length offline_list =? 0)%nat then
    ret "No errors to report."
  else
    error_lines <- fusion_error_lines error_list ;;
    let temp_error :=
      error_lines
      ++ map (fun room => room +++ " - " +++ "Room is currently offline")
           offline_list in
    ret (join_cr temp_error).

(** ** Report *)

(** [today] is [str(datetime.date.today())]. *)
Definition run_report (today : string) : M unit :=
  sagevue <- gets get_sage_vue_status_message ;;
  ddm <- gets get_ddm_status_message ;;
  fusion <- get_fusion_status_message ;;
  requests_post
    (mkPost usingSODChannel ("SoD Report - " +++ today)
       [craft_report_section "SageVue" sagevue;
        craft_report_section "Dante Domain Manager" ddm;
        craft_report_section "Fusion" fusion]) ;;
  ret tt.

(** ** The polling loop *)

(** The jobs registered with [schedule] in the main block. *)
Inductive Job : Type :=
| job_get_dante_domains (reply : DdmReply (list string))
| job_enable_alerts
| job_run_report (today : string)
| job_disable_alerts.

Definition run_job (job : Job) : M unit :=
  match job with
  | job_get_dante_domains reply => get_dante_domains reply
  | job_enable_alerts => enable_alerts false
  | job_run_report today => run_report today
  | job_disable_alerts => disable_alerts false
  end.

(** [schedule.run_pending()]: runs the jobs that are due, in order; an
    exception of a job is not caught. *)
Definition schedule_run_pending (due : list Job) : M unit :=
  for_each due run_job.

(** What one round of the loop receives from outside. *)
Record Cycle : Type := mkCycle {
  fusion_db : FusionDb;
  sage_vue_api : SageVueApi;
  ddm_api : string -> DdmReply (list Device);
  due : list Job
}.

(** The [try] statement at the head of the loop body. *)
Definition poll_backends (c : Cycle) : M unit :=
  try_except
    (fusion_thread (fusion_db c) ;;
     sage_vue_thread (sage_vue_api c) ;;
     ddm_thread (ddm_api c))
    (fun e => click_echo (str e)).

(** The body of [while True] in [prog_thread]; the sleep that ends it
    changes nothing of the state. *)
Definition prog_cycle (c : Cycle) : M unit :=
  poll_backends c ;;
  send_alert_notif ;;
  schedule_run_pending (due c) ;;
  ret tt.

(** The loop over the rounds the inputs describe.  It returns [Val] when it
    is still running after them, and [Exc] when an exception ended it. *)
Fixpoint prog_loop (cycles : list Cycle) : M unit :=
  match cycles with
  | [] => ret tt
  | c :: rest => prog_cycle c ;; prog_loop rest
  end.

Definition prog_thread (domains : DdmReply (list string))
    (cycles : list Cycle) : M unit :=
  get_dante_domains domains ;;
  prog_loop cycles.

(** ** REST endpoints *)

Definition http_report (today : string) : M string :=
  run_report today ;; ret "Success".

Definition http_enable : M string := enable_alerts true ;; ret "Success".

Definition http_disable : M string := disable_alerts true ;; ret "Success".

(** ** Reading the scans

    The definitions below name what the scanning loops do, for the proofs:
    the faults a scan reads, the key and the notification of each, and the
    ones a scan reports as new. *)

(** The faults a scan reports: walking [items] in order, a fault is new
    when its key has not been seen (it was neither stored before the scan
    nor reported earlier in it) and the backend accepts it. *)
Fixpoint newly_active {X K : Type} (key : X -> K) (eqb : K -> K -> bool)
    (accept : X -> bool) (seen : K -> bool) (items : list X) : list X :=
  match items with
  | [] => []
  | x :: rest =>
      if negb (seen (key x)) && accept x
      then x :: newly_active key eqb accept
                  (fun k => seen k || eqb k (key x)) rest
      else newly_active key eqb accept seen rest
  end.

(** A call of [add_to_alert_notif_push]: the key the DDM and SageVue scans
    store for it, the line it queues, and whether the mute list stops it. *)
Definition push_key (p : Push) : string :=
  let '(_, device, message) := p in device +++ " - " +++ message.

Definition push_device (p : Push) : string :=
  let '(_, device, _) := p in device.

Definition push_line (p : Push) : string :=
  let '(category, device, message) := p in
  category +++ " - " +++ device +++ " - " +++ message.

Definition muted (ignore : list string) (p : Push) : bool :=
  let '(_, device, message) := p in
  any_in ignore device || any_in ignore message.

(** A DDM fault: which list it belongs to, and the two strings the scan
    builds its key and its notification from. *)
Record DdmFault : Type := mkDdmFault {
  is_offline : bool;
  fault_domain : string;
  fault_message : string
}.

Definition ddm_key (f : DdmFault) : string :=
  fault_domain f +++ " - " +++ fault_message f.

Definition ddm_tagged_key (f : DdmFault) : bool * string :=
  (is_offline f, ddm_key f).

Definition tagged_eqb (a b : bool * string) : bool :=
  Bool.eqb (fst a) (fst b) && String.eqb (snd a) (snd b).

Definition ddm_push (f : DdmFault) : Push :=
  ("DDM", fault_domain f, fault_message f).

Definition ddm_error_suffixes : list string :=
  [" has a subscription error."; " has a latency error.";
   " has a clocking error."].

(** The faults [ddm_device] reads off one device, in the order it tests
    them. *)
Definition ddm_device_faults (domain : string) (device : Device)
  : list DdmFault :=
  if String.eqb (connectivity device) "ERROR" then
    mkDdmFault true domain (name device +++ " is offline.")
    :: (if String.eqb (subscriptions device) "ERROR"
        then [mkDdmFault false domain (name device +++ " has a subscription error.")]
        else [])
    ++ (if String.eqb (latency device) "ERROR"
        then [mkDdmFault false domain (name device +++ " has a latency error.")]
        else [])
    ++ (if String.eqb (clocking device) "ERROR"
        then [mkDdmFault false domain (name device +++ " has a clocking error.")]
        else [])
  else [].

(** What [ddm_device] does for one fault. *)
Definition ddm_note (w : World) (f : DdmFault) : World :=
  if is_offline f then
    let w := set_DDM_TEMP_OFFLINE_LIST (DDM_TEMP_OFFLINE_LIST w ++ [ddm_key f]) w in
    if negb (py_in String.eqb (ddm_key f) (DDM_OFFLINE_LIST w)) then
      add_to_alert_notif_push "DDM" (fault_domain f) (fault_message f)
        (set_DDM_OFFLINE_LIST (DDM_OFFLINE_LIST w ++ [ddm_key f]) w)
    else w
  else
    let w := set_DDM_TEMP_LIST (DDM_TEMP_LIST w ++ [ddm_key f]) w in
    if negb (py_in String.eqb (ddm_key f) (DDM_ERROR_LIST w)) then
      add_to_alert_notif_push "DDM" (fault_domain f) (fault_message f)
        (set_DDM_ERROR_LIST (DDM_ERROR_LIST w ++ [ddm_key f]) w)
    else w.

(** The faults [ddm_scan] reads over the domains, and the exception that
    stopped it, if any. *)
Fixpoint ddm_read (api : string -> DdmReply (list Device))
    (domains : list string) : list DdmFault * option exn :=
  match domains with
  | [] => ([], None)
  | domain :: rest =>
      match api domain with
      | inl e => ([], Some e)
      | inr (code, devices) =>
          if (code =? 200)%nat then
            let (faults, stop) := ddm_read api rest in
            (flat_map (ddm_device_faults domain) devices ++ faults, stop)
          else
            ([], Some (Exception "Exception"
                         ("Unexpected status code returned: " +++ str_of_nat code)))
      end
  end.

Definition ddm_seen (w : World) (k : bool * string) : bool :=
  py_in String.eqb (snd k)
    (if fst k then DDM_OFFLINE_LIST w else DDM_ERROR_LIST w).

Definition ddm_newly_active (api : string -> DdmReply (list Device))
    (w : World) : list DdmFault :=
  newly_active ddm_tagged_key tagged_eqb (fun _ => true) (ddm_seen w)
    (fst (ddm_read api (DDM_DOMAINS w))).

(** The faults [sage_vue_scan] reads: those of the systems that are not
    "Green", in order. *)
Definition sage_vue_faults (systems : list System) : list (System * Fault) :=
  flat_map (fun system =>
              if negb (String.eqb (Status system) "Green")
              then map (pair system) (Faults system)
              else [])
    systems.

Definition error_id (sf : System * Fault) : string :=
  Description (fst sf) +++ " - " +++ FaultMessage (snd sf).

Definition sage_vue_push (sf : System * Fault) : Push :=
  ("SageVue", Description (fst sf), FaultMessage (snd sf)).

(** The test of the scan that keeps Dante mute and NTP faults out. *)
Definition sage_vue_accepts (sf : System * Fault) : bool :=
  negb (str_in "DAN1" (FaultMessage (snd sf)))
  && negb (str_in "NTP" (FaultMessage (snd sf))).

Definition sage_vue_newly_active (systems : list System) (w : World)
  : list (System * Fault) :=
  newly_active error_id String.eqb sage_vue_accepts
    (fun k => py_in String.eqb k (SageVue_Error_List w))
    (sage_vue_faults systems).

Definition fusion_offline_push (room_name : string) : Push :=
  ("Fusion", room_name, "Room has gone offline").

Definition fusion_accepts (room_name : string) : bool :=
  negb (any_in BLACKLISTED_KEYWORDS room_name).

Definition fusion_newly_offline (rows : list string) (w : World) : list string :=
  newly_active (fun r => r) String.eqb fusion_accepts
    (fun k => py_in String.eqb k (Fusion_Offline_List w)) rows.

Arguments muted : simpl never.
Arguments push_line : simpl never.
Arguments push_key : simpl never.
Arguments ddm_push : simpl never.
Arguments ddm_key : simpl never.
Arguments error_id : simpl never.
Arguments sage_vue_push : simpl never.
Arguments sage_vue_accepts : simpl never.
Arguments fusion_offline_push : simpl never.
Arguments fusion_accepts : simpl never.

(** The shape of the faults [ddm_device_faults] builds: the message of a
    fault of the offline list ends in " is offline.", that of a fault of the
    error list in one of the three error suffixes. *)
Definition ddm_fault_wf (f : DdmFault) : Prop :=
  if is_offline f
  then exists device, fault_message f = device +++ " is offline."
  else exists device suffix,
         In suffix ddm_error_suffixes /\ fault_message f = device +++ suffix.



(** The status the next webhook request will be answered with, if it is
    answered at all. *)
Definition next_response (w : World) : option nat :=
  match network w with
  | [] => Some 200
  | inr code :: _ => Some code
  | inl _ :: _ => None
  end.

(** Everything but the record of the webhook traffic is the same in [w]
    and [w']. *)
Definition lifecycle_unchanged (w w' : World) : Prop :=
  SEND_ALERTS w' = SEND_ALERTS w
  /\ DDM_DOMAINS w' = DDM_DOMAINS w
  /\ DDM_ERROR_LIST w' = DDM_ERROR_LIST w
  /\ DDM_OFFLINE_LIST w' = DDM_OFFLINE_LIST w
  /\ DDM_TEMP_LIST w' = DDM_TEMP_LIST w
  /\ DDM_TEMP_OFFLINE_LIST w' = DDM_TEMP_OFFLINE_LIST w
  /\ ALERTS_TEMP_IGNORE w' = ALERTS_TEMP_IGNORE w
  /\ ALERTS_NOTIF_LIST w' = ALERTS_NOTIF_LIST w
  /\ SageVue_SessionID w' = SageVue_SessionID w
  /\ SageVue_Error_List w' = SageVue_Error_List w
  /\ Fusion_Error_List w' = Fusion_Error_List w
  /\ Fusion_Offline_List w' = Fusion_Offline_List w
  /\ Fusion_Help_Request_List w' = Fusion_Help_Request_List w
  /\ DDM_Total_Errors w' = DDM_Total_Errors w
  /\ DDM_Missing_Devices w' = DDM_Missing_Devices w
  /\ Sagevue_Total_Errors w' = Sagevue_Total_Errors w
  /\ Sagevue_Missing_Devices w' = Sagevue_Missing_Devices w
  /\ console w' = console w
  /\ pushed w' = pushed w.

(** ** Sample inputs *)

(** A state with one Dante domain and nothing stored. *)
Definition one_domain : World := set_DDM_DOMAINS ["Studio A"] (initial []).

(** A device that is offline and has a latency error. *)
Definition amp_down : Device := mkDevice "amp-1" "ERROR" "OK" "ERROR" "OK".

Definition ddm_reports (devices : list Device) (domain : string)
  : DdmReply (list Device) := inr (200, devices).

(** A SageVue system in state "Red" with the given fault messages. *)
Definition red_rack (messages : list string) : System :=
  mkSystem "Red" "Rack 1" (map mkFault messages).

Definition sage_vue_answers (systems : list System) (errors : list string)
  : SageVueApi :=
  mkSageVueApi (inr 200) (inr "session") (inr (inr systems)) (inr (inr errors)).

(** A Fusion database in which the given rooms are offline and nothing else
    is wrong; [down] makes the connection fail. *)
Definition fusion_answers (down : option exn) (offline : list string)
  : FusionDb :=
  mkFusionDb down (inr offline) (inr []) (fun _ => inr []) (inr [])
    (fun _ => inr []).

Definition ConnectionError : exn :=
  Exception "ConnectionError" "connection refused".

(** A state whose DDM error list holds two errors of an earlier round. *)
Definition two_old_errors : World :=
  set_DDM_ERROR_LIST
    ["Studio A - amp-1 has a latency error.";
     "Studio A - amp-2 has a latency error."] one_domain.

(** A round in which all three backends answer: the SageVue rack has a fan
    failure, the Dante amplifier is down, and the Fusion database is
    reachable or not. *)
Definition busy_round (fusion_down : option exn) : Cycle :=
  mkCycle (fusion_answers fusion_down [])
    (sage_vue_answers [red_rack ["Fan failure"]] ["dsp-1 missing"])
    (ddm_reports [amp_down]) [].

(** A round in which no backend reports anything. *)
Definition quiet_round : Cycle :=
  mkCycle (fusion_answers None []) (sage_vue_answers [] []) (ddm_reports []) [].

(** Alerting is enabled, one alert is pending, and the webhook outcomes to
    come are [net]. *)
Definition one_pending (net : list (exn + nat)) : World :=
  set_SEND_ALERTS true
    (set_ALERTS_NOTIF_LIST ["DDM - Studio A - amp-1 is offline."] (initial net)).

(** One alert is muted by the keyword "offline" when the amplifier goes
    down. *)
Definition offline_muted : World := set_ALERTS_TEMP_IGNORE ["offline"] one_domain.

(** ** Further reading aids *)

(** What the removal loop leaves of a list without repetitions, read off by
    recursion on the list: an element that is current stays; one that is
    not is removed, and the element after it, which takes its place under
    the index, is passed over unexamined. *)
Fixpoint removal_sweep {A : Type} (eqb : A -> A -> bool)
    (current stored : list A) : list A :=
  match stored with
  | [] => []
  | x :: rest =>
      if py_in eqb x current then x :: removal_sweep eqb current rest
      else match rest with
           | [] => []
           | y :: rest' => y :: removal_sweep eqb current rest'
           end
  end.

(** No two neighbours of the list are both gone from [current]. *)
Fixpoint stale_isolated {A : Type} (eqb : A -> A -> bool)
    (current stored : list A) : Prop :=
  match stored with
  | [] => True
  | x :: rest =>
      match rest with
      | [] => True
      | y :: _ =>
          (py_in eqb x current = true \/ py_in eqb y current = true)
          /\ stale_isolated eqb current rest
      end
  end.

(** [sub] occurs in [s] as a substring. *)
Definition occurs_in (sub s : string) : Prop :=
  exists before after, s = before +++ sub +++ after.

(** A property of the state that a computation keeps, whether it returns or
    raises. *)
Definition preserves {A : Type} (P : World -> Prop) (m : M A) : Prop :=
  forall w, P w -> P (snd (m w)).

(** The exception [run_ddm_query] raises for a reply, if it raises. *)
Definition ddm_query_error {J : Type} (reply : DdmReply J) : option exn :=
  match reply with
  | inl e => Some e
  | inr (code, _) =>
      if (code =? 200)%nat then None
      else Some (Exception "Exception"
                   ("Unexpected status code returned: " +++ str_of_nat code))
  end.

(** The Fusion error loop: the test that keeps notices and "ok" messages
    out, and the call made for a room that passes it.  A room without a
    message never gets that far. *)
Definition fusion_error_accepts (room : Room) : bool :=
  match RawSerialValues room with
  | [] => false
  | message :: _ =>
      negb (str_in "1:notice" message) && negb (str_in "0:ok" message)
  end.

Definition fusion_error_push (room : Room) : Push :=
  ("Fusion", RoomName room, hd "" (RawSerialValues room)).

(** Every room of the Fusion error list carries a message. *)
Definition error_rooms_have_message (w : World) : Prop :=
  forall room, In room (Fusion_Error_List w) -> RawSerialValues room <> [].

Arguments fusion_error_accepts : simpl never.
Arguments fusion_error_push : simpl never.

(** What each backend thread has no business with: the fields of [w] that
    the thread of the name must find again in [w']. *)
Definition outside_fusion (w w' : World) : Prop :=
  SEND_ALERTS w' = SEND_ALERTS w
  /\ DDM_DOMAINS w' = DDM_DOMAINS w
  /\ DDM_ERROR_LIST w' = DDM_ERROR_LIST w
  /\ DDM_OFFLINE_LIST w' = DDM_OFFLINE_LIST w
  /\ DDM_TEMP_LIST w' = DDM_TEMP_LIST w
  /\ DDM_TEMP_OFFLINE_LIST w' = DDM_TEMP_OFFLINE_LIST w
  /\ ALERTS_TEMP_IGNORE w' = ALERTS_TEMP_IGNORE w
  /\ SageVue_SessionID w' = SageVue_SessionID w
  /\ SageVue_Error_List w' = SageVue_Error_List w
  /\ DDM_Total_Errors w' = DDM_Total_Errors w
  /\ DDM_Missing_Devices w' = DDM_Missing_Devices w
  /\ Sagevue_Total_Errors w' = Sagevue_Total_Errors w
  /\ Sagevue_Missing_Devices w' = Sagevue_Missing_Devices w
  /\ console w' = console w.

Definition outside_sage_vue (w w' : World) : Prop :=
  SEND_ALERTS w' = SEND_ALERTS w
  /\ DDM_DOMAINS w' = DDM_DOMAINS w
  /\ DDM_ERROR_LIST w' = DDM_ERROR_LIST w
  /\ DDM_OFFLINE_LIST w' = DDM_OFFLINE_LIST w
  /\ DDM_TEMP_LIST w' = DDM_TEMP_LIST w
  /\ DDM_TEMP_OFFLINE_LIST w' = DDM_TEMP_OFFLINE_LIST w
  /\ ALERTS_TEMP_IGNORE w' = ALERTS_TEMP_IGNORE w
  /\ Fusion_Error_List w' = Fusion_Error_List w
  /\ Fusion_Offline_List w' = Fusion_Offline_List w
  /\ Fusion_Help_Request_List w' = Fusion_Help_Request_List w
  /\ DDM_Total_Errors w' = DDM_Total_Errors w
  /\ DDM_Missing_Devices w' = DDM_Missing_Devices w
  /\ posted w' = posted w
  /\ network w' = network w.

Definition outside_ddm (w w' : World) : Prop :=
  SEND_ALERTS w' = SEND_ALERTS w
  /\ DDM_DOMAINS w' = DDM_DOMAINS w
  /\ ALERTS_TEMP_IGNORE w' = ALERTS_TEMP_IGNORE w
  /\ SageVue_SessionID w' = SageVue_SessionID w
  /\ SageVue_Error_List w' = SageVue_Error_List w
  /\ Fusion_Error_List w' = Fusion_Error_List w
  /\ Fusion_Offline_List w' = Fusion_Offline_List w
  /\ Fusion_Help_Request_List w' = Fusion_Help_Request_List w
  /\ Sagevue_Total_Errors w' = Sagevue_Total_Errors w
  /\ Sagevue_Missing_Devices w' = Sagevue_Missing_Devices w
  /\ posted w' = posted w
  /\ network w' = network w.

(** Alerting is off and the webhook traffic is what it was in [w]. *)
Definition silent_since (w w' : World) : Prop :=
  SEND_ALERTS w' = false /\ posted w' = posted w /\ network w' = network w.

(** The exception of [room[2]] on a room without a message. *)
Definition IndexError : exn := Exception "IndexError" "list index out of range".

(** The second query of a Fusion section answers with [messages id] for
    every row of the first. *)
Definition messages_answered (query : string -> exn + list string)
    (messages : string -> list string) (rows : list (string * string)) : Prop :=
  forall room_name room_id,
    In (room_name, room_id) rows -> query room_id = inr (messages room_id).

(** A round in which the Fusion error query lists a room for which the
    message query has no row. *)
Definition round_with_bare_error_room : Cycle :=
  mkCycle
    (mkFusionDb None (inr []) (inr [("Room 101", "17")]) (fun _ => inr [])
       (inr []) (fun _ => inr []))
    (sage_vue_answers [red_rack ["Fan failure"]] ["dsp-1 missing"])
    (ddm_reports [amp_down]) [].

(** A room asking for help. *)
Definition room_101_help : Room := mkRoom "Room 101" "17" ["Projector is dark"].

(** Every device the DDM API lists is reachable. *)
Definition all_reachable (api : string -> DdmReply (list Device)) : Prop :=
  forall domain code devices device,
    api domain = inr (code, devices) -> In device devices ->
    connectivity device <> "ERROR".

(** A reachable device with a subscription, a latency and a clocking error. *)
Definition amp_out_of_sync : Device :=
  mkDevice "amp-2" "OK" "ERROR" "ERROR" "ERROR".

(** The DDM API answers with status 503. *)
Definition ddm_unavailable (domain : string) : DdmReply (list Device) :=
  inr (503, []).

(** A state whose DDM offline list holds four devices of an earlier round. *)
Definition four_offline : World :=
  set_DDM_OFFLINE_LIST
    ["Studio A - amp-1 is offline."; "Studio A - amp-2 is offline.";
     "Studio A - amp-3 is offline."; "Studio A - amp-4 is offline."]
    one_domain.

(** One of the requests that [sage_vue_thread] makes before its scan fails
    with [e]: the authentication check, the login after a check answered
    with 400 or 401, the systems or the devices request, or the decoding of
    the systems answer. *)
Definition sage_vue_request_fails (api : SageVueApi) (e : exn) : Prop :=
  auth_query api = inl e
  \/ ((auth_query api = inr 400 \/ auth_query api = inr 401)
      /\ login api = inl e)
  \/ systems_get api = inl e
  \/ devices_get api = inl e
  \/ systems_get api = inr (inl e).

(** The systems are read, the devices request times out. *)
Definition devices_time_out : SageVueApi :=
  mkSageVueApi (inr 200) (inr "session")
    (inr (inr [red_rack ["Fan failure"]]))
    (inl (Exception "ReadTimeout" "timed out")).

(** A state with two stored DDM errors and one stored offline device. *)
Definition errors_and_offline : World :=
  set_DDM_OFFLINE_LIST ["Studio A - amp-3 is offline."] two_old_errors.

(** None of the lists the threads keep between rounds holds an entry
    twice. *)
Definition stored_lists_NoDup (w : World) : Prop :=
  NoDup (DDM_ERROR_LIST w)
  /\ NoDup (DDM_OFFLINE_LIST w)
  /\ NoDup (SageVue_Error_List w)
  /\ NoDup (Fusion_Offline_List w)
  /\ NoDup (Fusion_Error_List w)
  /\ NoDup (Fusion_Help_Request_List w).

(** The rooms the Fusion error loop reports: those of [rooms] that are not
    stored, in order and each once, whose message passes the test. *)
Definition fusion_newly_failing (rooms : list Room) (w : World) : list Room :=
  newly_active (fun room => room) Room_eqb fusion_error_accepts
    (fun room => py_in Room_eqb room (Fusion_Error_List w)) rooms.

(** Two rooms with an error message and one whose message is a notice. *)
Definition three_error_rooms : list Room :=
  [mkRoom "Room 101" "17" ["2:error Projector lamp"];
   mkRoom "Room 102" "18" ["1:notice Firmware available"];
   mkRoom "Room 101" "17" ["2:error Projector lamp"]].

(** The request [send_help_request] makes for a room. *)
Definition help_post (room : Room) : Post :=
  mkPost usingHelpRequestChannel "Help Request Alert"
    [Message ("Room - " +++ RoomName room);
     Message ("Customer says: " +++ hd "" (RawSerialValues room))].

(** The rooms of [rooms] that are not on the help list, in order and each
    once. *)
Definition fusion_newly_asking (rooms : list Room) (w : World) : list Room :=
  newly_active (fun room => room) Room_eqb (fun _ => true)
    (fun room => py_in Room_eqb room (Fusion_Help_Request_List w)) rooms.

(** None of the webhook requests to come raises. *)
Definition webhook_answers (w : World) : Prop :=
  forall e, ~ In (inl e) (network w).

(** A Fusion database whose error query lists two rooms: the message query
    has no row for the first and an error message for the second. *)
Definition lamp_messages (room_id : string) : list string :=
  if String.eqb room_id "18" then ["2:error Projector lamp"] else [].

Definition bare_room_first : FusionDb :=
  mkFusionDb None (inr []) (inr [("Room 101", "17"); ("Room 102", "18")])
    (fun room_id => inr (lamp_messages room_id)) (inr []) (fun _ => inr []).


(** * Properties *)

(** ** Lists the Python way *)

Section PyLists.
Context {A : Type} (eqb : A -> A -> bool).
Hypothesis eqb_eq : forall a b, eqb a b = true <-> a = b.

Lemma py_in_In (x : A) (l : list A) : py_in eqb x l = true <-> In x l.
Proof.
  unfold py_in. rewrite existsb_exists. split.
  - intros [y [Hy Heq]]. apply eqb_eq in Heq. now subst.
  - intros H. exists x. split; [assumption | now apply eqb_eq].
Qed.

Lemma py_in_false (x : A) (l : list A) : py_in eqb x l = false <-> ~ In x l.
Proof.
  rewrite <- py_in_In. destruct (py_in eqb x l); split; congruence.
Qed.

Lemma py_in_snoc (k x : A) (l : list A) :
  py_in eqb k (l ++ [x]) = py_in eqb k l || eqb k x.
Proof.
  unfold py_in. rewrite existsb_app. simpl. now rewrite orb_false_r.
Qed.

Lemma list_remove_length (x : A) (l l' : list A) :
  list_remove eqb x l = Some l' -> length l = S (length l').
Proof.
  revert l'. induction l as [|y l IH]; simpl; intros l' H; [discriminate|].
  destruct (eqb y x).
  - now inversion H.
  - destruct (list_remove eqb x l) as [r|]; [|discriminate].
    inversion H; subst. simpl. f_equal. now apply IH.
Qed.

Lemma list_remove_present (x : A) (l : list A) :
  In x l -> exists l', list_remove eqb x l = Some l'.
Proof.
  induction l as [|y l IH]; simpl; intros H; [contradiction|].
  destruct (eqb y x) eqn:E; [now eexists|].
  destruct H as [H|H].
  - subst. assert (eqb x x = true) by now apply eqb_eq. congruence.
  - destruct (IH H) as [l' ->]. now eexists.
Qed.

Lemma list_remove_incl (x y : A) (l l' : list A) :
  list_remove eqb x l = Some l' -> In y l' -> In y l.
Proof.
  revert l'. induction l as [|z l IH]; simpl; intros l' H Hy; [discriminate|].
  destruct (eqb z x).
  - inversion H; subst. now right.
  - destruct (list_remove eqb x l) as [r|]; [|discriminate].
    inversion H; subst. destruct Hy as [Hy|Hy]; [now left|].
    right. now apply IH with r.
Qed.

Lemma list_remove_other (x y : A) (l l' : list A) :
  list_remove eqb x l = Some l' -> In y l -> y <> x -> In y l'.
Proof.
  revert l'. induction l as [|z l IH]; simpl; intros l' H Hy Hne; [discriminate|].
  destruct (eqb z x) eqn:E.
  - inversion H; subst. apply eqb_eq in E. subst.
    destruct Hy as [Hy|Hy]; [congruence | assumption].
  - destruct (list_remove eqb x l) as [r|]; [|discriminate].
    inversion H; subst. destruct Hy as [Hy|Hy]; [now left|].
    right. now apply IH.
Qed.

Lemma list_remove_NoDup (x : A) (l l' : list A) :
  list_remove eqb x l = Some l' -> NoDup l -> NoDup l'.
Proof.
  revert l'. induction l as [|z l IH]; simpl; intros l' H Hnd; [discriminate|].
  inversion Hnd as [|? ? Hz Hl]; subst.
  destruct (eqb z x).
  - now inversion H; subst.
  - destruct (list_remove eqb x l) as [r|] eqn:E; [|discriminate].
    inversion H; subst. constructor.
    + intros Hin. apply Hz. now apply (list_remove_incl x z l r).
    + now apply IH.
Qed.

(** *** The removal loop *)

(** Its rounds never outnumber the elements: once the index has passed
    the end, more fuel changes nothing. *)
Lemma remove_inactive_from_S (current : list A) (fuel i : nat)
    (stored : list A) :
  remove_inactive_from eqb current (S fuel) i stored
  = match nth_error stored i with
    | None => stored
    | Some error =>
        if negb (py_in eqb error current) then
          match list_remove eqb error stored with
          | Some stored' => remove_inactive_from eqb current fuel (S i) stored'
          | None => stored
          end
        else remove_inactive_from eqb current fuel (S i) stored
    end.
Proof. reflexivity. Qed.

Lemma remove_inactive_from_more (current : list A) (fuel i : nat)
    (stored : list A) :
  length stored <= i + fuel ->
  remove_inactive_from eqb current (S fuel) i stored
  = remove_inactive_from eqb current fuel i stored.
Proof.
  revert i stored. induction fuel as [|fuel IH]; intros i stored Hlen.
  - simpl. destruct (nth_error stored i) eqn:E; [|reflexivity].
    assert (nth_error stored i <> None) as Hn by congruence.
    apply nth_error_Some in Hn. lia.
  - rewrite (remove_inactive_from_S current fuel i stored).
    rewrite (remove_inactive_from_S current (S fuel) i stored).
    destruct (nth_error stored i) as [error|]; [|reflexivity].
    destruct (negb (py_in eqb error current)).
    + destruct (list_remove eqb error stored) as [stored'|] eqn:E; [|reflexivity].
      apply IH. apply list_remove_length in E. lia.
    + apply IH. lia.
Qed.

Lemma remove_inactive_fuel (current stored : list A) (extra : nat) :
  remove_inactive_from eqb current (length stored + extra) 0 stored
  = remove_inactive eqb current stored.
Proof.
  unfold remove_inactive. induction extra as [|extra IH].
  - now rewrite Nat.add_0_r.
  - rewrite Nat.add_succ_r, remove_inactive_from_more; [assumption | lia].
Qed.

(** Nothing is removed when every stored element is still current. *)
Lemma remove_inactive_from_all_current (current : list A) (fuel i : nat)
    (stored : list A) :
  (forall x, In x stored -> In x current) ->
  remove_inactive_from eqb current fuel i stored = stored.
Proof.
  intros Hall. revert i. induction fuel as [|fuel IH]; intros i; simpl;
    [reflexivity|].
  destruct (nth_error stored i) as [error|] eqn:E; [|reflexivity].
  apply nth_error_In in E. apply Hall, py_in_In in E. rewrite E. simpl.
  apply IH.
Qed.

Lemma remove_inactive_all_current (current stored : list A) :
  (forall x, In x stored -> In x current) ->
  remove_inactive eqb current stored = stored.
Proof. apply remove_inactive_from_all_current. Qed.

(** The loop only removes: what it leaves was there before. *)
Lemma remove_inactive_from_incl (current : list A) (fuel i : nat)
    (stored : list A) (x : A) :
  In x (remove_inactive_from eqb current fuel i stored) -> In x stored.
Proof.
  revert i stored. induction fuel as [|fuel IH]; intros i stored; simpl;
    [trivial|].
  destruct (nth_error stored i) as [error|]; [|trivial].
  destruct (negb (py_in eqb error current)).
  - destruct (list_remove eqb error stored) as [stored'|] eqn:E; [|trivial].
    intros H. apply IH in H. now apply (list_remove_incl error x stored stored').
  - apply IH.
Qed.

Lemma remove_inactive_incl (current stored : list A) (x : A) :
  In x (remove_inactive eqb current stored) -> In x stored.
Proof. apply remove_inactive_from_incl. Qed.

(** It never removes an element that is current. *)
Lemma remove_inactive_from_keeps (current : list A) (fuel i : nat)
    (stored : list A) (x : A) :
  In x stored -> In x current ->
  In x (remove_inactive_from eqb current fuel i stored).
Proof.
  intros Hs Hc. revert i stored Hs.
  induction fuel as [|fuel IH]; intros i stored Hs; simpl; [assumption|].
  destruct (nth_error stored i) as [error|]; [|assumption].
  destruct (py_in eqb error current) eqn:Ein; simpl.
  - now apply IH.
  - destruct (list_remove eqb error stored) as [stored'|] eqn:E; [|assumption].
    apply IH. apply (list_remove_other error x stored stored' E Hs).
    intros ->. apply py_in_false in Ein. contradiction.
Qed.

Lemma remove_inactive_keeps (current stored : list A) (x : A) :
  In x stored -> In x current -> In x (remove_inactive eqb current stored).
Proof. apply remove_inactive_from_keeps. Qed.

Lemma remove_inactive_from_NoDup (current : list A) (fuel i : nat)
    (stored : list A) :
  NoDup stored -> NoDup (remove_inactive_from eqb current fuel i stored).
Proof.
  revert i stored. induction fuel as [|fuel IH]; intros i stored Hnd; simpl;
    [assumption|].
  destruct (nth_error stored i) as [error|]; [|assumption].
  destruct (negb (py_in eqb error current)).
  - destruct (list_remove eqb error stored) as [stored'|] eqn:E; [|assumption].
    apply IH. now apply (list_remove_NoDup error stored).
  - now apply IH.
Qed.

End PyLists.

(** ** What a scan reports as new *)

Section NewlyActive.
Context {X K : Type} (key : X -> K) (eqb : K -> K -> bool) (accept : X -> bool).
Hypothesis eqb_eq : forall a b, eqb a b = true <-> a = b.

Lemma newly_active_ext (seen1 seen2 : K -> bool) (items : list X) :
  (forall k, seen1 k = seen2 k) ->
  newly_active key eqb accept seen1 items
  = newly_active key eqb accept seen2 items.
Proof.
  revert seen1 seen2. induction items as [|x rest IH]; intros s1 s2 Hs; simpl;
    [reflexivity|].
  rewrite (Hs (key x)). destruct (negb (s2 (key x)) && accept x).
  - f_equal. apply IH. intros k. now rewrite Hs.
  - now apply IH.
Qed.

(** A reported fault was read, is accepted, and its key was not stored. *)
Lemma newly_active_In (seen : K -> bool) (items : list X) (x : X) :
  In x (newly_active key eqb accept seen items) ->
  In x items /\ accept x = true /\ seen (key x) = false.
Proof.
  revert seen. induction items as [|y rest IH]; intros seen; simpl;
    [contradiction|].
  destruct (seen (key y)) eqn:Es; simpl.
  - intros H. apply IH in H. tauto.
  - destruct (accept y) eqn:Ea.
    + intros [H|H].
      * subst. tauto.
      * apply IH in H. destruct H as (H1 & H2 & H3).
        apply orb_false_iff in H3. tauto.
    + intros H. apply IH in H. tauto.
Qed.

(** No key is reported twice. *)
Lemma newly_active_NoDup (seen : K -> bool) (items : list X) :
  NoDup (map key (newly_active key eqb accept seen items)).
Proof.
  revert seen. induction items as [|y rest IH]; intros seen; simpl;
    [constructor|].
  destruct (negb (seen (key y)) && accept y); [|apply IH].
  simpl. constructor; [|apply IH].
  intros Hin. apply in_map_iff in Hin. destruct Hin as [z [Hk Hz]].
  apply newly_active_In in Hz. destruct Hz as (_ & _ & Hs).
  apply orb_false_iff in Hs. destruct Hs as [_ Hs].
  assert (eqb (key z) (key y) = true) by now apply eqb_eq.
  congruence.
Qed.

(** Every accepted fault with a key that was not stored has its key
    reported. *)
Lemma newly_active_complete (seen : K -> bool) (items : list X) (x : X) :
  In x items -> accept x = true -> seen (key x) = false ->
  In (key x) (map key (newly_active key eqb accept seen items)).
Proof.
  revert seen. induction items as [|y rest IH]; intros seen Hin Ha Hs;
    [contradiction|].
  simpl. destruct Hin as [->|Hin].
  - rewrite Hs, Ha. simpl. now left.
  - destruct (negb (seen (key y)) && accept y) eqn:E.
    + simpl. destruct (eqb (key x) (key y)) eqn:Ek.
      * apply eqb_eq in Ek. left. congruence.
      * right. apply IH; try assumption. now rewrite Hs, Ek.
    + now apply IH.
Qed.

(** Nothing is reported when every accepted fault has its key stored. *)
Lemma newly_active_none (seen : K -> bool) (items : list X) :
  (forall x, In x items -> accept x = true -> seen (key x) = true) ->
  newly_active key eqb accept seen items = [].
Proof.
  intros Hall. induction items as [|y rest IH]; [reflexivity|]. simpl.
  destruct (accept y) eqn:Ea.
  - rewrite (Hall y (or_introl eq_refl) Ea). simpl.
    apply IH. intros x Hx. apply Hall. now right.
  - rewrite andb_false_r. apply IH. intros x Hx. apply Hall. now right.
Qed.

End NewlyActive.

(** ** Strings *)

Lemma list_ascii_of_string_app (a b : string) :
  list_ascii_of_string (a +++ b)
  = list_ascii_of_string a ++ list_ascii_of_string b.
Proof. induction a as [|c a IH]; simpl; [reflexivity | now rewrite IH]. Qed.

Lemma rev_chars_app (a b : string) :
  rev (list_ascii_of_string (a +++ b))
  = rev (list_ascii_of_string b) ++ rev (list_ascii_of_string a).
Proof. now rewrite list_ascii_of_string_app, rev_app_distr. Qed.

(** A key of the offline list is never a key of the error list. *)
Lemma offline_key_not_error_key (p q suffix : string) :
  In suffix ddm_error_suffixes ->
  p +++ " is offline." <> q +++ suffix.
Proof.
  intros Hs Heq. apply (f_equal (fun s => rev (list_ascii_of_string s))) in Heq.
  rewrite !rev_chars_app in Heq.
  destruct Hs as [<-|[<-|[<-|[]]]]; simpl in Heq; discriminate.
Qed.

Lemma append_assoc (a b c : string) : (a +++ b) +++ c = a +++ b +++ c.
Proof. induction a as [|x a IH]; simpl; [reflexivity | now rewrite IH]. Qed.

Lemma tagged_eqb_eq (a b : bool * string) : tagged_eqb a b = true <-> a = b.
Proof.
  destruct a as [t1 k1], b as [t2 k2]. unfold tagged_eqb. simpl.
  rewrite andb_true_iff, Bool.eqb_true_iff, String.eqb_eq.
  split; [intros [-> ->]; reflexivity | intros H; inversion H; tauto].
Qed.

(** ** Rooms *)

Lemma list_eqb_eq (l1 l2 : list string) :
  list_eqb String.eqb l1 l2 = true <-> l1 = l2.
Proof.
  revert l2. induction l1 as [|x r1 IH]; intros [|y r2]; simpl;
    try (split; [discriminate | congruence]); [tauto|].
  rewrite andb_true_iff, String.eqb_eq, IH.
  split; [intros [-> ->]; reflexivity | intros H; inversion H; tauto].
Qed.

Lemma Room_eqb_eq (a b : Room) : Room_eqb a b = true <-> a = b.
Proof.
  destruct a as [n1 i1 m1], b as [n2 i2 m2]. unfold Room_eqb. simpl.
  rewrite !andb_true_iff, !String.eqb_eq, list_eqb_eq.
  split; [intros [[-> ->] ->]; reflexivity | intros H; inversion H; tauto].
Qed.

(** ** The DDM scan *)

Lemma ddm_connectivity_error_note (domain : string) (device : Device)
    (w : World) :
  ddm_connectivity_error domain device w
  = ddm_note w (mkDdmFault true domain (name device +++ " is offline.")).
Proof. reflexivity. Qed.

Lemma ddm_subscription_error_note (domain : string) (device : Device)
    (w : World) :
  ddm_subscription_error domain device w
  = ddm_note w (mkDdmFault false domain
                  (name device +++ " has a subscription error.")).
Proof. reflexivity. Qed.

Lemma ddm_latency_error_note (domain : string) (device : Device) (w : World) :
  ddm_latency_error domain device w
  = ddm_note w (mkDdmFault false domain
                  (name device +++ " has a latency error.")).
Proof. reflexivity. Qed.

Lemma ddm_clocking_error_note (domain : string) (device : Device) (w : World) :
  ddm_clocking_error domain device w
  = ddm_note w (mkDdmFault false domain
                  (name device +++ " has a clocking error.")).
Proof. reflexivity. Qed.

(** [ddm_device] handles the faults of a device one after the other. *)
Lemma ddm_device_notes (domain : string) (device : Device) (w : World) :
  ddm_device domain device w
  = fold_left ddm_note (ddm_device_faults domain device) w.
Proof.
  unfold ddm_device, ddm_device_faults.
  destruct (String.eqb (connectivity device) "ERROR"); [|reflexivity].
  cbv zeta. rewrite ddm_connectivity_error_note.
  destruct (String.eqb (subscriptions device) "ERROR");
    destruct (String.eqb (latency device) "ERROR");
    destruct (String.eqb (clocking device) "ERROR");
    rewrite ?ddm_clocking_error_note, ?ddm_latency_error_note,
      ?ddm_subscription_error_note;
    cbn [fold_left app]; reflexivity.
Qed.

Lemma ddm_devices_notes (domain : string) (devices : list Device) (w : World) :
  fold_left (fun w device => ddm_device domain device w) devices w
  = fold_left ddm_note (flat_map (ddm_device_faults domain) devices) w.
Proof.
  revert w. induction devices as [|device rest IH]; intros w; simpl;
    [reflexivity|].
  now rewrite fold_left_app, IH, ddm_device_notes.
Qed.

Lemma ddm_note_domains (w : World) (f : DdmFault) :
  DDM_DOMAINS (ddm_note w f) = DDM_DOMAINS w.
Proof.
  unfold ddm_note, add_to_alert_notif_push.
  repeat match goal with |- context [if ?b then _ else _] => destruct b end;
    reflexivity.
Qed.

Lemma ddm_notes_domains (items : list DdmFault) (w : World) :
  DDM_DOMAINS (fold_left ddm_note items w) = DDM_DOMAINS w.
Proof.
  revert w. induction items as [|f rest IH]; intros w; simpl; [reflexivity|].
  now rewrite IH, ddm_note_domains.
Qed.

(** The scan handles the faults [ddm_read] lists, and stops with the
    exception it names. *)
Lemma ddm_scan_read (api : string -> DdmReply (list Device)) (w : World) :
  ddm_scan api w
  = (match snd (ddm_read api (DDM_DOMAINS w)) with
     | None => Val tt
     | Some e => Exc e
     end,
     fold_left ddm_note (fst (ddm_read api (DDM_DOMAINS w))) w).
Proof.
  unfold ddm_scan, bind, gets. generalize (DDM_DOMAINS w) as domains.
  intros domains. revert w.
  induction domains as [|domain rest IH]; intros w; [reflexivity|].
  simpl. unfold bind at 1. unfold run_ddm_query, bind.
  destruct (api domain) as [e|[code devices]]; [reflexivity|].
  destruct (code =? 200)%nat; [|reflexivity].
  unfold ret, modify. rewrite IH, ddm_devices_notes.
  destruct (ddm_read api rest) as [faults stop]. simpl.
  now rewrite fold_left_app.
Qed.

Lemma ddm_note_fields (w : World) (f : DdmFault) :
  let fresh := negb (ddm_seen w (ddm_tagged_key f)) in
  let w' := ddm_note w f in
  DDM_TEMP_OFFLINE_LIST w'
  = DDM_TEMP_OFFLINE_LIST w ++ (if is_offline f then [ddm_key f] else [])
  /\ DDM_TEMP_LIST w'
     = DDM_TEMP_LIST w ++ (if is_offline f then [] else [ddm_key f])
  /\ DDM_OFFLINE_LIST w'
     = DDM_OFFLINE_LIST w ++ (if is_offline f && fresh then [ddm_key f] else [])
  /\ DDM_ERROR_LIST w'
     = DDM_ERROR_LIST w
       ++ (if negb (is_offline f) && fresh then [ddm_key f] else [])
  /\ pushed w' = pushed w ++ (if fresh then [ddm_push f] else [])
  /\ ALERTS_NOTIF_LIST w'
     = ALERTS_NOTIF_LIST w
       ++ (if fresh && negb (muted (ALERTS_TEMP_IGNORE w) (ddm_push f))
           then [push_line (ddm_push f)] else [])
  /\ ALERTS_TEMP_IGNORE w' = ALERTS_TEMP_IGNORE w.
Proof.
  unfold ddm_note, ddm_seen, ddm_tagged_key, add_to_alert_notif_push, muted,
    ddm_push, push_line.
  destruct (is_offline f); simpl;
    match goal with |- context [py_in String.eqb ?k ?l] =>
      destruct (py_in String.eqb k l) end; simpl;
    try match goal with |- context [any_in ?i ?d || any_in ?i ?m] =>
      destruct (any_in i d); destruct (any_in i m) end; simpl;
    rewrite ?app_nil_r; repeat split; reflexivity.
Qed.

Lemma ddm_note_seen (w : World) (f : DdmFault) (k : bool * string) :
  ddm_seen (ddm_note w f) k
  = ddm_seen w k
    || (negb (ddm_seen w (ddm_tagged_key f)) && tagged_eqb k (ddm_tagged_key f)).
Proof.
  destruct (ddm_note_fields w f) as (_ & _ & Hoff & Herr & _).
  unfold ddm_seen at 1. rewrite Hoff, Herr.
  destruct k as [tag k]. unfold tagged_eqb, ddm_tagged_key. simpl.
  set (fresh := negb (ddm_seen w (is_offline f, ddm_key f))).
  destruct tag, (is_offline f), fresh; simpl;
    rewrite ?app_nil_r, ?(py_in_snoc String.eqb), ?orb_false_r;
    reflexivity.
Qed.

(** The fields after a scan of [items], in terms of the faults it reports
    as new. *)
Lemma ddm_notes_fields (items : list DdmFault) (w : World) :
  let new := newly_active ddm_tagged_key tagged_eqb (fun _ => true)
               (ddm_seen w) items in
  let w' := fold_left ddm_note items w in
  DDM_TEMP_OFFLINE_LIST w'
  = DDM_TEMP_OFFLINE_LIST w ++ map ddm_key (filter is_offline items)
  /\ DDM_TEMP_LIST w'
     = DDM_TEMP_LIST w
       ++ map ddm_key (filter (fun f => negb (is_offline f)) items)
  /\ DDM_OFFLINE_LIST w'
     = DDM_OFFLINE_LIST w ++ map ddm_key (filter is_offline new)
  /\ DDM_ERROR_LIST w'
     = DDM_ERROR_LIST w
       ++ map ddm_key (filter (fun f => negb (is_offline f)) new)
  /\ pushed w' = pushed w ++ map ddm_push new
  /\ ALERTS_NOTIF_LIST w'
     = ALERTS_NOTIF_LIST w
       ++ map push_line
            (filter (fun p => negb (muted (ALERTS_TEMP_IGNORE w) p))
               (map ddm_push new))
  /\ ALERTS_TEMP_IGNORE w' = ALERTS_TEMP_IGNORE w.
Proof.
  revert w. induction items as [|f rest IH]; intros w.
  - simpl. now rewrite !app_nil_r.
  - cbv zeta in *. change (fold_left ddm_note (f :: rest) w)
      with (fold_left ddm_note rest (ddm_note w f)).
    destruct (IH (ddm_note w f)) as (H1 & H2 & H3 & H4 & H5 & H6 & H7).
    destruct (ddm_note_fields w f) as (F1 & F2 & F3 & F4 & F5 & F6 & F7).
    cbv zeta in *.
    rewrite H1, H2, H3, H4, H5, H6, H7, F1, F2, F3, F4, F5, F6, F7.
    rewrite (newly_active_ext ddm_tagged_key tagged_eqb (fun _ => true)
               (ddm_seen (ddm_note w f))
               (fun k => ddm_seen w k
                         || (negb (ddm_seen w (ddm_tagged_key f))
                             && tagged_eqb k (ddm_tagged_key f)))
               rest (ddm_note_seen w f)).
    simpl. destruct (ddm_seen w (ddm_tagged_key f)) eqn:Eseen; simpl.
    + rewrite (newly_active_ext ddm_tagged_key tagged_eqb (fun _ => true)
                 (fun k => ddm_seen w k || false) (ddm_seen w) rest
                 (fun k => orb_false_r _)).
      rewrite !andb_false_r.
      destruct (is_offline f); simpl; rewrite ?app_nil_r, <- ?app_assoc;
        repeat split; reflexivity.
    + rewrite !andb_true_r.
      destruct (is_offline f) eqn:Eoff; simpl; rewrite ?Eoff; simpl;
        destruct (muted (ALERTS_TEMP_IGNORE w) (ddm_push f)); simpl;
        rewrite ?app_nil_r, <- ?app_assoc; repeat split; reflexivity.
Qed.

(** One run of [ddm_thread]: it never raises, and its fields afterwards are
    those of the scan followed by the two removal loops. *)
Lemma ddm_thread_fields (api : string -> DdmReply (list Device)) (w : World) :
  let items := fst (ddm_read api (DDM_DOMAINS w)) in
  let new := ddm_newly_active api w in
  let w' := exec (ddm_thread api) w in
  result (ddm_thread api) w = Val tt
  /\ DDM_TEMP_OFFLINE_LIST w' = map ddm_key (filter is_offline items)
  /\ DDM_TEMP_LIST w'
     = map ddm_key (filter (fun f => negb (is_offline f)) items)
  /\ DDM_OFFLINE_LIST w'
     = remove_inactive String.eqb (DDM_TEMP_OFFLINE_LIST w')
         (DDM_OFFLINE_LIST w ++ map ddm_key (filter is_offline new))
  /\ DDM_ERROR_LIST w'
     = remove_inactive String.eqb (DDM_TEMP_LIST w')
         (DDM_ERROR_LIST w
          ++ map ddm_key (filter (fun f => negb (is_offline f)) new))
  /\ pushed w' = pushed w ++ map ddm_push new
  /\ ALERTS_NOTIF_LIST w'
     = ALERTS_NOTIF_LIST w
       ++ map push_line
            (filter (fun p => negb (muted (ALERTS_TEMP_IGNORE w) p))
               (map ddm_push new))
  /\ ALERTS_TEMP_IGNORE w' = ALERTS_TEMP_IGNORE w
  /\ DDM_DOMAINS w' = DDM_DOMAINS w
  /\ DDM_Missing_Devices w' = length (DDM_OFFLINE_LIST w')
  /\ DDM_Total_Errors w' = length (DDM_ERROR_LIST w').
Proof.
  cbv zeta. unfold ddm_newly_active.
  set (w1 := set_DDM_TEMP_OFFLINE_LIST [] (set_DDM_TEMP_LIST [] w)).
  set (items := fst (ddm_read api (DDM_DOMAINS w))).
  pose proof (ddm_notes_fields items w1) as H. cbv zeta in H.
  destruct H as (H1 & H2 & H3 & H4 & H5 & H6 & H7).
  pose proof (ddm_notes_domains items w1) as Hd.
  change (ddm_seen w1) with (ddm_seen w) in *.
  unfold result, exec, ddm_thread, bind, modify, try_except.
  fold w1. rewrite ddm_scan_read. change (DDM_DOMAINS w1) with (DDM_DOMAINS w).
  fold items.
  destruct (snd (ddm_read api (DDM_DOMAINS w))) as [e|]; simpl;
    rewrite ?H1, ?H2, ?H3, ?H4, ?H5, ?H6, ?H7, ?Hd; simpl;
    repeat split; reflexivity.
Qed.

Lemma ddm_device_faults_wf (domain : string) (device : Device) (f : DdmFault) :
  In f (ddm_device_faults domain device) -> ddm_fault_wf f.
Proof.
  unfold ddm_device_faults, ddm_fault_wf, ddm_error_suffixes.
  destruct (String.eqb (connectivity device) "ERROR"); [|contradiction].
  intros [<-|H]; [simpl; now eexists|].
  apply in_app_or in H. destruct H as [H|H].
  - destruct (String.eqb (subscriptions device) "ERROR"); [|contradiction].
    destruct H as [<-|[]]. simpl. do 2 eexists. split; [|reflexivity]. now left.
  - apply in_app_or in H. destruct H as [H|H].
    + destruct (String.eqb (latency device) "ERROR"); [|contradiction].
      destruct H as [<-|[]]. simpl. do 2 eexists. split; [|reflexivity].
      right. now left.
    + destruct (String.eqb (clocking device) "ERROR"); [|contradiction].
      destruct H as [<-|[]]. simpl. do 2 eexists. split; [|reflexivity].
      right. right. now left.
Qed.

Lemma ddm_read_wf (api : string -> DdmReply (list Device))
    (domains : list string) (f : DdmFault) :
  In f (fst (ddm_read api domains)) -> ddm_fault_wf f.
Proof.
  induction domains as [|domain rest IH]; simpl; [contradiction|].
  destruct (api domain) as [e|[code devices]]; [contradiction|].
  destruct (code =? 200)%nat; [|contradiction].
  destruct (ddm_read api rest) as [faults stop]. simpl in *.
  intros H. apply in_app_or in H. destruct H as [H|H]; [|now apply IH].
  apply in_flat_map in H. destruct H as [device [_ H]].
  now apply ddm_device_faults_wf in H.
Qed.

(** The key of a well-formed fault tells which list it is for. *)
Lemma ddm_key_tag (x y : DdmFault) :
  ddm_fault_wf x -> ddm_fault_wf y -> ddm_key x = ddm_key y ->
  is_offline x = is_offline y.
Proof.
  unfold ddm_fault_wf, ddm_key.
  destruct (is_offline x), (is_offline y); trivial.
  - intros [dx Hx] (dy & s & Hs & Hy) H. rewrite Hx, Hy in H.
    rewrite <- !append_assoc in H.
    now apply offline_key_not_error_key in H.
  - intros (dx & s & Hs & Hx) [dy Hy] H. rewrite Hx, Hy in H.
    rewrite <- !append_assoc in H. symmetry in H.
    now apply offline_key_not_error_key in H.
Qed.

Lemma push_key_ddm_push (f : DdmFault) : push_key (ddm_push f) = ddm_key f.
Proof. reflexivity. Qed.


Lemma NoDup_map_coarser {A B C : Type} (f : A -> B) (g : A -> C) (l : list A) :
  (forall x y, In x l -> In y l -> g x = g y -> f x = f y) ->
  NoDup (map f l) -> NoDup (map g l).
Proof.
  induction l as [|a l IH]; simpl; intros Hinj Hnd; [constructor|].
  inversion Hnd as [|? ? Ha Hl]; subst. constructor.
  - intros Hin. apply in_map_iff in Hin. destruct Hin as [b [Hb Hbl]].
    apply Ha. apply in_map_iff. exists b. split; [|assumption].
    apply Hinj; auto.
  - apply IH; auto.
Qed.

(** The faults a DDM scan reports as new have pairwise different keys. *)
Lemma ddm_newly_active_NoDup (api : string -> DdmReply (list Device))
    (w : World) :
  NoDup (map ddm_key (ddm_newly_active api w)).
Proof.
  apply NoDup_map_coarser with (f := ddm_tagged_key).
  - intros x y Hx Hy Hk. unfold ddm_tagged_key. f_equal; [|assumption].
    apply newly_active_In in Hx, Hy.
    apply ddm_key_tag; try assumption; apply (ddm_read_wf api (DDM_DOMAINS w));
      tauto.
  - apply newly_active_NoDup, tagged_eqb_eq.
Qed.

(** A key read for one of the two lists and not stored in it is reported. *)
Lemma ddm_newly_active_complete (api : string -> DdmReply (list Device))
    (w : World) (tag : bool) (k : string) :
  In k (map ddm_key (filter (fun f => Bool.eqb (is_offline f) tag)
                       (fst (ddm_read api (DDM_DOMAINS w))))) ->
  ~ In k (if tag then DDM_OFFLINE_LIST w else DDM_ERROR_LIST w) ->
  In k (map ddm_key (ddm_newly_active api w)).
Proof.
  intros Hin Hnot. apply in_map_iff in Hin. destruct Hin as [f [Hk Hf]].
  apply filter_In in Hf. destruct Hf as [Hf Htag].
  apply Bool.eqb_prop in Htag.
  assert (In (ddm_tagged_key f)
            (map ddm_tagged_key (ddm_newly_active api w))) as H.
  { apply newly_active_complete; auto using tagged_eqb_eq.
    unfold ddm_seen, ddm_tagged_key. simpl. rewrite Htag, Hk.
    now apply (py_in_false String.eqb String.eqb_eq). }
  apply in_map_iff in H. destruct H as [y [Hy Hyn]].
  apply in_map_iff. exists y. split; [|assumption].
  unfold ddm_tagged_key in Hy. inversion Hy. congruence.
Qed.

(** A key read for one of the two lists and stored in it is not reported. *)
Lemma ddm_newly_active_stored (api : string -> DdmReply (list Device))
    (w : World) (tag : bool) (k : string) :
  In k (map ddm_key (filter (fun f => Bool.eqb (is_offline f) tag)
                       (fst (ddm_read api (DDM_DOMAINS w))))) ->
  In k (if tag then DDM_OFFLINE_LIST w else DDM_ERROR_LIST w) ->
  ~ In k (map ddm_key (ddm_newly_active api w)).
Proof.
  intros Hin Hst Hnew. apply in_map_iff in Hin. destruct Hin as [f [Hk Hf]].
  apply filter_In in Hf. destruct Hf as [Hf Htag].
  apply Bool.eqb_prop in Htag.
  apply in_map_iff in Hnew. destruct Hnew as [y [Hy Hyn]].
  apply newly_active_In in Hyn. destruct Hyn as (Hyi & _ & Hseen).
  assert (is_offline y = is_offline f) as Ht.
  { apply ddm_key_tag; try congruence;
      now apply (ddm_read_wf api (DDM_DOMAINS w)). }
  unfold ddm_seen, ddm_tagged_key in Hseen. simpl in Hseen.
  rewrite Ht, Htag, Hy in Hseen.
  apply (py_in_false String.eqb String.eqb_eq) in Hseen. contradiction.
Qed.

Lemma filter_is_offline_tag (items : list DdmFault) :
  filter is_offline items
  = filter (fun f => Bool.eqb (is_offline f) true) items.
Proof.
  apply filter_ext. intros f. now destruct (is_offline f).
Qed.

Lemma filter_is_error_tag (items : list DdmFault) :
  filter (fun f => negb (is_offline f)) items
  = filter (fun f => Bool.eqb (is_offline f) false) items.
Proof.
  apply filter_ext. intros f. now destruct (is_offline f).
Qed.

(** ** Scans with one stored list and a local list of what was read *)

Section SingleStore.
Context {X K : Type} (key : X -> K) (eqb : K -> K -> bool)
  (accept : X -> bool) (push_of : X -> Push)
  (get : World -> list K)
  (note : list K * World -> X -> list K * World).

Hypothesis note_fields : forall temp w x,
  let fresh := negb (py_in eqb (key x) (get w)) && accept x in
  let st' := note (temp, w) x in
  fst st' = temp ++ [key x]
  /\ get (snd st') = get w ++ (if fresh then [key x] else [])
  /\ pushed (snd st') = pushed w ++ (if fresh then [push_of x] else [])
  /\ ALERTS_NOTIF_LIST (snd st')
     = ALERTS_NOTIF_LIST w
       ++ (if fresh && negb (muted (ALERTS_TEMP_IGNORE w) (push_of x))
           then [push_line (push_of x)] else [])
  /\ ALERTS_TEMP_IGNORE (snd st') = ALERTS_TEMP_IGNORE w.

Lemma scan_fields (items : list X) (temp : list K) (w : World) :
  let new := newly_active key eqb accept
               (fun k => py_in eqb k (get w)) items in
  let st' := fold_left note items (temp, w) in
  fst st' = temp ++ map key items
  /\ get (snd st') = get w ++ map key new
  /\ pushed (snd st') = pushed w ++ map push_of new
  /\ ALERTS_NOTIF_LIST (snd st')
     = ALERTS_NOTIF_LIST w
       ++ map push_line
            (filter (fun p => negb (muted (ALERTS_TEMP_IGNORE w) p))
               (map push_of new))
  /\ ALERTS_TEMP_IGNORE (snd st') = ALERTS_TEMP_IGNORE w.
Proof.
  revert temp w. induction items as [|x rest IH]; intros temp w.
  - simpl. now rewrite !app_nil_r.
  - cbv zeta in *.
    change (fold_left note (x :: rest) (temp, w))
      with (fold_left note rest (note (temp, w) x)).
    destruct (note_fields temp w x) as (F1 & F2 & F3 & F4 & F5).
    destruct (note (temp, w) x) as [temp1 w1]. simpl in F1, F2, F3, F4, F5.
    destruct (IH temp1 w1) as (H1 & H2 & H3 & H4 & H5).
    rewrite H1, H2, H3, H4, H5, F1, F2, F3, F4, F5.
    rewrite (newly_active_ext key eqb accept
               (fun k => py_in eqb k
                           (get w ++ (if negb (py_in eqb (key x) (get w))
                                         && accept x
                                      then [key x] else [])))
               (fun k => py_in eqb k (get w)
                         || (negb (py_in eqb (key x) (get w)) && accept x
                             && eqb k (key x))) rest).
    2:{ intros k. destruct (negb (py_in eqb (key x) (get w)) && accept x);
          simpl; [apply py_in_snoc | now rewrite app_nil_r, orb_false_r]. }
    simpl. destruct (negb (py_in eqb (key x) (get w)) && accept x); simpl.
    + destruct (muted (ALERTS_TEMP_IGNORE w) (push_of x)); simpl;
        rewrite <- ?app_assoc; repeat split; reflexivity.
    + rewrite (newly_active_ext key eqb accept
                 (fun k => py_in eqb k (get w) || false)
                 (fun k => py_in eqb k (get w)) rest
                 (fun k => orb_false_r _)).
      rewrite ?app_nil_r, <- ?app_assoc. repeat split; reflexivity.
Qed.

End SingleStore.

(** ** The SageVue scan *)

Lemma sage_vue_system_faults (system : System) (faults : list Fault)
    (st : list string * World) :
  fold_left (sage_vue_fault system) faults st
  = fold_left (fun st sf => sage_vue_fault (fst sf) st (snd sf))
      (map (pair system) faults) st.
Proof.
  revert st. induction faults as [|fault rest IH]; intros st; simpl;
    [reflexivity | apply IH].
Qed.

Lemma sage_vue_systems_faults (systems : list System)
    (st : list string * World) :
  fold_left sage_vue_system systems st
  = fold_left (fun st sf => sage_vue_fault (fst sf) st (snd sf))
      (sage_vue_faults systems) st.
Proof.
  revert st. induction systems as [|system rest IH]; intros st; simpl;
    [reflexivity|].
  rewrite fold_left_app, IH. unfold sage_vue_system.
  destruct (negb (String.eqb (Status system) "Green")); simpl;
    [now rewrite sage_vue_system_faults | reflexivity].
Qed.

Lemma sage_vue_fault_fields (temp : list string) (w : World)
    (sf : System * Fault) :
  let fresh := negb (py_in String.eqb (error_id sf) (SageVue_Error_List w))
               && sage_vue_accepts sf in
  let st' := sage_vue_fault (fst sf) (temp, w) (snd sf) in
  fst st' = temp ++ [error_id sf]
  /\ SageVue_Error_List (snd st')
     = SageVue_Error_List w ++ (if fresh then [error_id sf] else [])
  /\ pushed (snd st')
     = pushed w ++ (if fresh then [sage_vue_push sf] else [])
  /\ ALERTS_NOTIF_LIST (snd st')
     = ALERTS_NOTIF_LIST w
       ++ (if fresh && negb (muted (ALERTS_TEMP_IGNORE w) (sage_vue_push sf))
           then [push_line (sage_vue_push sf)] else [])
  /\ ALERTS_TEMP_IGNORE (snd st') = ALERTS_TEMP_IGNORE w.
Proof.
  destruct sf as [system fault].
  unfold sage_vue_fault, sage_vue_accepts, error_id, sage_vue_push, muted,
    push_line, add_to_alert_notif_push. simpl.
  destruct (py_in String.eqb _ (SageVue_Error_List w));
    destruct (str_in "DAN1" (FaultMessage fault));
    destruct (str_in "NTP" (FaultMessage fault)); simpl;
    try match goal with |- context [any_in ?i ?d || any_in ?i ?m] =>
      destruct (any_in i d); destruct (any_in i m) end; simpl;
    rewrite ?app_nil_r; repeat split; reflexivity.
Qed.

(** The state after the SageVue scan, in terms of the faults it reports. *)
Lemma sage_vue_scan_fields (systems : list System) (w : World) :
  let new := sage_vue_newly_active systems w in
  exists w',
    sage_vue_scan systems w = (Val (map error_id (sage_vue_faults systems)), w')
    /\ SageVue_Error_List w' = SageVue_Error_List w ++ map error_id new
    /\ pushed w' = pushed w ++ map sage_vue_push new
    /\ ALERTS_NOTIF_LIST w'
       = ALERTS_NOTIF_LIST w
         ++ map push_line
              (filter (fun p => negb (muted (ALERTS_TEMP_IGNORE w) p))
                 (map sage_vue_push new))
    /\ ALERTS_TEMP_IGNORE w' = ALERTS_TEMP_IGNORE w.
Proof.
  cbv zeta. unfold sage_vue_scan, sage_vue_newly_active.
  rewrite sage_vue_systems_faults.
  pose proof (scan_fields error_id String.eqb sage_vue_accepts sage_vue_push
                SageVue_Error_List
                (fun st sf => sage_vue_fault (fst sf) st (snd sf))
                sage_vue_fault_fields (sage_vue_faults systems) [] w) as H.
  cbv zeta in H.
  destruct (fold_left _ (sage_vue_faults systems) ([], w)) as [temp w'].
  simpl in H. destruct H as (H1 & H2 & H3 & H4 & H5).
  exists w'. subst temp. repeat split; assumption.
Qed.

(** ** The Fusion offline scan *)

Lemma fusion_offline_room_fields (temp : list string) (w : World)
    (room_name : string) :
  let fresh := negb (py_in String.eqb room_name (Fusion_Offline_List w))
               && fusion_accepts room_name in
  let st' := fusion_offline_room (temp, w) room_name in
  fst st' = temp ++ [room_name]
  /\ Fusion_Offline_List (snd st')
     = Fusion_Offline_List w ++ (if fresh then [room_name] else [])
  /\ pushed (snd st')
     = pushed w ++ (if fresh then [fusion_offline_push room_name] else [])
  /\ ALERTS_NOTIF_LIST (snd st')
     = ALERTS_NOTIF_LIST w
       ++ (if fresh
              && negb (muted (ALERTS_TEMP_IGNORE w)
                         (fusion_offline_push room_name))
           then [push_line (fusion_offline_push room_name)] else [])
  /\ ALERTS_TEMP_IGNORE (snd st') = ALERTS_TEMP_IGNORE w.
Proof.
  unfold fusion_offline_room, fusion_accepts, fusion_offline_push, muted,
    push_line, add_to_alert_notif_push.
  destruct (py_in String.eqb room_name (Fusion_Offline_List w));
    destruct (any_in BLACKLISTED_KEYWORDS room_name); simpl;
    try match goal with |- context [any_in ?i ?d || any_in ?i ?m] =>
      destruct (any_in i d); destruct (any_in i m) end; simpl;
    rewrite ?app_nil_r; repeat split; reflexivity.
Qed.

Lemma fusion_offline_scan_fields (rows : list string) (w : World) :
  let new := fusion_newly_offline rows w in
  exists w',
    fusion_offline_scan rows w = (Val rows, w')
    /\ Fusion_Offline_List w' = Fusion_Offline_List w ++ new
    /\ pushed w' = pushed w ++ map fusion_offline_push new
    /\ ALERTS_NOTIF_LIST w'
       = ALERTS_NOTIF_LIST w
         ++ map push_line
              (filter (fun p => negb (muted (ALERTS_TEMP_IGNORE w) p))
                 (map fusion_offline_push new))
    /\ ALERTS_TEMP_IGNORE w' = ALERTS_TEMP_IGNORE w.
Proof.
  cbv zeta. unfold fusion_offline_scan, fusion_newly_offline.
  pose proof (scan_fields (fun r : string => r) String.eqb fusion_accepts
                fusion_offline_push Fusion_Offline_List fusion_offline_room
                fusion_offline_room_fields rows [] w) as H.
  cbv zeta in H.
  destruct (fold_left fusion_offline_room rows ([], w)) as [temp w'].
  simpl in H. rewrite !map_id in H. destruct H as (H1 & H2 & H3 & H4 & H5).
  exists w'. subst temp. repeat split; assumption.
Qed.

Lemma in_sage_vue_faults (systems : list System) (system : System)
    (fault : Fault) :
  In (system, fault) (sage_vue_faults systems)
  <-> In system systems /\ Status system <> "Green"
      /\ In fault (Faults system).
Proof.
  unfold sage_vue_faults. rewrite in_flat_map. split.
  - intros [s [Hs Hin]].
    destruct (String.eqb (Status s) "Green") eqn:E; simpl in Hin;
      [contradiction|].
    apply in_map_iff in Hin. destruct Hin as [f [Hf Hfin]].
    inversion Hf; subst. apply String.eqb_neq in E. tauto.
  - intros (Hs & Hg & Hf). exists system. split; [assumption|].
    apply String.eqb_neq in Hg. rewrite Hg. simpl. now apply in_map.
Qed.

(** The SageVue scan followed by its removal loop. *)
Lemma sage_vue_diff_fields (systems : list System) (w : World) :
  let new := sage_vue_newly_active systems w in
  let w' := exec (sage_vue_diff systems) w in
  result (sage_vue_diff systems) w = Val tt
  /\ SageVue_Error_List w'
     = remove_inactive String.eqb (map error_id (sage_vue_faults systems))
         (SageVue_Error_List w ++ map error_id new)
  /\ pushed w' = pushed w ++ map sage_vue_push new
  /\ ALERTS_NOTIF_LIST w'
     = ALERTS_NOTIF_LIST w
       ++ map push_line
            (filter (fun p => negb (muted (ALERTS_TEMP_IGNORE w) p))
               (map sage_vue_push new))
  /\ ALERTS_TEMP_IGNORE w' = ALERTS_TEMP_IGNORE w.
Proof.
  cbv zeta. destruct (sage_vue_scan_fields systems w)
    as (w1 & Hscan & H1 & H2 & H3 & H4).
  unfold result, exec, sage_vue_diff, bind, modify. rewrite Hscan. simpl.
  rewrite H1, H2, H3, H4. repeat split; reflexivity.
Qed.

(** The Fusion offline scan followed by its removal loop. *)
Lemma fusion_offline_diff_fields (rows : list string) (w : World) :
  let new := fusion_newly_offline rows w in
  let w' := exec (fusion_offline_diff rows) w in
  result (fusion_offline_diff rows) w = Val tt
  /\ Fusion_Offline_List w'
     = remove_inactive String.eqb rows (Fusion_Offline_List w ++ new)
  /\ pushed w' = pushed w ++ map fusion_offline_push new
  /\ ALERTS_NOTIF_LIST w'
     = ALERTS_NOTIF_LIST w
       ++ map push_line
            (filter (fun p => negb (muted (ALERTS_TEMP_IGNORE w) p))
               (map fusion_offline_push new))
  /\ ALERTS_TEMP_IGNORE w' = ALERTS_TEMP_IGNORE w.
Proof.
  cbv zeta. destruct (fusion_offline_scan_fields rows w)
    as (w1 & Hscan & H1 & H2 & H3 & H4).
  unfold result, exec, fusion_offline_diff, bind, modify. rewrite Hscan. simpl.
  rewrite H1, H2, H3, H4. repeat split; reflexivity.
Qed.

Lemma map_push_key_ddm (l : list DdmFault) :
  map push_key (map ddm_push l) = map ddm_key l.
Proof. rewrite map_map. apply map_ext. intros f. reflexivity. Qed.

Lemma map_push_key_sage_vue (l : list (System * Fault)) :
  map push_key (map sage_vue_push l) = map error_id l.
Proof. rewrite map_map. apply map_ext. intros f. reflexivity. Qed.

Lemma map_push_device_fusion (l : list string) :
  map push_device (map fusion_offline_push l) = l.
Proof. rewrite map_map. apply map_id. Qed.

Lemma count_occ_once (l : list string) (k : string) :
  NoDup l -> In k l -> count_occ string_dec l k = 1.
Proof. intros Hnd. now apply NoDup_count_occ'. Qed.

Lemma count_occ_never (l : list string) (k : string) :
  ~ In k l -> count_occ string_dec l k = 0.
Proof. apply count_occ_not_In. Qed.


(** ** New keys are reported once *)

Lemma ddm_new_keys_once (api : string -> DdmReply (list Device)) (w : World) :
  let w' := exec (ddm_thread api) w in
  exists new,
    pushed w' = pushed w ++ new
    /\ NoDup (map push_key new)
    /\ (forall k, In k (DDM_TEMP_OFFLINE_LIST w') ->
                  ~ In k (DDM_OFFLINE_LIST w) -> In k (map push_key new))
    /\ (forall k, In k (DDM_TEMP_LIST w') ->
                  ~ In k (DDM_ERROR_LIST w) -> In k (map push_key new))
    /\ (forall k, In k (DDM_TEMP_OFFLINE_LIST w') ->
                  In k (DDM_OFFLINE_LIST w) -> ~ In k (map push_key new))
    /\ (forall k, In k (DDM_TEMP_LIST w') ->
                  In k (DDM_ERROR_LIST w) -> ~ In k (map push_key new))
    /\ (forall k, In k (map push_key new) ->
                  In k (DDM_TEMP_OFFLINE_LIST w') \/ In k (DDM_TEMP_LIST w')).
Proof.
  cbv zeta.
  destruct (ddm_thread_fields api w)
    as (_ & Htoff & Hterr & _ & _ & Hp & _).
  cbv zeta in *. exists (map ddm_push (ddm_newly_active api w)).
  rewrite Htoff, Hterr, map_push_key_ddm.
  rewrite filter_is_offline_tag, filter_is_error_tag.
  split; [assumption|]. split; [apply ddm_newly_active_NoDup|].
  repeat split.
  - intros k. apply (ddm_newly_active_complete api w true).
  - intros k. apply (ddm_newly_active_complete api w false).
  - intros k. apply (ddm_newly_active_stored api w true).
  - intros k. apply (ddm_newly_active_stored api w false).
  - intros k Hk. apply in_map_iff in Hk. destruct Hk as [f [Hf Hin]].
    apply newly_active_In in Hin. destruct Hin as (Hin & _).
    subst k. destruct (is_offline f) eqn:E; [left | right];
      apply in_map, filter_In; rewrite E; auto.
Qed.

Lemma sage_vue_new_keys_once (systems : list System) (w : World) :
  let w' := exec (sage_vue_diff systems) w in
  exists new,
    pushed w' = pushed w ++ new
    /\ NoDup (map push_key new)
    /\ (forall sf, In sf (sage_vue_faults systems) ->
                   sage_vue_accepts sf = true ->
                   ~ In (error_id sf) (SageVue_Error_List w) ->
                   In (error_id sf) (map push_key new))
    /\ (forall k, In k (SageVue_Error_List w) -> ~ In k (map push_key new))
    /\ (forall p, In p new ->
                  exists sf, In sf (sage_vue_faults systems)
                             /\ sage_vue_accepts sf = true
                             /\ p = sage_vue_push sf).
Proof.
  cbv zeta. destruct (sage_vue_diff_fields systems w) as (_ & _ & Hp & _).
  cbv zeta in *. exists (map sage_vue_push (sage_vue_newly_active systems w)).
  rewrite map_push_key_sage_vue. split; [assumption|].
  split; [apply newly_active_NoDup, String.eqb_eq|]. repeat split.
  - intros sf Hin Ha Hnot.
    apply newly_active_complete; auto using String.eqb_eq.
    now apply (py_in_false String.eqb String.eqb_eq).
  - intros k Hst Hnew. apply in_map_iff in Hnew.
    destruct Hnew as [sf [Hk Hin]]. apply newly_active_In in Hin.
    destruct Hin as (_ & _ & Hseen). rewrite Hk in Hseen.
    apply (py_in_false String.eqb String.eqb_eq) in Hseen. contradiction.
  - intros p Hin. apply in_map_iff in Hin. destruct Hin as [sf [Hp' Hin]].
    apply newly_active_In in Hin. exists sf. intuition.
Qed.

Lemma fusion_offline_new_keys_once (rows : list string) (w : World) :
  let w' := exec (fusion_offline_diff rows) w in
  exists new,
    pushed w' = pushed w ++ new
    /\ NoDup (map push_device new)
    /\ (forall room, In room rows -> fusion_accepts room = true ->
                     ~ In room (Fusion_Offline_List w) ->
                     In room (map push_device new))
    /\ (forall room, In room (Fusion_Offline_List w) ->
                     ~ In room (map push_device new))
    /\ (forall room, In room (map push_device new) ->
                     In room rows /\ fusion_accepts room = true).
Proof.
  cbv zeta. destruct (fusion_offline_diff_fields rows w) as (_ & _ & Hp & _).
  cbv zeta in *. exists (map fusion_offline_push (fusion_newly_offline rows w)).
  rewrite map_push_device_fusion. split; [assumption|].
  assert (forall l : list string, map (fun r => r) l = l) as Hid
    by (intros l; apply map_id).
  split.
  { rewrite <- Hid. apply newly_active_NoDup, String.eqb_eq. }
  repeat split.
  - intros room Hin Ha Hnot. rewrite <- Hid.
    apply (newly_active_complete (fun r : string => r) String.eqb);
      auto using String.eqb_eq.
    now apply (py_in_false String.eqb String.eqb_eq).
  - intros room Hst Hnew. apply newly_active_In in Hnew.
    destruct Hnew as (_ & _ & Hseen).
    apply (py_in_false String.eqb String.eqb_eq) in Hseen. contradiction.
  - apply newly_active_In in H. tauto.
  - apply newly_active_In in H. tauto.
Qed.

(** In one diff step of the DDM lists, the SageVue error list and the
    Fusion offline list, every key that the step reads and the backend
    accepts (DDM accepts every fault, SageVue those whose message contains
    neither "DAN1" nor "NTP", Fusion the offline rooms whose name contains
    no blacklisted keyword) and that is absent from the stored list is
    handed to [add_to_alert_notif_push] exactly once, and no key of the
    stored list is handed to it.  [new] is the sequence of calls the step
    makes. *)
Lemma accepted_new_keys_pushed_once :
  (forall (api : string -> DdmReply (list Device)) (w : World),
     let w' := exec (ddm_thread api) w in
     exists new,
       pushed w' = pushed w ++ new
       /\ (forall k, In k (DDM_TEMP_OFFLINE_LIST w') ->
                     ~ In k (DDM_OFFLINE_LIST w) ->
                     count_occ string_dec (map push_key new) k = 1)
       /\ (forall k, In k (DDM_TEMP_LIST w') ->
                     ~ In k (DDM_ERROR_LIST w) ->
                     count_occ string_dec (map push_key new) k = 1)
       /\ (forall k, In k (DDM_TEMP_OFFLINE_LIST w') ->
                     In k (DDM_OFFLINE_LIST w) ->
                     count_occ string_dec (map push_key new) k = 0)
       /\ (forall k, In k (DDM_TEMP_LIST w') ->
                     In k (DDM_ERROR_LIST w) ->
                     count_occ string_dec (map push_key new) k = 0))
  /\ (forall (systems : list System) (w : World),
        let w' := exec (sage_vue_diff systems) w in
        exists new,
          pushed w' = pushed w ++ new
          /\ (forall system fault,
                In system systems -> Status system <> "Green" ->
                In fault (Faults system) ->
                str_in "DAN1" (FaultMessage fault) = false ->
                str_in "NTP" (FaultMessage fault) = false ->
                ~ In (Description system +++ " - " +++ FaultMessage fault)
                    (SageVue_Error_List w) ->
                count_occ string_dec (map push_key new)
                  (Description system +++ " - " +++ FaultMessage fault) = 1)
          /\ (forall k, In k (SageVue_Error_List w) ->
                        count_occ string_dec (map push_key new) k = 0))
  /\ (forall (rows : list string) (w : World),
        let w' := exec (fusion_offline_diff rows) w in
        exists new,
          pushed w' = pushed w ++ new
          /\ (forall room,
                In room rows -> any_in BLACKLISTED_KEYWORDS room = false ->
                ~ In room (Fusion_Offline_List w) ->
                count_occ string_dec (map push_device new) room = 1)
          /\ (forall room, In room (Fusion_Offline_List w) ->
                           count_occ string_dec (map push_device new) room = 0)).
Proof.
  split; [|split].
  - intros api w. cbv zeta.
    destruct (ddm_new_keys_once api w)
      as (new & Hp & Hnd & H1 & H2 & H3 & H4 & _).
    exists new. split; [assumption|].
    repeat split; intros k Hc Hs;
      auto using count_occ_once, count_occ_never.
  - intros systems w. cbv zeta.
    destruct (sage_vue_new_keys_once systems w)
      as (new & Hp & Hnd & H1 & H2 & _).
    exists new. split; [assumption|]. split.
    + intros system fault Hs Hg Hf Hd Hn Hnot. apply count_occ_once; [assumption|].
      apply (H1 (system, fault)); [now apply in_sage_vue_faults | | assumption].
      unfold sage_vue_accepts. simpl. now rewrite Hd, Hn.
    + intros k Hs. auto using count_occ_never.
  - intros rows w. cbv zeta.
    destruct (fusion_offline_new_keys_once rows w)
      as (new & Hp & Hnd & H1 & H2 & _).
    exists new. split; [assumption|]. split.
    + intros room Hin Hb Hnot. apply count_occ_once; [assumption|].
      apply H1; try assumption. unfold fusion_accepts. now rewrite Hb.
    + intros room Hs. auto using count_occ_never.
Qed.

(** Against an empty stored list, the calls of a diff step of these three
    are, without repetition, the keys read that the backend accepts. *)
Lemma empty_stored_reports_accepted :
  (forall (api : string -> DdmReply (list Device)) (w : World),
     DDM_OFFLINE_LIST w = [] -> DDM_ERROR_LIST w = [] ->
     let w' := exec (ddm_thread api) w in
     exists new,
       pushed w' = pushed w ++ new
       /\ NoDup (map push_key new)
       /\ forall k, In k (map push_key new)
                    <-> In k (DDM_TEMP_OFFLINE_LIST w')
                        \/ In k (DDM_TEMP_LIST w'))
  /\ (forall (systems : list System) (w : World),
        SageVue_Error_List w = [] ->
        let w' := exec (sage_vue_diff systems) w in
        exists new,
          pushed w' = pushed w ++ new
          /\ NoDup (map push_key new)
          /\ forall k, In k (map push_key new)
                       <-> exists system fault,
                             In system systems /\ Status system <> "Green"
                             /\ In fault (Faults system)
                             /\ str_in "DAN1" (FaultMessage fault) = false
                             /\ str_in "NTP" (FaultMessage fault) = false
                             /\ k = Description system +++ " - "
                                    +++ FaultMessage fault)
  /\ (forall (rows : list string) (w : World),
        Fusion_Offline_List w = [] ->
        let w' := exec (fusion_offline_diff rows) w in
        exists new,
          pushed w' = pushed w ++ new
          /\ NoDup (map push_device new)
          /\ forall room, In room (map push_device new)
                          <-> In room rows
                              /\ any_in BLACKLISTED_KEYWORDS room = false).
Proof.
  split; [|split].
  - intros api w Hoff Herr. cbv zeta.
    destruct (ddm_new_keys_once api w)
      as (new & Hp & Hnd & H1 & H2 & _ & _ & H5).
    exists new. split; [assumption|]. split; [assumption|].
    intros k. split; [apply H5|].
    intros [H|H]; [apply H1 | apply H2]; try assumption.
    + rewrite Hoff. intros [].
    + rewrite Herr. intros [].
  - intros systems w Hst. cbv zeta.
    destruct (sage_vue_new_keys_once systems w)
      as (new & Hp & Hnd & H1 & _ & H3).
    exists new. split; [assumption|]. split; [assumption|].
    intros k. split.
    + intros Hk. apply in_map_iff in Hk. destruct Hk as [p [Hk Hin]].
      destruct (H3 p Hin) as ([system fault] & Hsf & Ha & ->).
      apply in_sage_vue_faults in Hsf. destruct Hsf as (Hs & Hg & Hf).
      unfold sage_vue_accepts in Ha. simpl in Ha.
      apply andb_true_iff in Ha. destruct Ha as [Hd Hn].
      apply negb_true_iff in Hd, Hn.
      exists system, fault. repeat split; try assumption. now subst k.
    + intros (system & fault & Hs & Hg & Hf & Hd & Hn & ->).
      apply (H1 (system, fault)).
      * now apply in_sage_vue_faults.
      * unfold sage_vue_accepts. simpl. now rewrite Hd, Hn.
      * rewrite Hst. intros [].
  - intros rows w Hst. cbv zeta.
    destruct (fusion_offline_new_keys_once rows w)
      as (new & Hp & Hnd & H1 & _ & H3).
    exists new. split; [assumption|]. split; [assumption|].
    intros room. split.
    + intros H. apply H3 in H. destruct H as [Hin Ha]. split; [assumption|].
      unfold fusion_accepts in Ha. now apply negb_true_iff in Ha.
    + intros [Hin Hb]. apply H1; try assumption.
      * unfold fusion_accepts. now rewrite Hb.
      * rewrite Hst. intros [].
Qed.

(** C7.  When the stored list of a backend holds exactly the faults of this
    round (for DDM the keys read; for SageVue the keys of the faults read
    whose message contains neither "DAN1" nor "NTP"; for the Fusion offline
    list the rooms read whose name contains no blacklisted keyword; for the
    Fusion error list the rooms read whose message contains neither
    "1:notice" nor "0:ok"), the step makes no call of
    [add_to_alert_notif_push], queues nothing, and leaves the stored list as
    it was: nothing is new and nothing is cleared.  Faults that the backend
    excludes may be read as well. *)
Theorem C7_same_set_changes_nothing :
  (forall (api : string -> DdmReply (list Device)) (w : World),
     let w' := exec (ddm_thread api) w in
     (forall k, In k (DDM_OFFLINE_LIST w) <-> In k (DDM_TEMP_OFFLINE_LIST w')) ->
     (forall k, In k (DDM_ERROR_LIST w) <-> In k (DDM_TEMP_LIST w')) ->
     pushed w' = pushed w
     /\ ALERTS_NOTIF_LIST w' = ALERTS_NOTIF_LIST w
     /\ DDM_OFFLINE_LIST w' = DDM_OFFLINE_LIST w
     /\ DDM_ERROR_LIST w' = DDM_ERROR_LIST w)
  /\ (forall (systems : list System) (w : World),
        let w' := exec (sage_vue_diff systems) w in
        (forall k, In k (SageVue_Error_List w)
                   <-> exists system fault,
                         In system systems /\ Status system <> "Green"
                         /\ In fault (Faults system)
                         /\ str_in "DAN1" (FaultMessage fault) = false
                         /\ str_in "NTP" (FaultMessage fault) = false
                         /\ k = Description system +++ " - "
                                +++ FaultMessage fault) ->
        pushed w' = pushed w
        /\ ALERTS_NOTIF_LIST w' = ALERTS_NOTIF_LIST w
        /\ SageVue_Error_List w' = SageVue_Error_List w)
  /\ (forall (rows : list string) (w : World),
        let w' := exec (fusion_offline_diff rows) w in
        (forall room, In room (Fusion_Offline_List w)
                      <-> In room rows
                          /\ any_in BLACKLISTED_KEYWORDS room = false) ->
        pushed w' = pushed w
        /\ ALERTS_NOTIF_LIST w' = ALERTS_NOTIF_LIST w
        /\ Fusion_Offline_List w' = Fusion_Offline_List w)
  /\ (forall (rooms : list Room) (w : World),
        (forall room, In room (Fusion_Error_List w)
                      <-> In room rooms
                          /\ exists message others,
                               RawSerialValues room = message :: others
                               /\ str_in "1:notice" message = false
                               /\ str_in "0:ok" message = false) ->
        exec (for_each rooms fusion_error_room) w = w
        /\ remove_inactive Room_eqb rooms (Fusion_Error_List w)
           = Fusion_Error_List w).
Proof.
  split; [|split; [|split]].
  - intros api w. cbv zeta. intros Hoff Herr.
    destruct (ddm_thread_fields api w)
      as (_ & Htoff & Hterr & H3 & H4 & H5 & H6 & _).
    cbv zeta in *.
    assert (ddm_newly_active api w = []) as Hnone.
    { apply newly_active_none. intros f Hf _.
      unfold ddm_seen, ddm_tagged_key. simpl.
      apply (py_in_In String.eqb String.eqb_eq).
      destruct (is_offline f) eqn:E.
      - apply Hoff. rewrite Htoff. apply in_map, filter_In. auto.
      - apply Herr. rewrite Hterr. apply in_map, filter_In. now rewrite E. }
    rewrite Hnone in *. simpl in *. rewrite app_nil_r in *.
    repeat split; try assumption.
    + rewrite H3. apply remove_inactive_all_current; [apply String.eqb_eq|].
      intros k. apply Hoff.
    + rewrite H4. apply remove_inactive_all_current; [apply String.eqb_eq|].
      intros k. apply Herr.
  - intros systems w. cbv zeta. intros Hsame.
    destruct (sage_vue_diff_fields systems w) as (_ & H1 & H2 & H3 & _).
    cbv zeta in *.
    assert (sage_vue_newly_active systems w = []) as Hnone.
    { apply newly_active_none. intros [system fault] Hsf Ha.
      apply (py_in_In String.eqb String.eqb_eq), Hsame.
      apply in_sage_vue_faults in Hsf. destruct Hsf as (Hs & Hg & Hf).
      unfold sage_vue_accepts in Ha. simpl in Ha.
      apply andb_true_iff in Ha. destruct Ha as [Hd Hn].
      apply negb_true_iff in Hd, Hn.
      exists system, fault. repeat split; assumption. }
    rewrite Hnone in *. simpl in *. rewrite app_nil_r in *.
    repeat split; try assumption.
    rewrite H1. apply remove_inactive_all_current; [apply String.eqb_eq|].
    intros k Hk. apply Hsame in Hk.
    destruct Hk as (system & fault & Hs & Hg & Hf & _ & _ & ->).
    apply (in_map error_id _ (system, fault)).
    now apply in_sage_vue_faults.
  - intros rows w. cbv zeta. intros Hsame.
    destruct (fusion_offline_diff_fields rows w) as (_ & H1 & H2 & H3 & _).
    cbv zeta in *.
    assert (fusion_newly_offline rows w = []) as Hnone.
    { apply newly_active_none. intros r Hr Ha.
      apply (py_in_In String.eqb String.eqb_eq), Hsame.
      split; [assumption|]. unfold fusion_accepts in Ha.
      now apply negb_true_iff in Ha. }
    rewrite Hnone in *. simpl in *. rewrite app_nil_r in *.
    repeat split; try assumption.
    rewrite H1. apply remove_inactive_all_current; [apply String.eqb_eq|].
    intros k Hk. now apply Hsame in Hk.
  - intros rooms w Hsame. split.
    + unfold exec.
      assert (forall l, incl l rooms ->
                        snd (for_each l fusion_error_room w) = w) as Hl.
      { induction l as [|room rest IH]; intros Hincl; [reflexivity|].
        simpl. unfold bind.
        assert (exists r, fusion_error_room room w = (r, w)) as [r Hr].
        { unfold fusion_error_room, bind, gets, room_2.
          destruct (py_in Room_eqb room (Fusion_Error_List w)) eqn:E;
            cbn [negb]; [eexists; reflexivity|].
          destruct (RawSerialValues room) as [|message others] eqn:Em;
            [eexists; reflexivity|].
          unfold ret at 1.
          destruct (str_in "1:notice" message) eqn:E1;
            [eexists; reflexivity|].
          destruct (str_in "0:ok" message) eqn:E2;
            [eexists; reflexivity|].
          exfalso.
          assert (In room (Fusion_Error_List w)) as Hin.
          { apply Hsame. split; [apply Hincl; now left|].
            exists message, others. auto. }
          apply (py_in_In Room_eqb Room_eqb_eq) in Hin. congruence. }
        rewrite Hr. destruct r as [[]|e]; [|reflexivity].
        apply IH. intros x Hx. apply Hincl. now right. }
      apply Hl, incl_refl.
    + apply remove_inactive_all_current; [apply Room_eqb_eq|].
      intros room Hin. now apply Hsame in Hin.
Qed.

Lemma C7_witness :
  (let w := exec (ddm_thread (ddm_reports [amp_down])) one_domain in
   let w' := exec (ddm_thread (ddm_reports [amp_down])) w in
   DDM_OFFLINE_LIST w = ["Studio A - amp-1 is offline."]
   /\ pushed w' = pushed w
   /\ ALERTS_NOTIF_LIST w' = ALERTS_NOTIF_LIST w
   /\ DDM_OFFLINE_LIST w' = DDM_OFFLINE_LIST w
   /\ DDM_ERROR_LIST w' = DDM_ERROR_LIST w)
  /\ (let systems := [red_rack ["DAN1 mute active"; "Fan failure"]] in
      let w := exec (sage_vue_diff systems) one_domain in
      let w' := exec (sage_vue_diff systems) w in
      SageVue_Error_List w = ["Rack 1 - Fan failure"]
      /\ pushed w' = pushed w
      /\ ALERTS_NOTIF_LIST w' = ALERTS_NOTIF_LIST w
      /\ SageVue_Error_List w' = SageVue_Error_List w).
Proof.
  cbv zeta. split.
  - split; [reflexivity|].
    apply (proj1 C7_same_set_changes_nothing (ddm_reports [amp_down])
             (exec (ddm_thread (ddm_reports [amp_down])) one_domain)).
    + intros k. vm_compute. tauto.
    + intros k. vm_compute. tauto.
  - split; [reflexivity|].
    apply (proj1 (proj2 C7_same_set_changes_nothing)
             [red_rack ["DAN1 mute active"; "Fan failure"]]
             (exec (sage_vue_diff [red_rack ["DAN1 mute active"; "Fan failure"]])
                one_domain)).
    intros k.
    assert (SageVue_Error_List
              (exec (sage_vue_diff
                       [red_rack ["DAN1 mute active"; "Fan failure"]])
                 one_domain)
            = ["Rack 1 - Fan failure"]) as -> by (vm_compute; reflexivity).
    split.
    + intros [<-|[]].
      exists (red_rack ["DAN1 mute active"; "Fan failure"]),
        (mkFault "Fan failure").
      repeat split; try reflexivity; try discriminate;
        simpl; auto.
    + intros (system & fault & [<-|[]] & _ & Hf & Hd & Hn & ->).
      destruct Hf as [<-|[<-|[]]]; [vm_compute in Hd; discriminate|].
      now left.
Defined.

(** ** The SageVue thread when its requests succeed *)

Lemma sage_vue_thread_ok (api : SageVueApi) (w : World) (code : nat)
    (systems : list System) (errors : list string) :
  auth_query api = inr code ->
  ((code =? 400)%nat || (code =? 401)%nat = true ->
   exists id, login api = inr id) ->
  systems_get api = inr (inr systems) ->
  devices_get api = inr (inr errors) ->
  exists w0,
    SageVue_Error_List w0 = SageVue_Error_List w
    /\ pushed w0 = pushed w
    /\ ALERTS_NOTIF_LIST w0 = ALERTS_NOTIF_LIST w
    /\ ALERTS_TEMP_IGNORE w0 = ALERTS_TEMP_IGNORE w
    /\ sage_vue_thread api w
       = (Val tt,
          set_Sagevue_Missing_Devices (length errors)
            (set_Sagevue_Total_Errors
               (length (SageVue_Error_List (exec (sage_vue_diff systems) w0)))
               (exec (sage_vue_diff systems) w0))).
Proof.
  intros Hauth Hlogin Hsys Hdev.
  unfold sage_vue_thread, try_except, bind, lift. rewrite Hauth. simpl.
  destruct ((code =? 400)%nat || (code =? 401)%nat) eqn:E.
  - destruct (Hlogin eq_refl) as [id Hid]. rewrite Hid. simpl.
    rewrite Hsys, Hdev. simpl.
    exists (set_SageVue_SessionID id w).
    repeat split.
    destruct (sage_vue_diff_fields systems (set_SageVue_SessionID id w))
      as (Hr & _).
    unfold result, exec in *.
    destruct (sage_vue_diff systems (set_SageVue_SessionID id w)) as [r w1].
    simpl in *. subst r. reflexivity.
  - simpl. rewrite Hsys, Hdev. simpl. exists w. repeat split.
    destruct (sage_vue_diff_fields systems w) as (Hr & _).
    unfold result, exec in *.
    destruct (sage_vue_diff systems w) as [r w1].
    simpl in *. subst r. reflexivity.
Qed.

(** C8.  When the SageVue requests of a round succeed, no call of
    [add_to_alert_notif_push] is made for a fault whose message contains
    "DAN1" or "NTP", every line the round queues comes from one of its
    calls, and the only keys the round adds to the stored error list are
    those of faults on systems that are not "Green" whose message contains
    neither.  The missing-devices gauge is set to the number of errors the
    devices endpoint returned, whatever the systems endpoint said; the
    total-errors gauge is the length of the stored list. *)
Theorem C8_dante_mute_and_ntp_excluded :
  forall (api : SageVueApi) (w : World) (code : nat)
         (systems : list System) (errors : list string),
    auth_query api = inr code ->
    ((code =? 400)%nat || (code =? 401)%nat = true ->
     exists id, login api = inr id) ->
    systems_get api = inr (inr systems) ->
    devices_get api = inr (inr errors) ->
    let w' := exec (sage_vue_thread api) w in
    exists new lines,
      pushed w' = pushed w ++ new
      /\ ALERTS_NOTIF_LIST w' = ALERTS_NOTIF_LIST w ++ lines
      /\ (forall category device message,
            In (category, device, message) new ->
            str_in "DAN1" message = false /\ str_in "NTP" message = false)
      /\ (forall line, In line lines ->
                       exists p, In p new /\ line = push_line p)
      /\ (forall k,
            In k (SageVue_Error_List w') ->
            In k (SageVue_Error_List w)
            \/ exists system fault,
                 In system systems /\ Status system <> "Green"
                 /\ In fault (Faults system)
                 /\ str_in "DAN1" (FaultMessage fault) = false
                 /\ str_in "NTP" (FaultMessage fault) = false
                 /\ k = Description system +++ " - " +++ FaultMessage fault)
      /\ Sagevue_Missing_Devices w' = length errors
      /\ Sagevue_Total_Errors w' = length (SageVue_Error_List w').
Proof.
  intros api w code systems errors Hauth Hlogin Hsys Hdev. cbv zeta.
  destruct (sage_vue_thread_ok api w code systems errors Hauth Hlogin Hsys Hdev)
    as (w0 & E1 & E2 & E3 & E4 & Hrun).
  unfold exec at 1 2 3 4 5 6. rewrite Hrun. simpl.
  destruct (sage_vue_diff_fields systems w0) as (_ & D1 & D2 & D3 & _).
  cbv zeta in *. rewrite D2, D3, E2, E3, E4.
  exists (map sage_vue_push (sage_vue_newly_active systems w0)).
  eexists. split; [reflexivity|]. split; [reflexivity|].
  assert (forall sf, In sf (sage_vue_newly_active systems w0) ->
            In (fst sf) systems /\ Status (fst sf) <> "Green"
            /\ In (snd sf) (Faults (fst sf))
            /\ str_in "DAN1" (FaultMessage (snd sf)) = false
            /\ str_in "NTP" (FaultMessage (snd sf)) = false) as Hnew.
  { intros [system fault] Hin. apply newly_active_In in Hin.
    destruct Hin as (Hin & Ha & _). apply in_sage_vue_faults in Hin.
    unfold sage_vue_accepts in Ha. simpl in *.
    apply andb_true_iff in Ha. destruct Ha as [Hd Hn].
    apply negb_true_iff in Hd, Hn. tauto. }
  repeat split.
  - apply in_map_iff in H. destruct H as [sf [Hp Hin]].
    apply Hnew in Hin. unfold sage_vue_push in Hp. inversion Hp; subst. tauto.
  - apply in_map_iff in H. destruct H as [sf [Hp Hin]].
    apply Hnew in Hin. unfold sage_vue_push in Hp. inversion Hp; subst. tauto.
  - intros line Hline. apply in_map_iff in Hline.
    destruct Hline as [p [Hp Hin]]. apply filter_In in Hin.
    exists p. split; [tauto | now symmetry].
  - intros k Hk. rewrite D1, E1 in Hk. apply remove_inactive_incl in Hk.
    apply in_app_or in Hk. destruct Hk as [Hk|Hk]; [now left|]. right.
    apply in_map_iff in Hk. destruct Hk as [[system fault] [Hk Hin]].
    apply Hnew in Hin. simpl in Hin. exists system, fault.
    repeat split; try tauto. now subst k.
Qed.

Lemma C8_witness :
  let api := sage_vue_answers [red_rack ["DAN1 mute active"; "Fan failure"]]
               ["dsp-1 missing"; "dsp-2 missing"] in
  let w' := exec (sage_vue_thread api) (initial []) in
  Sagevue_Missing_Devices w' = 2
  /\ SageVue_Error_List w' = ["Rack 1 - Fan failure"]
  /\ ALERTS_NOTIF_LIST w' = ["SageVue - Rack 1 - Fan failure"].
Proof.
  cbv zeta.
  destruct (C8_dante_mute_and_ntp_excluded
              (sage_vue_answers [red_rack ["DAN1 mute active"; "Fan failure"]]
                 ["dsp-1 missing"; "dsp-2 missing"])
              (initial []) 200
              [red_rack ["DAN1 mute active"; "Fan failure"]]
              ["dsp-1 missing"; "dsp-2 missing"]
              eq_refl
              (fun H : (200 =? 400)%nat || (200 =? 401)%nat = true =>
                 ex_intro _ "session" eq_refl)
              eq_refl eq_refl)
    as (new & lines & _ & _ & _ & _ & _ & Hgauge & _).
  split; [exact Hgauge|]. split; reflexivity.
Defined.

(** ** A fault muted when it is new *)






(** ** The polling loop and failures *)

Lemma sage_vue_thread_returns (api : SageVueApi) (w : World) :
  result (sage_vue_thread api) w = Val tt.
Proof.
  unfold result, sage_vue_thread, try_except.
  match goal with |- fst (match ?m w with _ => _ end) = _ =>
    destruct (m w) as [[[]|e] w1] end; reflexivity.
Qed.

Lemma ddm_thread_returns (api : string -> DdmReply (list Device)) (w : World) :
  result (ddm_thread api) w = Val tt.
Proof. apply ddm_thread_fields. Qed.

Lemma poll_backends_returns (c : Cycle) (w : World) :
  result (poll_backends c) w = Val tt.
Proof.
  unfold result, poll_backends, try_except.
  match goal with |- fst (match ?m w with _ => _ end) = _ =>
    destruct (m w) as [[[]|e] w1] end; reflexivity.
Qed.

(** C3 fails on the code.  [fusion_thread] has no handler of its own: when
    the connection to the Fusion database fails, the exception leaves the
    [try] block of the loop before [sage_vue_thread] and [ddm_thread] are
    called, and the round is nothing but the echo of the exception, the
    flush and the scheduled jobs. *)
Theorem C3_fusion_failure_skips_the_other_backends :
  forall (c : Cycle) (w : World) (e : exn),
    connect (fusion_db c) = Some e ->
    prog_cycle c w
    = (click_echo (str e) ;; send_alert_notif ;;
       schedule_run_pending (due c) ;; ret tt) w.
Proof.
  intros c w e H.
  unfold prog_cycle, poll_backends, fusion_thread, try_except, bind.
  rewrite H. reflexivity.
Qed.

Lemma C3_witness :
  let w' := exec (prog_cycle (busy_round (Some ConnectionError))) one_domain in
  SageVue_Error_List w' = [] /\ Sagevue_Missing_Devices w' = 0
  /\ DDM_OFFLINE_LIST w' = [] /\ DDM_Missing_Devices w' = 0
  /\ console w' = ["connection refused"].
Proof.
  cbv zeta. unfold exec.
  rewrite (C3_fusion_failure_skips_the_other_backends
             (busy_round (Some ConnectionError)) one_domain ConnectionError
             eq_refl).
  repeat split; reflexivity.
Defined.

(** The same round with the database reachable: both other backends run. *)
Lemma busy_round_with_fusion_up :
  let w' := exec (prog_cycle (busy_round None)) one_domain in
  SageVue_Error_List w' = ["Rack 1 - Fan failure"]
  /\ Sagevue_Missing_Devices w' = 1
  /\ DDM_OFFLINE_LIST w' = ["Studio A - amp-1 is offline."]
  /\ DDM_Missing_Devices w' = 1.
Proof. cbv zeta. repeat split; reflexivity. Qed.

(** The two sibling threads catch their own exceptions: once
    [fusion_thread] has returned, both of them run, whatever their requests
    do. *)
Lemma sibling_failures_are_contained (c : Cycle) (w w1 : World) :
  fusion_thread (fusion_db c) w = (Val tt, w1) ->
  poll_backends c w
  = (Val tt,
     exec (ddm_thread (ddm_api c)) (exec (sage_vue_thread (sage_vue_api c)) w1)).
Proof.
  intros Hf. unfold poll_backends, try_except, bind. rewrite Hf.
  pose proof (sage_vue_thread_returns (sage_vue_api c) w1) as Hs.
  unfold result, exec in *.
  destruct (sage_vue_thread (sage_vue_api c) w1) as [r w2]. simpl in *.
  subst r.
  pose proof (ddm_thread_returns (ddm_api c) w2) as Hd.
  unfold result in Hd.
  destruct (ddm_thread (ddm_api c) w2) as [r w3]. simpl in *.
  now subst r.
Qed.

(** ** The flush *)

Lemma requests_post_answered (p : Post) (w : World) (code : nat) :
  next_response w = Some code ->
  exists w',
    requests_post p w = (Val code, w')
    /\ posted w' = posted w ++ [(p, code)]
    /\ lifecycle_unchanged w w'.
Proof.
  unfold next_response, requests_post.
  destruct (network w) as [|[e|c] rest]; intros H; inversion H; subst;
    eexists; (split; [reflexivity|]); split;
    try reflexivity; unfold lifecycle_unchanged; simpl; tauto.
Qed.

Lemma requests_post_frame (p : Post) (w : World) :
  lifecycle_unchanged w (exec (requests_post p) w).
Proof.
  unfold exec, requests_post, lifecycle_unchanged.
  destruct (network w) as [|[e|c] rest]; simpl; tauto.
Qed.

Lemma send_alert_notif_answered (w : World) (code : nat) :
  next_response w = Some code ->
  result send_alert_notif w = Val tt
  /\ ALERTS_NOTIF_LIST (exec send_alert_notif w) = []
  /\ console (exec send_alert_notif w) = console w.
Proof.
  intros H. unfold result, exec, send_alert_notif, bind, gets, modify.
  destruct (SEND_ALERTS w && (0 <? length (ALERTS_NOTIF_LIST w))%nat);
    [|repeat split; reflexivity].
  match goal with |- context [requests_post ?p w] =>
    destruct (requests_post_answered p w code H) as (w' & -> & _ & Hf) end.
  simpl. repeat split. apply Hf.
Qed.

(** C4, as amended.  When the request of a flush is answered, whatever the
    status of the answer, [send_alert_notif] returns, the pending list is
    empty afterwards and nothing has been printed; and if no scheduled job
    is due, the loop goes on with the next round from the state the flush
    left. *)
Theorem C4_answered_flush_clears_and_continues :
  forall (c : Cycle) (rest : list Cycle) (w : World) (code : nat),
    let w1 := exec (poll_backends c) w in
    let w2 := exec send_alert_notif w1 in
    next_response w1 = Some code ->
    due c = [] ->
    result send_alert_notif w1 = Val tt
    /\ ALERTS_NOTIF_LIST w2 = []
    /\ console w2 = console w1
    /\ prog_loop (c :: rest) w = prog_loop rest w2.
Proof.
  intros c rest w code. cbv zeta. intros Hnext Hdue.
  destruct (send_alert_notif_answered _ code Hnext) as (Hr & Hl & Hc).
  repeat split; try assumption.
  simpl. unfold prog_cycle, bind at 1 2 3.
  pose proof (poll_backends_returns c w) as Hp.
  unfold result, exec in *.
  destruct (poll_backends c w) as [r w1]. simpl in *. subst r.
  destruct (send_alert_notif w1) as [r w2]. simpl in *. subst r.
  rewrite Hdue. reflexivity.
Qed.

Lemma C4_witness :
  let w2 := exec send_alert_notif
              (exec (poll_backends quiet_round) (one_pending [inr 500])) in
  ALERTS_NOTIF_LIST w2 = [] /\ console w2 = []
  /\ prog_loop [quiet_round; quiet_round] (one_pending [inr 500])
     = prog_loop [quiet_round] w2.
Proof.
  cbv zeta.
  destruct (C4_answered_flush_clears_and_continues quiet_round [quiet_round]
              (one_pending [inr 500]) 500 eq_refl eq_refl)
    as (_ & Hl & Hc & Hloop).
  split; [exact Hl|]. split; [exact Hc | exact Hloop].
Defined.

(** C4 as stated fails: when the request of the flush raises, nothing
    catches the exception.  It leaves [send_alert_notif] before the pending
    list is cleared, nothing is printed, and it ends the loop: the second
    round is never run. *)
Lemma C4_raising_send_ends_the_loop :
  let w := one_pending [inl ConnectionError] in
  result send_alert_notif w = Exc ConnectionError
  /\ ALERTS_NOTIF_LIST (exec send_alert_notif w)
     = ["DDM - Studio A - amp-1 is offline."]
  /\ console (exec send_alert_notif w) = []
  /\ result (prog_loop [quiet_round; quiet_round]) w = Exc ConnectionError
  /\ exec (prog_loop [quiet_round; quiet_round]) w
     = exec (prog_cycle quiet_round) w.
Proof.
  cbv zeta. split; [vm_compute; reflexivity|]. split; [vm_compute; reflexivity|].
  split; [vm_compute; reflexivity|]. split; vm_compute; reflexivity.
Qed.

(** ** Mute requests *)

(** C5, as amended.  When the duration is a string that [str.isnumeric]
    rejects, [mute_thread] sends the notification that the time parameter is
    invalid and does nothing else: the mute list is what it was. *)
Theorem C5_non_numeric_duration_is_rejected :
  forall (keyword : option string) (minutes : string) (w : World),
    isnumeric minutes = false ->
    ALERTS_TEMP_IGNORE (exec (mute_thread (keyword, Some minutes)) w)
    = ALERTS_TEMP_IGNORE w
    /\ forall kw, keyword = Some kw ->
         mute_thread (keyword, Some minutes) w
         = (send_notification ("Cannot mute alerts containing " +++ kw
                               +++ " - time parameter is invalid.") ;;
            ret "Success") w.
Proof.
  intros keyword minutes w H. unfold mute_thread. simpl. rewrite H. simpl.
  split.
  - destruct keyword as [kw|]; [|reflexivity].
    unfold exec, bind, as_str, ret, send_notification, bind.
    match goal with |- context [requests_post ?p w] =>
      pose proof (requests_post_frame p w) as Hf;
      unfold exec in Hf; destruct (requests_post p w) as [[code|e] w'] end;
      simpl in *; apply Hf.
  - intros kw ->. reflexivity.
Qed.

Lemma C5_witness :
  ALERTS_TEMP_IGNORE (exec (mute_thread (Some "x", Some "abc")) (initial []))
  = []
  /\ posted (exec (mute_thread (Some "x", Some "abc")) (initial []))
     = [(mkPost usingNotifChannel "Program Notification"
           [Message "Cannot mute alerts containing x - time parameter is invalid."],
         200)].
Proof.
  destruct (C5_non_numeric_duration_is_rejected (Some "x") "abc" (initial [])
              eq_refl) as [Hsame Hrun].
  split; [exact Hsame|]. unfold exec. rewrite (Hrun "x" eq_refl). reflexivity.
Defined.

(** C5 as stated fails: the duration "0" is not a positive integer, yet it
    passes the test.  The acknowledgement is sent and the keyword enters the
    mute list, where it stays for the zero minutes of the sleep. *)
Lemma C5_zero_minutes_is_accepted :
  isnumeric "0" = true
  /\ (exists w1,
        mute_thread_enter (Some "x") "0" (initial []) = (Val 0, w1)
        /\ ALERTS_TEMP_IGNORE w1 = ["x"]
        /\ posted w1
           = [(mkPost usingNotifChannel "Program Notification"
                 [Message "Muting alerts containing x for 0 minutes."], 200)])
  /\ result (mute_thread (Some "x", Some "0")) (initial []) = Val "Success".
Proof.
  split; [reflexivity|]. split; [|reflexivity].
  eexists. split; [vm_compute; reflexivity|]. split; reflexivity.
Qed.

(** A duration that [str.isnumeric] lets through and [int] refuses, such as
    the superscript two (U+00B2): the keyword has entered the mute list when
    [int] raises, the handler only sends a notification, and the keyword
    stays muted. *)
Lemma superscript_duration_stays_muted :
  let two := String (ascii_of_nat 178) EmptyString in
  isnumeric two = true
  /\ result (mute_thread (Some "x", Some two)) (initial []) = Val "Error"
  /\ ALERTS_TEMP_IGNORE (exec (mute_thread (Some "x", Some two)) (initial []))
     = ["x"].
Proof.
  cbv zeta. split; [vm_compute; reflexivity|].
  split; vm_compute; reflexivity.
Qed.

(** ** The report *)

Lemma fusion_error_lines_state (rooms : list Room) (w : World) :
  snd (fusion_error_lines rooms w) = w.
Proof.
  induction rooms as [|room rest IH]; [reflexivity|].
  simpl. unfold bind, room_2.
  destruct (RawSerialValues room) as [|message others]; [reflexivity|].
  unfold ret at 1.
  destruct (fusion_error_lines rest w) as [[lines|e] w1]; simpl in *;
    now subst w1.
Qed.

Lemma get_fusion_status_message_state (w : World) :
  snd (get_fusion_status_message w) = w.
Proof.
  unfold get_fusion_status_message, bind, gets.
  destruct ((length (Fusion_Error_List w) =? 0)%nat
            && (length (Fusion_Offline_List w) =? 0)%nat); [reflexivity|].
  pose proof (fusion_error_lines_state (Fusion_Error_List w) w) as H.
  destruct (fusion_error_lines (Fusion_Error_List w) w) as [[lines|e] w1];
    simpl in *; now subst w1.
Qed.


Lemma fusion_error_lines_returns (rooms : list Room) (w : World) :
  (forall room, In room rooms -> RawSerialValues room <> []) ->
  fusion_error_lines rooms w
  = (Val (map (fun room => RoomName room +++ " - "
                           +++ hd "" (RawSerialValues room)) rooms), w).
Proof.
  induction rooms as [|room rest IH]; intros H; [reflexivity|].
  simpl. unfold bind, room_2.
  destruct (RawSerialValues room) as [|message others] eqn:E.
  - exfalso. apply (H room); [now left | exact E].
  - unfold ret at 1. rewrite IH; [reflexivity|].
    intros r Hr. apply H. now right.
Qed.







(** * Further properties *)

(** ** The removal loop on a list without repetitions *)

Section RemovalSweep.
Context {A : Type} (eqb : A -> A -> bool).
Hypothesis eqb_eq : forall a b, eqb a b = true <-> a = b.

Lemma list_remove_middle (x : A) (pre post : list A) :
  ~ In x pre -> list_remove eqb x (pre ++ x :: post) = Some (pre ++ post).
Proof.
  induction pre as [|y pre IH]; simpl; intros Hnot.
  - assert (eqb x x = true) as -> by now apply eqb_eq. reflexivity.
  - destruct (eqb y x) eqn:E.
    + apply eqb_eq in E. subst. exfalso. apply Hnot. now left.
    + rewrite IH; [reflexivity|]. intros H. apply Hnot. now right.
Qed.

Lemma remove_inactive_from_past_end (current : list A) (fuel i : nat)
    (stored : list A) :
  length stored <= i ->
  remove_inactive_from eqb current fuel i stored = stored.
Proof.
  intros H. destruct fuel as [|fuel]; [reflexivity|]. simpl.
  apply nth_error_None in H. now rewrite H.
Qed.

Lemma nth_error_after (pre : list A) (x : A) (post : list A) :
  nth_error (pre ++ x :: post) (length pre) = Some x.
Proof.
  rewrite nth_error_app2 by lia. now rewrite Nat.sub_diag.
Qed.

Lemma remove_inactive_from_sweep (current : list A) (fuel : nat) :
  forall (pre l : list A),
    NoDup (pre ++ l) -> length l <= fuel ->
    remove_inactive_from eqb current fuel (length pre) (pre ++ l)
    = pre ++ removal_sweep eqb current l.
Proof.
  induction fuel as [|fuel IH]; intros pre l Hnd Hlen.
  - destruct l; [reflexivity | simpl in Hlen; lia].
  - destruct l as [|x r].
    + simpl. rewrite app_nil_r.
      assert (nth_error pre (length pre) = None) as ->
        by (apply nth_error_None; lia).
      reflexivity.
    + rewrite remove_inactive_from_S, nth_error_after.
      cbn [removal_sweep].
      destruct (py_in eqb x current) eqn:Ein; cbn [negb].
      * replace (pre ++ x :: r) with ((pre ++ [x]) ++ r)
          by (now rewrite <- app_assoc).
        replace (S (length pre)) with (length (pre ++ [x]))
          by (rewrite length_app; simpl; lia).
        rewrite IH.
        -- now rewrite <- app_assoc.
        -- now rewrite <- app_assoc.
        -- simpl in Hlen. lia.
      * assert (~ In x pre) as Hx.
        { apply NoDup_remove_2 in Hnd. intros H. apply Hnd.
          apply in_or_app. now left. }
        rewrite (list_remove_middle x pre r Hx).
        apply NoDup_remove_1 in Hnd.
        destruct r as [|y r'].
        -- rewrite app_nil_r. apply remove_inactive_from_past_end. lia.
        -- replace (pre ++ y :: r') with ((pre ++ [y]) ++ r')
             by (now rewrite <- app_assoc).
           replace (S (length pre)) with (length (pre ++ [y]))
             by (rewrite length_app; simpl; lia).
           rewrite IH.
           ++ now rewrite <- app_assoc.
           ++ now rewrite <- app_assoc.
           ++ simpl in Hlen. lia.
Qed.

Lemma remove_inactive_sweep (current stored : list A) :
  NoDup stored ->
  remove_inactive eqb current stored = removal_sweep eqb current stored.
Proof.
  intros Hnd.
  apply (remove_inactive_from_sweep current (length stored) [] stored Hnd
           (le_n _)).
Qed.

Lemma removal_sweep_isolated (current : list A) (n : nat) :
  forall l, length l <= n -> stale_isolated eqb current l ->
            removal_sweep eqb current l
            = filter (fun x => py_in eqb x current) l.
Proof.
  induction n as [|n IH]; intros l Hlen Hiso.
  - destruct l; [reflexivity | simpl in Hlen; lia].
  - destruct l as [|x r]; [reflexivity|].
    cbn [removal_sweep filter]. destruct (py_in eqb x current) eqn:Ex.
    + f_equal. apply IH; [simpl in Hlen; lia|].
      destruct r as [|y r']; [exact I|]. apply Hiso.
    + destruct r as [|y r']; [reflexivity|].
      destruct Hiso as [[H|H] Hrest]; [congruence|].
      cbn [filter]. rewrite H. f_equal.
      apply IH; [simpl in Hlen; lia|].
      destruct r' as [|z r'']; [exact I|]. apply Hrest.
Qed.

End RemovalSweep.

(** X1.  On a stored list without repetitions, the loop
    [for error in stored: if error not in current: stored.remove(error)]
    leaves what [removal_sweep] describes: current elements stay, a stale
    element is removed, and the element right after a removed one is never
    examined, so it stays whether it is current or not. *)
Theorem X1_removal_loop_passes_over_the_next :
  forall (current stored : list string),
    NoDup stored ->
    remove_inactive String.eqb current stored
    = removal_sweep String.eqb current stored.
Proof.
  intros current stored Hnd.
  now apply remove_inactive_sweep; [apply String.eqb_eq|].
Qed.

Lemma X1_witness :
  remove_inactive String.eqb ["c"] ["a"; "b"; "c"; "d"; "e"] = ["b"; "c"; "e"].
Proof.
  rewrite X1_removal_loop_passes_over_the_next; [reflexivity|].
  repeat constructor; simpl; intuition discriminate.
Defined.

(** X2.  When no two neighbours of a stored list without repetitions are
    both stale, the removal loop leaves exactly the elements that are still
    current, in their order. *)
Theorem X2_removal_loop_filters_isolated_stale :
  forall (current stored : list string),
    NoDup stored ->
    stale_isolated String.eqb current stored ->
    remove_inactive String.eqb current stored
    = filter (fun k => py_in String.eqb k current) stored.
Proof.
  intros current stored Hnd Hiso.
  rewrite (remove_inactive_sweep String.eqb String.eqb_eq current stored Hnd).
  apply (removal_sweep_isolated String.eqb current (length stored));
    [apply le_n | assumption].
Qed.

Lemma X2_witness :
  remove_inactive String.eqb ["b"; "d"] ["a"; "b"; "c"; "d"] = ["b"; "d"].
Proof.
  rewrite X2_removal_loop_filters_isolated_stale; [reflexivity| |].
  - repeat constructor; simpl; intuition discriminate.
  - simpl. tauto.
Defined.

(** ** Mute keywords *)

Lemma prefix_spec (sub s : string) :
  String.prefix sub s = true <-> exists after, s = sub +++ after.
Proof.
  revert s. induction sub as [|a sub IH]; intros s.
  - destruct s; simpl; split; eauto.
  - destruct s as [|b s]; simpl.
    + split; [discriminate | intros [after H]; discriminate].
    + destruct (ascii_dec a b) as [->|Hne].
      * rewrite IH. split; intros [after H]; exists after.
        -- now rewrite H.
        -- now inversion H.
      * split; [discriminate|]. intros [after H]. inversion H. congruence.
Qed.

Lemma str_in_spec (sub s : string) : str_in sub s = true <-> occurs_in sub s.
Proof.
  unfold occurs_in. induction s as [|c s IH].
  - cbn [str_in]. rewrite orb_false_r, prefix_spec. split.
    + intros [after H]. now exists "", after.
    + intros (before & after & H). destruct before; [now exists after|].
      discriminate.
  - cbn [str_in]. rewrite orb_true_iff, IH, prefix_spec. split.
    + intros [[after H]|(before & after & H)].
      * now exists "", after.
      * exists (String c before), after. simpl. now rewrite H.
    + intros (before & after & H). destruct before as [|b before].
      * left. now exists after.
      * right. simpl in H. inversion H. now exists before, after.
Qed.

Lemma any_in_spec (keywords : list string) (s : string) :
  any_in keywords s = true <-> exists kw, In kw keywords /\ occurs_in kw s.
Proof.
  unfold any_in. rewrite existsb_exists.
  split; intros [kw [Hin H]]; exists kw; (split; [assumption|]);
    now apply str_in_spec.
Qed.

Lemma any_in_false (keywords : list string) (s : string) :
  any_in keywords s = false
  <-> forall kw, In kw keywords -> ~ occurs_in kw s.
Proof.
  split.
  - intros H kw Hin Hocc.
    assert (any_in keywords s = true) by (apply any_in_spec; eauto).
    congruence.
  - intros H. destruct (any_in keywords s) eqn:E; [|reflexivity].
    apply any_in_spec in E. destruct E as [kw [Hin Hocc]].
    now apply H in Hocc.
Qed.

(** X3.  [add_to_alert_notif_push] drops the alert when some keyword of the
    mute list occurs, as a substring, in the device or in the message, and
    queues the line "category - device - message" otherwise.  The category
    is not looked at. *)
Theorem X3_alert_queued_unless_a_keyword_occurs :
  forall (category device message : string) (w : World),
    let w' := add_to_alert_notif_push category device message w in
    ((exists kw, In kw (ALERTS_TEMP_IGNORE w)
                 /\ (occurs_in kw device \/ occurs_in kw message)) ->
     ALERTS_NOTIF_LIST w' = ALERTS_NOTIF_LIST w)
    /\ ((forall kw, In kw (ALERTS_TEMP_IGNORE w) ->
                    ~ occurs_in kw device /\ ~ occurs_in kw message) ->
        ALERTS_NOTIF_LIST w'
        = ALERTS_NOTIF_LIST w
          ++ [category +++ " - " +++ device +++ " - " +++ message]).
Proof.
  intros category device message w. cbv zeta.
  unfold add_to_alert_notif_push. cbn [ALERTS_TEMP_IGNORE set_pushed].
  split.
  - intros (kw & Hin & [H|H]).
    + assert (any_in (ALERTS_TEMP_IGNORE w) device = true) as ->
        by (apply any_in_spec; eauto).
      reflexivity.
    + assert (any_in (ALERTS_TEMP_IGNORE w) message = true) as ->
        by (apply any_in_spec; eauto).
      rewrite andb_false_r. reflexivity.
  - intros Hnone.
    assert (any_in (ALERTS_TEMP_IGNORE w) device = false) as ->
      by (apply any_in_false; intros kw Hin; now apply Hnone).
    assert (any_in (ALERTS_TEMP_IGNORE w) message = false) as ->
      by (apply any_in_false; intros kw Hin; now apply Hnone).
    reflexivity.
Qed.

Lemma X3_witness :
  ALERTS_NOTIF_LIST
    (add_to_alert_notif_push "DDM" "Studio A" "amp-1 is offline." offline_muted)
  = [].
Proof.
  apply (proj1 (X3_alert_queued_unless_a_keyword_occurs
                  "DDM" "Studio A" "amp-1 is offline." offline_muted)).
  exists "offline". split; [now left|]. right.
  exists "amp-1 is ", ".". reflexivity.
Defined.

Lemma send_notification_frame (message : string) (w : World) :
  lifecycle_unchanged w (snd (send_notification message w)).
Proof.
  unfold send_notification, bind.
  match goal with |- context [requests_post ?p w] =>
    pose proof (requests_post_frame p w) as Hf; unfold exec in Hf;
    destruct (requests_post p w) as [[code|e] w'] end; exact Hf.
Qed.

Lemma send_notification_ignore (message : string) (w : World) :
  ALERTS_TEMP_IGNORE (snd (send_notification message w)) = ALERTS_TEMP_IGNORE w.
Proof. apply (send_notification_frame message w). Qed.

Lemma mute_thread_enter_muted (kw minutes : string) (w w1 : World) (n : nat) :
  mute_thread_enter (Some kw) minutes w = (Val n, w1) ->
  In kw (ALERTS_TEMP_IGNORE w1).
Proof.
  unfold mute_thread_enter, as_str, bind, ret, modify, lift.
  destruct (send_notification _ w) as [[[]|e] w0]; [|discriminate].
  destruct (int_of_numeric minutes) as [e|m]; unfold raise, ret;
    intros H; inversion H; subst.
  cbn. apply in_or_app. right. now left.
Qed.

(** X4.  Once [mute_thread] has reached its sleep, every alert whose device
    or message contains the keyword is dropped by
    [add_to_alert_notif_push]; with the empty keyword, which occurs in every
    string, that is every alert. *)
Theorem X4_muted_keyword_stops_alerts :
  forall (kw minutes : string) (w w1 : World) (n : nat),
    mute_thread_enter (Some kw) minutes w = (Val n, w1) ->
    (forall category device message,
       occurs_in kw device \/ occurs_in kw message ->
       ALERTS_NOTIF_LIST (add_to_alert_notif_push category device message w1)
       = ALERTS_NOTIF_LIST w1)
    /\ (kw = "" ->
        forall category device message,
          ALERTS_NOTIF_LIST (add_to_alert_notif_push category device message w1)
          = ALERTS_NOTIF_LIST w1).
Proof.
  intros kw minutes w w1 n Henter.
  apply mute_thread_enter_muted in Henter.
  assert (forall category device message,
            occurs_in kw device \/ occurs_in kw message ->
            ALERTS_NOTIF_LIST
              (add_to_alert_notif_push category device message w1)
            = ALERTS_NOTIF_LIST w1) as Hmute.
  { intros category device message Hocc.
    unfold add_to_alert_notif_push. cbn [ALERTS_TEMP_IGNORE set_pushed].
    destruct Hocc as [H|H].
    - assert (any_in (ALERTS_TEMP_IGNORE w1) device = true) as ->
        by (apply any_in_spec; eauto).
      reflexivity.
    - assert (any_in (ALERTS_TEMP_IGNORE w1) message = true) as ->
        by (apply any_in_spec; eauto).
      rewrite andb_false_r. reflexivity. }
  split; [exact Hmute|].
  intros -> category device message. apply Hmute.
  left. now exists "", device.
Qed.

Lemma X4_witness :
  exists w1,
    mute_thread_enter (Some "NTP") "10" (initial []) = (Val 10, w1)
    /\ ALERTS_NOTIF_LIST
         (add_to_alert_notif_push "SageVue" "Rack 1" "device NTP offset error" w1)
       = ALERTS_NOTIF_LIST w1.
Proof.
  eexists. split; [vm_compute; reflexivity|].
  refine (proj1 (X4_muted_keyword_stops_alerts "NTP" "10" (initial []) _ 10 _)
            "SageVue" "Rack 1" "device NTP offset error" _).
  - vm_compute. reflexivity.
  - right. exists "device ", " offset error". reflexivity.
Defined.

Lemma list_remove_count (x : string) (l l' : list string) (k : string) :
  list_remove String.eqb x l = Some l' ->
  count_occ string_dec l k
  = count_occ string_dec l' k + (if string_dec x k then 1 else 0).
Proof.
  revert l'. induction l as [|y l IH]; simpl; intros l' H; [discriminate|].
  destruct (String.eqb y x) eqn:E.
  - apply String.eqb_eq in E. inversion H; subst.
    destruct (string_dec x k); lia.
  - destruct (list_remove String.eqb x l) as [r|]; [|discriminate].
    inversion H; subst. simpl. rewrite (IH r eq_refl).
    destruct (string_dec y k); destruct (string_dec x k); lia.
Qed.

Lemma list_remove_snoc (x : string) (l : list string) :
  exists l', list_remove String.eqb x (l ++ [x]) = Some l'
             /\ (forall k, count_occ string_dec l' k = count_occ string_dec l k)
             /\ (~ In x l -> l' = l).
Proof.
  destruct (list_remove_present String.eqb String.eqb_eq x (l ++ [x]))
    as [l' Hl']; [apply in_or_app; right; now left|].
  exists l'. split; [assumption|]. split.
  - intros k. pose proof (list_remove_count x _ _ k Hl') as H.
    rewrite count_occ_app in H. simpl in H.
    destruct (string_dec x k); lia.
  - intros Hnot.
    rewrite (list_remove_middle String.eqb String.eqb_eq x l [] Hnot) in Hl'.
    rewrite app_nil_r in Hl'. now inversion Hl'.
Qed.

(** X5.  The part of [mute_thread] after the sleep undoes the append of the
    part before it.  Run on a state whose mute list ends with the keyword
    that was appended, it leaves every keyword in the list as often as it
    was before the append, whether or not the closing notification raises.
    When the keyword was not in the list before, the list is what it was;
    when it was, [list.remove] takes its first occurrence out, so that the
    keyword has moved to the end. *)
Theorem X5_unmute_undoes_the_append :
  forall (kw : string) (l : list string) (w1 : World),
    ALERTS_TEMP_IGNORE w1 = l ++ [kw] ->
    let w' := exec (mute_thread_leave (Some kw)) w1 in
    (forall k, count_occ string_dec (ALERTS_TEMP_IGNORE w') k
               = count_occ string_dec l k)
    /\ (~ In kw l -> ALERTS_TEMP_IGNORE w' = l)
    /\ (forall pre post,
          l = pre ++ kw :: post -> ~ In kw pre ->
          ALERTS_TEMP_IGNORE w' = pre ++ post ++ [kw]).
Proof.
  intros kw l w1 Hl. cbv zeta.
  destruct (list_remove_snoc kw l) as (l' & Hrem & Hcount & Hsame).
  assert (ALERTS_TEMP_IGNORE (exec (mute_thread_leave (Some kw)) w1) = l')
    as ->.
  { unfold exec, mute_thread_leave, as_str, bind, ret, gets, modify.
    rewrite Hl, Hrem.
    match goal with |- context [send_notification ?msg ?st] =>
      pose proof (send_notification_ignore msg st) as Hi;
      destruct (send_notification msg st) as [[[]|e] w2] end;
      cbn [snd] in *; now rewrite Hi. }
  split; [exact Hcount|]. split; [exact Hsame|].
  intros pre post -> Hpre.
  rewrite <- app_assoc in Hrem. cbn [app] in Hrem.
  rewrite (list_remove_middle String.eqb String.eqb_eq kw pre
             (post ++ [kw]) Hpre) in Hrem.
  now inversion Hrem.
Qed.

Lemma X5_witness :
  ALERTS_TEMP_IGNORE
    (exec (mute_thread_leave (Some "amp"))
       (exec (mute_thread_enter (Some "amp") "15")
          (set_ALERTS_TEMP_IGNORE ["amp"; "NTP"] (initial []))))
  = [] ++ ["NTP"] ++ ["amp"].
Proof.
  refine (proj2 (proj2 (X5_unmute_undoes_the_append "amp" ["amp"; "NTP"]
                          (exec (mute_thread_enter (Some "amp") "15")
                             (set_ALERTS_TEMP_IGNORE ["amp"; "NTP"]
                                (initial [])))
                          _)) [] ["NTP"] _ _).
  - vm_compute. reflexivity.
  - reflexivity.
  - intros [].
Defined.

(** ** Properties kept along a computation *)

Section Preserves.
Variable P : World -> Prop.

Lemma preserves_ret {A : Type} (a : A) : preserves P (ret a).
Proof. intros w H. exact H. Qed.

Lemma preserves_raise {A : Type} (e : exn) : preserves P (@raise A e).
Proof. intros w H. exact H. Qed.

Lemma preserves_gets {A : Type} (f : World -> A) : preserves P (gets f).
Proof. intros w H. exact H. Qed.

Lemma preserves_lift {A : Type} (r : exn + A) : preserves P (lift r).
Proof. destruct r; intros w H; exact H. Qed.

Lemma preserves_modify (f : World -> World) :
  (forall w, P w -> P (f w)) -> preserves P (modify f).
Proof. intros Hf w H. now apply Hf. Qed.

Lemma preserves_bind {A B : Type} (m : M A) (k : A -> M B) :
  preserves P m -> (forall a, preserves P (k a)) -> preserves P (bind m k).
Proof.
  intros Hm Hk w H. unfold bind. specialize (Hm w H).
  destruct (m w) as [[a|e] w1]; simpl in *; [now apply Hk | assumption].
Qed.

Lemma preserves_try {A : Type} (m : M A) (handler : exn -> M A) :
  preserves P m -> (forall e, preserves P (handler e)) ->
  preserves P (try_except m handler).
Proof.
  intros Hm Hh w H. unfold try_except. specialize (Hm w H).
  destruct (m w) as [[a|e] w1]; simpl in *; [assumption | now apply Hh].
Qed.

Lemma preserves_for_each {A : Type} (l : list A) (body : A -> M unit) :
  (forall x, preserves P (body x)) -> preserves P (for_each l body).
Proof.
  intros Hb. induction l as [|x rest IH]; simpl.
  - apply preserves_ret.
  - apply preserves_bind; [apply Hb | intros _; exact IH].
Qed.

Lemma preserves_fold {A B : Type} (f : B * World -> A -> B * World)
    (l : list A) :
  (forall st x, P (snd st) -> P (snd (f st x))) ->
  forall st, P (snd st) -> P (snd (fold_left f l st)).
Proof.
  intros Hf. induction l as [|x rest IH]; intros st H; simpl;
    [assumption | now apply IH, Hf].
Qed.

Lemma preserves_fold_world {A : Type} (f : World -> A -> World) (l : list A) :
  (forall w x, P w -> P (f w x)) ->
  forall w, P w -> P (fold_left f l w).
Proof.
  intros Hf. induction l as [|x rest IH]; intros w H; simpl;
    [assumption | now apply IH, Hf].
Qed.

Lemma preserves_requests_post (p : Post) :
  (forall w v, P w -> P (set_posted v w)) ->
  (forall w v, P w -> P (set_network v w)) ->
  preserves P (requests_post p).
Proof.
  intros Hp Hn w H. unfold requests_post.
  destruct (network w) as [|[e|code] rest]; simpl; auto.
Qed.

End Preserves.

(** The combinators, taken apart down to the state updates. *)
Ltac preserve :=
  repeat match goal with
    | |- preserves _ (ret _) => apply preserves_ret
    | |- preserves _ (raise _) => apply preserves_raise
    | |- preserves _ (gets _) => apply preserves_gets
    | |- preserves _ (lift _) => apply preserves_lift
    | |- preserves _ (bind _ _) => apply preserves_bind; [|intros ?]
    | |- preserves _ (try_except _ _) => apply preserves_try; [|intros ?]
    | |- preserves _ (for_each _ _) => apply preserves_for_each; intros ?
    | |- preserves _ (modify _) => apply preserves_modify
    | |- preserves _ (if ?b then _ else _) => destruct b
    | |- preserves _ (match ?x with _ => _ end) => destruct x
    end.

(** ** What the threads leave alone

    A property of the state that no update of a field can break is kept
    by every function that only updates such fields. *)

Section Frames.
Variable P : World -> Prop.
Hypothesis on_pushed : forall w v, P w -> P (set_pushed v w).
Hypothesis on_pending : forall w v, P w -> P (set_ALERTS_NOTIF_LIST v w).
Hypothesis on_console : forall w v, P w -> P (set_console v w).
Hypothesis on_temp_offline : forall w v, P w -> P (set_DDM_TEMP_OFFLINE_LIST v w).
Hypothesis on_offline : forall w v, P w -> P (set_DDM_OFFLINE_LIST v w).
Hypothesis on_temp : forall w v, P w -> P (set_DDM_TEMP_LIST v w).
Hypothesis on_error : forall w v, P w -> P (set_DDM_ERROR_LIST v w).
Hypothesis on_ddm_missing : forall w v, P w -> P (set_DDM_Missing_Devices v w).
Hypothesis on_ddm_total : forall w v, P w -> P (set_DDM_Total_Errors v w).
Hypothesis on_session : forall w v, P w -> P (set_SageVue_SessionID v w).
Hypothesis on_sage_vue_list : forall w v, P w -> P (set_SageVue_Error_List v w).
Hypothesis on_sage_vue_total :
  forall w v, P w -> P (set_Sagevue_Total_Errors v w).
Hypothesis on_sage_vue_missing :
  forall w v, P w -> P (set_Sagevue_Missing_Devices v w).
Hypothesis on_fusion_offline :
  forall w v, P w -> P (set_Fusion_Offline_List v w).

Lemma push_frame (category device message : string) (w : World) :
  P w -> P (add_to_alert_notif_push category device message w).
Proof.
  intros H. unfold add_to_alert_notif_push.
  match goal with |- context [if ?b then _ else _] => destruct b end; auto.
Qed.

Lemma ddm_note_frame (w : World) (f : DdmFault) : P w -> P (ddm_note w f).
Proof.
  intros H. unfold ddm_note.
  repeat match goal with |- context [if ?b then _ else _] => destruct b end;
    auto using push_frame.
Qed.

Lemma ddm_device_frame (domain : string) (w : World) (device : Device) :
  P w -> P (ddm_device domain device w).
Proof.
  intros H. rewrite ddm_device_notes.
  apply preserves_fold_world; auto using ddm_note_frame.
Qed.

Lemma ddm_scan_frame (api : string -> DdmReply (list Device)) :
  preserves P (ddm_scan api).
Proof.
  unfold ddm_scan, run_ddm_query. preserve.
  intros w H. apply preserves_fold_world; auto using ddm_device_frame.
Qed.

Lemma ddm_thread_frame (api : string -> DdmReply (list Device)) :
  preserves P (ddm_thread api).
Proof.
  unfold ddm_thread, click_echo. preserve; auto using ddm_scan_frame.
Qed.

Lemma sage_vue_fault_frame (system : System) (st : list string * World)
    (fault : Fault) :
  P (snd st) -> P (snd (sage_vue_fault system st fault)).
Proof.
  destruct st as [temp w]. intros H. unfold sage_vue_fault.
  match goal with |- context [if ?b then _ else _] => destruct b end;
    simpl in *; auto using push_frame.
Qed.

Lemma sage_vue_system_frame (st : list string * World) (system : System) :
  P (snd st) -> P (snd (sage_vue_system st system)).
Proof.
  intros H. unfold sage_vue_system.
  destruct (negb (String.eqb (Status system) "Green")); [|assumption].
  apply preserves_fold; [|assumption].
  intros st' fault. apply sage_vue_fault_frame.
Qed.

Lemma sage_vue_diff_frame (systems : list System) :
  preserves P (sage_vue_diff systems).
Proof.
  unfold sage_vue_diff. preserve; auto.
  intros w H. unfold sage_vue_scan.
  pose proof (preserves_fold P sage_vue_system systems
                sage_vue_system_frame ([], w) H) as Hf.
  destruct (fold_left sage_vue_system systems ([], w)) as [temp w1].
  exact Hf.
Qed.

Lemma sage_vue_thread_frame (api : SageVueApi) :
  preserves P (sage_vue_thread api).
Proof.
  unfold sage_vue_thread, click_echo. preserve; auto using sage_vue_diff_frame.
Qed.

Lemma fusion_offline_diff_frame (rows : list string) :
  preserves P (fusion_offline_diff rows).
Proof.
  unfold fusion_offline_diff. preserve; auto.
  intros w H. unfold fusion_offline_scan.
  assert (forall st x, P (snd st) -> P (snd (fusion_offline_room st x))) as Hr.
  { intros [temp w0] x H0. unfold fusion_offline_room.
    repeat match goal with |- context [if ?b then _ else _] => destruct b end;
      simpl in *; auto using push_frame. }
  pose proof (preserves_fold P fusion_offline_room rows Hr ([], w) H) as Hf.
  destruct (fold_left fusion_offline_room rows ([], w)) as [temp w1].
  exact Hf.
Qed.

Lemma fetch_messages_frame (query : string -> exn + list string)
    (rows : list (string * string)) :
  preserves P (fetch_messages query rows).
Proof.
  induction rows as [|[room_name room_id] rest IH]; simpl; preserve.
  exact IH.
Qed.

(** [fusion_thread] keeps what each of its parts keeps. *)
Lemma fusion_thread_parts (db : FusionDb) :
  (forall room, preserves P (fusion_error_room room)) ->
  (forall temp w, P w ->
     P (set_Fusion_Error_List
          (remove_inactive Room_eqb temp (Fusion_Error_List w)) w)) ->
  (forall room, preserves P (fusion_help_room room)) ->
  (forall temp w, P w ->
     P (set_Fusion_Help_Request_List
          (remove_inactive Room_eqb temp (Fusion_Help_Request_List w)) w)) ->
  preserves P (fusion_thread db).
Proof.
  intros Herr Herr_clean Hhelp Hhelp_clean.
  unfold fusion_thread.
  preserve;
    auto using fusion_offline_diff_frame, fetch_messages_frame.
Qed.

Hypothesis on_fusion_error :
  forall w v, P w -> P (set_Fusion_Error_List v w).
Hypothesis on_fusion_help :
  forall w v, P w -> P (set_Fusion_Help_Request_List v w).
Hypothesis on_posted : forall w v, P w -> P (set_posted v w).
Hypothesis on_network : forall w v, P w -> P (set_network v w).
Hypothesis on_send_alerts : forall w v, P w -> P (set_SEND_ALERTS v w).
Hypothesis on_domains : forall w v, P w -> P (set_DDM_DOMAINS v w).

Lemma room_2_frame (room : Room) : preserves P (room_2 room).
Proof. unfold room_2. preserve. Qed.

Lemma fusion_error_room_frame (room : Room) :
  preserves P (fusion_error_room room).
Proof.
  unfold fusion_error_room. preserve; auto using room_2_frame, push_frame.
Qed.

Lemma send_help_request_frame (room message : string) :
  preserves P (send_help_request room message).
Proof.
  unfold send_help_request. preserve. now apply preserves_requests_post.
Qed.

Lemma fusion_help_room_frame (room : Room) :
  preserves P (fusion_help_room room).
Proof.
  unfold fusion_help_room.
  preserve; auto using room_2_frame, send_help_request_frame.
Qed.

Lemma fusion_thread_frame (db : FusionDb) : preserves P (fusion_thread db).
Proof.
  apply fusion_thread_parts;
    auto using fusion_error_room_frame, fusion_help_room_frame.
Qed.

Lemma send_notification_keeps (message : string) :
  preserves P (send_notification message).
Proof.
  unfold send_notification. preserve. now apply preserves_requests_post.
Qed.

Lemma send_alert_notif_frame : preserves P send_alert_notif.
Proof.
  unfold send_alert_notif. preserve; auto.
  now apply preserves_requests_post.
Qed.

Lemma get_dante_domains_frame (reply : DdmReply (list string)) :
  preserves P (get_dante_domains reply).
Proof. unfold get_dante_domains, run_ddm_query. preserve; auto. Qed.

Lemma get_fusion_status_message_frame : preserves P get_fusion_status_message.
Proof. intros w H. now rewrite get_fusion_status_message_state. Qed.

Lemma run_report_frame (today : string) : preserves P (run_report today).
Proof.
  unfold run_report. preserve.
  - apply get_fusion_status_message_frame.
  - now apply preserves_requests_post.
Qed.

Lemma run_job_frame (job : Job) : preserves P (run_job job).
Proof.
  destruct job; simpl;
    auto using get_dante_domains_frame, run_report_frame;
    unfold enable_alerts, disable_alerts; preserve; auto.
Qed.

Lemma schedule_run_pending_frame (jobs : list Job) :
  preserves P (schedule_run_pending jobs).
Proof. apply preserves_for_each, run_job_frame. Qed.

(** A round and the loop keep what [fusion_thread] keeps. *)
Lemma poll_backends_parts (c : Cycle) :
  preserves P (fusion_thread (fusion_db c)) -> preserves P (poll_backends c).
Proof.
  intros Hf. unfold poll_backends, click_echo.
  preserve; auto using sage_vue_thread_frame, ddm_thread_frame.
Qed.

Lemma prog_cycle_parts (c : Cycle) :
  preserves P (fusion_thread (fusion_db c)) -> preserves P (prog_cycle c).
Proof.
  intros Hf. unfold prog_cycle.
  preserve;
    auto using poll_backends_parts, send_alert_notif_frame,
      schedule_run_pending_frame.
Qed.

Lemma prog_loop_parts (cycles : list Cycle) :
  (forall db, preserves P (fusion_thread db)) -> preserves P (prog_loop cycles).
Proof.
  intros Hf. induction cycles as [|c rest IH]; simpl; preserve.
  - now apply prog_cycle_parts.
  - exact IH.
Qed.

End Frames.

(** ** Each backend and its own part of the state *)

Ltac field_frame pred :=
  first [ intros ? ? ?; unfold pred in *; cbn; tauto
        | unfold pred; cbn; tauto ].

(** X6.  Whatever the three services answer, and whether the thread returns
    or raises, [fusion_thread] leaves the DDM and SageVue lists, the gauges,
    the domains, the alert switch, the mute list and the console as they
    were; [sage_vue_thread] leaves the DDM and Fusion lists, the DDM gauges
    and the webhook traffic as they were; [ddm_thread] leaves the SageVue
    and Fusion lists, the SageVue gauges, the session id and the webhook
    traffic as they were.  None of them changes the alert switch, the mute
    list or the domains. *)
Theorem X6_backends_keep_to_their_own_state :
  forall (db : FusionDb) (api : SageVueApi)
         (ddm : string -> DdmReply (list Device)) (w : World),
    outside_fusion w (exec (fusion_thread db) w)
    /\ outside_sage_vue w (exec (sage_vue_thread api) w)
    /\ outside_ddm w (exec (ddm_thread ddm) w).
Proof.
  intros db api ddm w. unfold exec. split; [|split].
  - apply (fusion_thread_frame (outside_fusion w)); field_frame outside_fusion.
  - apply (sage_vue_thread_frame (outside_sage_vue w));
      field_frame outside_sage_vue.
  - apply (ddm_thread_frame (outside_ddm w)); field_frame outside_ddm.
Qed.

(** ** Rounds with alerting switched off *)

Lemma send_help_request_disabled (room message : string) (w : World) :
  SEND_ALERTS w = false -> send_help_request room message w = (Val tt, w).
Proof.
  intros H. unfold send_help_request, bind, gets. now rewrite H.
Qed.

Lemma fusion_help_room_silent (w0 : World) (room : Room) :
  preserves (silent_since w0) (fusion_help_room room).
Proof.
  unfold fusion_help_room. preserve.
  - field_frame silent_since.
  - apply room_2_frame.
  - intros w H. rewrite send_help_request_disabled; [exact H | apply H].
Qed.

Lemma fusion_thread_silent (w0 : World) (db : FusionDb) :
  preserves (silent_since w0) (fusion_thread db).
Proof.
  apply fusion_thread_parts;
    try (intros room; apply fusion_error_room_frame);
    try apply fusion_help_room_silent;
    field_frame silent_since.
Qed.

Lemma poll_backends_silent (w0 : World) (c : Cycle) :
  preserves (silent_since w0) (poll_backends c).
Proof.
  apply poll_backends_parts; try apply fusion_thread_silent;
    field_frame silent_since.
Qed.

Lemma prog_cycle_silent (c : Cycle) (w0 w : World) :
  due c = [] -> silent_since w0 w ->
  exists w', prog_cycle c w = (Val tt, w')
             /\ silent_since w0 w' /\ ALERTS_NOTIF_LIST w' = [].
Proof.
  intros Hdue H. unfold prog_cycle, bind.
  pose proof (poll_backends_returns c w) as Hr.
  pose proof (poll_backends_silent w0 c w H) as Hs.
  unfold result in Hr.
  destruct (poll_backends c w) as [[[]|e] w1]; simpl in *; [|discriminate].
  unfold send_alert_notif, bind, gets.
  destruct Hs as [Hoff [Hp Hn]]. rewrite Hoff. simpl.
  rewrite Hdue. simpl. eexists. split; [reflexivity|].
  unfold silent_since. cbn. tauto.
Qed.

Lemma prog_loop_silent (cycles : list Cycle) (w0 w1 : World) :
  (forall c, In c cycles -> due c = []) ->
  silent_since w0 w1 ->
  result (prog_loop cycles) w1 = Val tt
  /\ silent_since w0 (exec (prog_loop cycles) w1)
  /\ (cycles <> [] -> ALERTS_NOTIF_LIST (exec (prog_loop cycles) w1) = []).
Proof.
  revert w1. induction cycles as [|c rest IH]; intros w1 Hdue H.
  - repeat split; try apply H. intros Hne. now contradiction Hne.
  - destruct (prog_cycle_silent c w0 w1) as [w2 [E [Hs Hl]]];
      [apply Hdue; now left | exact H |].
    unfold result, exec in *. simpl. unfold bind. rewrite E.
    destruct (IH w2 (fun c' Hc => Hdue c' (or_intror Hc)) Hs) as [Hr [Hs' Hl']].
    split; [exact Hr|]. split; [exact Hs'|]. intros _.
    destruct rest as [|c' rest']; [exact Hl|]. apply Hl'. discriminate.
Qed.

(** X7.  While alerting is switched off and no scheduled job is due, the
    loop of [prog_thread] survives every round, whatever the backends
    answer or raise; it makes no webhook request at all, and after each
    round the list of pending alerts is empty: the alerts and help requests
    found meanwhile are dropped, not kept for later. *)
Theorem X7_disabled_rounds_send_nothing :
  forall (cycles : list Cycle) (w : World),
    SEND_ALERTS w = false ->
    (forall c, In c cycles -> due c = []) ->
    result (prog_loop cycles) w = Val tt
    /\ silent_since w (exec (prog_loop cycles) w)
    /\ (cycles <> [] -> ALERTS_NOTIF_LIST (exec (prog_loop cycles) w) = []).
Proof.
  intros cycles w Hoff Hdue. apply prog_loop_silent; [exact Hdue|].
  unfold silent_since. tauto.
Qed.

Lemma X7_witness :
  result (prog_loop [busy_round None; quiet_round]) one_domain = Val tt
  /\ silent_since one_domain
       (exec (prog_loop [busy_round None; quiet_round]) one_domain)
  /\ ([busy_round None; quiet_round] <> [] ->
      ALERTS_NOTIF_LIST
        (exec (prog_loop [busy_round None; quiet_round]) one_domain) = []).
Proof.
  apply (X7_disabled_rounds_send_nothing [busy_round None; quiet_round]
           one_domain).
  - reflexivity.
  - intros c [<-|[<-|[]]]; reflexivity.
Defined.

(** ** The rooms of the Fusion error list *)

Ltac field_kept pred :=
  let H := fresh "H" in
  intros ? ? H; unfold pred in *; cbn; exact H.

Lemma fusion_error_room_message (room : Room) :
  preserves error_rooms_have_message (fusion_error_room room).
Proof.
  intros w H. unfold fusion_error_room, bind, gets, room_2.
  destruct (negb (py_in Room_eqb room (Fusion_Error_List w))); [|exact H].
  destruct (RawSerialValues room) as [|message others] eqn:E; [exact H|].
  unfold ret at 1.
  destruct (negb (str_in "1:notice" message) && negb (str_in "0:ok" message));
    [|exact H].
  unfold modify. cbn [snd].
  apply (push_frame error_rooms_have_message);
    try field_kept error_rooms_have_message.
  intros room' Hin. cbn in Hin. apply in_app_or in Hin.
  destruct Hin as [Hin|[<-|[]]]; [now apply H | congruence].
Qed.

Lemma fusion_thread_message (db : FusionDb) :
  preserves error_rooms_have_message (fusion_thread db).
Proof.
  apply fusion_thread_parts;
    try field_kept error_rooms_have_message.
  - apply fusion_error_room_message.
  - intros temp w H room Hin.
    change (In room (remove_inactive Room_eqb temp (Fusion_Error_List w)))
      in Hin.
    apply H. revert Hin. apply remove_inactive_incl.
  - intros room. apply fusion_help_room_frame;
      field_kept error_rooms_have_message.
Qed.

Lemma prog_thread_message (domains : DdmReply (list string))
    (cycles : list Cycle) :
  preserves error_rooms_have_message (prog_thread domains cycles).
Proof.
  unfold prog_thread. preserve.
  - apply get_dante_domains_frame; field_kept error_rooms_have_message.
  - apply prog_loop_parts; try field_kept error_rooms_have_message.
    apply fusion_thread_message.
Qed.

(** X8.  Every room that [prog_thread] has put on [Fusion_Error_List]
    carries a message: the room is appended only after [room[2]] has been
    read, and the removal loop adds nothing.  So in every state the loop
    reaches from the start of the script, [get_fusion_status_message]
    returns its text, one line per error room followed by one per offline
    room, and never fails on [room[2]]. *)
Theorem X8_fusion_status_renders_in_reachable_states :
  forall (net : list (exn + nat)) (domains : DdmReply (list string))
         (cycles : list Cycle),
    let w := exec (prog_thread domains cycles) (initial net) in
    error_rooms_have_message w
    /\ get_fusion_status_message w
       = (Val (if (length (Fusion_Error_List w) =? 0)%nat
                  && (length (Fusion_Offline_List w) =? 0)%nat
               then "No errors to report."
               else join_cr
                      (map (fun room => RoomName room +++ " - "
                                        +++ hd "" (RawSerialValues room))
                         (Fusion_Error_List w)
                       ++ map (fun room => room +++ " - "
                                           +++ "Room is currently offline")
                            (Fusion_Offline_List w))), w).
Proof.
  intros net domains cycles w.
  assert (error_rooms_have_message w) as H.
  { apply prog_thread_message. intros room []. }
  split; [exact H|].
  unfold get_fusion_status_message, bind, gets.
  destruct ((length (Fusion_Error_List w) =? 0)%nat
            && (length (Fusion_Offline_List w) =? 0)%nat); [reflexivity|].
  now rewrite fusion_error_lines_returns.
Qed.

(** ** An error room without a message *)

Lemma fetch_messages_returns (query : string -> exn + list string)
    (messages : string -> list string) (rows : list (string * string))
    (w : World) :
  messages_answered query messages rows ->
  fetch_messages query rows w
  = (Val (map (fun row => mkRoom (fst row) (snd row) (messages (snd row)))
            rows), w).
Proof.
  induction rows as [|[room_name room_id] rest IH]; intros H; [reflexivity|].
  simpl. unfold bind. rewrite (H room_name room_id) by now left.
  simpl. rewrite IH; [reflexivity|].
  intros n i Hin. apply (H n i). now right.
Qed.

Lemma fusion_error_room_no_message (room : Room) (w : World) :
  error_rooms_have_message w -> RawSerialValues room = [] ->
  fusion_error_room room w = (Exc IndexError, w).
Proof.
  intros H E. unfold fusion_error_room, bind, gets, room_2.
  assert (py_in Room_eqb room (Fusion_Error_List w) = false) as ->.
  { apply (py_in_false Room_eqb Room_eqb_eq). intros Hin. now apply (H room). }
  simpl. now rewrite E.
Qed.

Lemma fusion_error_room_raises (room : Room) (w w1 : World) (e : exn) :
  fusion_error_room room w = (Exc e, w1) -> e = IndexError.
Proof.
  unfold fusion_error_room, bind, gets, room_2, modify, ret, raise.
  destruct (negb (py_in Room_eqb room (Fusion_Error_List w)));
    [|discriminate].
  destruct (RawSerialValues room) as [|message others];
    [intros H; now inversion H|].
  destruct (negb (str_in "1:notice" message) && negb (str_in "0:ok" message));
    discriminate.
Qed.

Lemma error_rooms_index (rooms : list Room) (w : World) :
  error_rooms_have_message w ->
  (exists room, In room rooms /\ RawSerialValues room = []) ->
  result (for_each rooms fusion_error_room) w = Exc IndexError.
Proof.
  revert w. induction rooms as [|r rest IH]; intros w H [room [Hin E]];
    [destruct Hin|].
  unfold result in *. simpl. unfold bind.
  pose proof (fusion_error_room_message r w H) as H1.
  destruct (fusion_error_room r w) as [[[]|e] w1] eqn:E1; simpl in H1.
  - destruct Hin as [<-|Hin].
    + rewrite fusion_error_room_no_message in E1 by assumption.
      discriminate.
    + apply IH; [exact H1 | now exists room].
  - simpl. f_equal. eapply fusion_error_room_raises, E1.
Qed.

Lemma poll_backends_after_fusion_raise (c : Cycle) (w w1 : World) (e : exn) :
  fusion_thread (fusion_db c) w = (Exc e, w1) ->
  poll_backends c w = (Val tt, set_console (console w1 ++ [str e]) w1).
Proof.
  intros E. unfold poll_backends, try_except, bind. now rewrite E.
Qed.

(** X9.  A room that the error query lists but for which the message query
    has no row makes [fusion_thread] fail with [IndexError], in every state
    the script can be in (all stored error rooms carry a message): the
    thread stops before the help requests are looked at, and the round of
    [prog_thread] it belongs to only echoes "list index out of range",
    with the SageVue and DDM lists and gauges left as they were. *)
Theorem X9_error_room_without_message_stops_the_round :
  forall (c : Cycle) (w : World) (offline : list string)
         (rows : list (string * string)) (messages : string -> list string)
         (room_name room_id : string),
    connect (fusion_db c) = None ->
    offline_rooms (fusion_db c) = inr offline ->
    error_rooms (fusion_db c) = inr rows ->
    messages_answered (error_message (fusion_db c)) messages rows ->
    In (room_name, room_id) rows ->
    messages room_id = [] ->
    error_rooms_have_message w ->
    result (fusion_thread (fusion_db c)) w = Exc IndexError
    /\ Fusion_Help_Request_List (exec (fusion_thread (fusion_db c)) w)
       = Fusion_Help_Request_List w
    /\ posted (exec (fusion_thread (fusion_db c)) w) = posted w
    /\ (let w' := exec (poll_backends c) w in
        console w' = console w ++ ["list index out of range"]
        /\ SageVue_Error_List w' = SageVue_Error_List w
        /\ DDM_ERROR_LIST w' = DDM_ERROR_LIST w
        /\ DDM_OFFLINE_LIST w' = DDM_OFFLINE_LIST w
        /\ Sagevue_Total_Errors w' = Sagevue_Total_Errors w
        /\ DDM_Total_Errors w' = DDM_Total_Errors w
        /\ DDM_Missing_Devices w' = DDM_Missing_Devices w).
Proof.
  intros c w offline rows messages room_name room_id
    Hconn Hoff Herr Hmsg Hin Hnone Hinv.
  pose (P := fun w' : World =>
               Fusion_Help_Request_List w' = Fusion_Help_Request_List w
               /\ posted w' = posted w).
  assert (P w) as HP by (split; reflexivity).
  assert (result (fusion_thread (fusion_db c)) w = Exc IndexError
          /\ P (exec (fusion_thread (fusion_db c)) w)) as [Hres Hframe].
  { unfold result, exec, fusion_thread, bind.
    rewrite Hconn, Hoff, Herr. simpl.
    pose proof (fusion_offline_diff_fields offline w) as [Hr _].
    pose proof (fusion_offline_diff_frame error_rooms_have_message) as F1.
    specialize (F1 ltac:(field_kept error_rooms_have_message)
                   ltac:(field_kept error_rooms_have_message)
                   ltac:(field_kept error_rooms_have_message) offline w Hinv).
    pose proof (fusion_offline_diff_frame P) as F2.
    specialize (F2 ltac:(field_kept P) ltac:(field_kept P)
                   ltac:(field_kept P) offline w HP).
    unfold result in Hr.
    destruct (fusion_offline_diff offline w) as [[[]|e] w1]; simpl in *;
      [|discriminate].
    rewrite (fetch_messages_returns _ messages) by assumption.
    set (rooms := map _ rows).
    assert (exists room, In room rooms /\ RawSerialValues room = []) as Hex.
    { exists (mkRoom room_name room_id (messages room_id)). split.
      - apply (in_map (fun row => mkRoom (fst row) (snd row)
                                    (messages (snd row))) rows _ Hin).
      - exact Hnone. }
    pose proof (error_rooms_index rooms w1 F1 Hex) as Hidx.
    pose proof (preserves_for_each P rooms fusion_error_room) as F3.
    specialize (F3 (fun room =>
                      fusion_error_room_frame P ltac:(field_kept P)
                        ltac:(field_kept P) ltac:(field_kept P) room) w1 F2).
    unfold result in Hidx.
    destruct (for_each rooms fusion_error_room w1) as [[[]|e] w2];
      simpl in *; [discriminate|].
    split; [exact Hidx | exact F3]. }
  destruct Hframe as [Hhelp Hposted].
  split; [exact Hres|]. split; [exact Hhelp|]. split; [exact Hposted|].
  pose proof (fusion_thread_frame (outside_fusion w)) as Hout.
  unfold result, exec in *.
  destruct (fusion_thread (fusion_db c) w) as [[[]|e] w2] eqn:E;
    simpl in Hres; [discriminate|].
  injection Hres as ->.
  rewrite (poll_backends_after_fusion_raise c w w2 IndexError E).
  assert (outside_fusion w w2) as Ho.
  { change w2 with (snd (@Exc unit IndexError, w2)). rewrite <- E.
    apply Hout; field_frame outside_fusion. }
  unfold outside_fusion in Ho. cbn. intuition congruence.
Qed.

Lemma X9_witness :
  result (fusion_thread (fusion_db round_with_bare_error_room)) one_domain
  = Exc IndexError.
Proof.
  refine (proj1 (X9_error_room_without_message_stops_the_round
                   round_with_bare_error_room one_domain []
                   [("Room 101", "17")] (fun _ => []) "Room 101" "17"
                   _ _ _ _ _ _ _)); try reflexivity.
  - intros n i H. reflexivity.
  - now left.
  - intros room [].
Defined.

(** ** Help requests *)

Lemma fusion_help_room_stored (room : Room) (w : World) :
  In room (Fusion_Help_Request_List w) ->
  fusion_help_room room w = (Val tt, w).
Proof.
  intros H. unfold fusion_help_room, bind, gets.
  apply (py_in_In Room_eqb Room_eqb_eq) in H. now rewrite H.
Qed.

Lemma fusion_help_room_disabled (room : Room) (w : World) :
  ~ In room (Fusion_Help_Request_List w) ->
  RawSerialValues room <> [] ->
  SEND_ALERTS w = false ->
  fusion_help_room room w
  = (Val tt,
     set_Fusion_Help_Request_List (Fusion_Help_Request_List w ++ [room]) w).
Proof.
  intros Hnew Hmsg Hoff. unfold fusion_help_room, bind, gets.
  apply (py_in_false Room_eqb Room_eqb_eq) in Hnew. rewrite Hnew. simpl.
  unfold room_2. destruct (RawSerialValues room) as [|message others];
    [congruence|].
  unfold ret at 1. now rewrite send_help_request_disabled.
Qed.

Lemma help_loop_stored (rooms : list Room) (w : World) :
  (forall room, In room rooms -> In room (Fusion_Help_Request_List w)) ->
  for_each rooms fusion_help_room w = (Val tt, w).
Proof.
  induction rooms as [|room rest IH]; intros H; [reflexivity|].
  simpl. unfold bind. rewrite fusion_help_room_stored by (apply H; now left).
  apply IH. intros r Hr. apply H. now right.
Qed.

Lemma help_loop_disabled (rooms : list Room) (w : World) :
  SEND_ALERTS w = false ->
  (forall room, In room rooms -> RawSerialValues room <> []) ->
  exists w1,
    for_each rooms fusion_help_room w = (Val tt, w1)
    /\ SEND_ALERTS w1 = false
    /\ posted w1 = posted w
    /\ network w1 = network w
    /\ (forall room, In room (Fusion_Help_Request_List w) ->
                     In room (Fusion_Help_Request_List w1))
    /\ (forall room, In room rooms -> In room (Fusion_Help_Request_List w1)).
Proof.
  revert w. induction rooms as [|room rest IH]; intros w Hoff Hmsg.
  - exists w. repeat split; auto. intros room [].
  - simpl. unfold bind.
    destruct (in_dec (fun a b : Room =>
                        match Bool.bool_dec (Room_eqb a b) true with
                        | left H => left (proj1 (Room_eqb_eq a b) H)
                        | right H =>
                            right (fun E => H (proj2 (Room_eqb_eq a b) E))
                        end) room (Fusion_Help_Request_List w)) as [Hin|Hnew].
    + rewrite fusion_help_room_stored by exact Hin.
      destruct (IH w Hoff (fun r Hr => Hmsg r (or_intror Hr)))
        as (w1 & E & H1 & H2 & H3 & H4 & H5).
      exists w1. repeat split; auto.
      intros r [<-|Hr]; auto.
    + rewrite fusion_help_room_disabled;
        [|exact Hnew | apply Hmsg; now left | exact Hoff].
      match goal with |- context [for_each rest fusion_help_room ?w0] =>
        destruct (IH w0 Hoff (fun r Hr => Hmsg r (or_intror Hr)))
          as (w1 & E & H1 & H2 & H3 & H4 & H5) end.
      exists w1. repeat split; auto.
      * intros r Hr. apply H4. cbn. apply in_or_app. now left.
      * intros r [<-|Hr]; auto. apply H4. cbn. apply in_or_app.
        right. now left.
Qed.

(** X10.  A help request that comes in while alerting is switched off is
    never delivered.  The loop over the rooms asking for help stores each
    new room before [send_help_request] looks at the switch, so with the
    switch off the loop returns without any webhook request and every room
    is on [Fusion_Help_Request_List]; the removal loop that follows keeps
    them there; and in any later state in which they are still stored,
    with alerting on or off, the loop does nothing at all. *)
Theorem X10_help_request_while_disabled_is_lost :
  forall (rooms : list Room) (w : World),
    SEND_ALERTS w = false ->
    (forall room, In room rooms -> RawSerialValues room <> []) ->
    exists w1,
      for_each rooms fusion_help_room w = (Val tt, w1)
      /\ posted w1 = posted w
      /\ network w1 = network w
      /\ (forall room, In room rooms ->
            In room (remove_inactive Room_eqb rooms
                       (Fusion_Help_Request_List w1)))
      /\ (forall w2,
            (forall room, In room rooms ->
                          In room (Fusion_Help_Request_List w2)) ->
            for_each rooms fusion_help_room w2 = (Val tt, w2)).
Proof.
  intros rooms w Hoff Hmsg.
  destruct (help_loop_disabled rooms w Hoff Hmsg)
    as (w1 & E & H1 & H2 & H3 & H4 & H5).
  exists w1. repeat split; auto.
  - intros room Hin.
    apply (remove_inactive_keeps Room_eqb Room_eqb_eq); auto.
  - intros w2 H. now apply help_loop_stored.
Qed.

Lemma X10_witness :
  exists w1,
    for_each [room_101_help] fusion_help_room one_domain = (Val tt, w1)
    /\ posted w1 = posted one_domain
    /\ network w1 = network one_domain
    /\ (forall room, In room [room_101_help] ->
          In room (remove_inactive Room_eqb [room_101_help]
                     (Fusion_Help_Request_List w1)))
    /\ (forall w2,
          (forall room, In room [room_101_help] ->
                        In room (Fusion_Help_Request_List w2)) ->
          for_each [room_101_help] fusion_help_room w2 = (Val tt, w2)).
Proof.
  apply (X10_help_request_while_disabled_is_lost [room_101_help] one_domain).
  - reflexivity.
  - intros room [<-|[]]. discriminate.
Defined.

(** ** What [ddm_thread] does not see *)

Lemma ddm_read_reachable (api : string -> DdmReply (list Device))
    (domains : list string) :
  all_reachable api -> fst (ddm_read api domains) = [].
Proof.
  intros H. induction domains as [|domain rest IH]; [reflexivity|].
  simpl. destruct (api domain) as [e|[code devices]] eqn:E; [reflexivity|].
  destruct (code =? 200)%nat; [|reflexivity].
  destruct (ddm_read api rest) as [faults stop]. simpl in *. subst faults.
  rewrite app_nil_r.
  assert (forall l, incl l devices ->
                    flat_map (ddm_device_faults domain) l = []) as Hl.
  { induction l as [|device l IHl]; intros Hincl; [reflexivity|].
    simpl. rewrite IHl by (intros d Hd; apply Hincl; now right).
    unfold ddm_device_faults.
    destruct (String.eqb (connectivity device) "ERROR") eqn:Ec;
      [|reflexivity].
    apply String.eqb_eq in Ec. exfalso.
    apply (H domain code devices device E); [apply Hincl; now left | exact Ec]. }
  apply Hl, incl_refl.
Qed.

Lemma ddm_read_first_fails (api : string -> DdmReply (list Device))
    (domain : string) (rest : list string) (e : exn) :
  ddm_query_error (api domain) = Some e ->
  ddm_read api (domain :: rest) = ([], Some e).
Proof.
  unfold ddm_query_error. simpl.
  destruct (api domain) as [e'|[code devices]]; [congruence|].
  destruct (code =? 200)%nat; congruence.
Qed.

Lemma ddm_thread_console (api : string -> DdmReply (list Device)) (w : World) :
  console (exec (ddm_thread api) w)
  = console w ++ match snd (ddm_read api (DDM_DOMAINS w)) with
                 | Some e => [repr e]
                 | None => []
                 end.
Proof.
  unfold exec, ddm_thread, bind, modify, try_except, click_echo.
  rewrite ddm_scan_read.
  set (w1 := set_DDM_TEMP_OFFLINE_LIST [] (set_DDM_TEMP_LIST [] w)).
  change (DDM_DOMAINS w1) with (DDM_DOMAINS w).
  assert (console (fold_left ddm_note (fst (ddm_read api (DDM_DOMAINS w))) w1)
          = console w) as Hc.
  { apply (preserves_fold_world (fun w' => console w' = console w));
      [|reflexivity].
    intros w' f.
    apply (ddm_note_frame (fun w0 => console w0 = console w));
      intros; cbn; assumption. }
  destruct (snd (ddm_read api (DDM_DOMAINS w))) as [e|]; cbn;
    rewrite Hc; [reflexivity | now rewrite app_nil_r].
Qed.

Lemma ddm_thread_nothing_read (api : string -> DdmReply (list Device))
    (w : World) :
  fst (ddm_read api (DDM_DOMAINS w)) = [] ->
  let w' := exec (ddm_thread api) w in
  pushed w' = pushed w
  /\ ALERTS_NOTIF_LIST w' = ALERTS_NOTIF_LIST w
  /\ DDM_TEMP_LIST w' = []
  /\ DDM_TEMP_OFFLINE_LIST w' = []
  /\ DDM_ERROR_LIST w' = remove_inactive String.eqb [] (DDM_ERROR_LIST w)
  /\ DDM_OFFLINE_LIST w' = remove_inactive String.eqb [] (DDM_OFFLINE_LIST w)
  /\ DDM_Total_Errors w' = length (DDM_ERROR_LIST w')
  /\ DDM_Missing_Devices w' = length (DDM_OFFLINE_LIST w').
Proof.
  intros Hread. cbv zeta.
  pose proof (ddm_thread_fields api w) as H. cbv zeta in H.
  unfold ddm_newly_active in H. rewrite Hread in H. simpl in H.
  destruct H as (_ & H1 & H2 & H3 & H4 & H5 & H6 & _ & _ & H7 & H8).
  rewrite H1 in H3. rewrite H2 in H4. rewrite !app_nil_r in *.
  repeat split; assumption.
Qed.

Lemma removal_sweep_none_length {A : Type} (eqb : A -> A -> bool)
    (l : list A) :
  length (removal_sweep eqb [] l) = Nat.div2 (length l).
Proof.
  assert (forall n (l : list A), length l <= n ->
            length (removal_sweep eqb [] l) = Nat.div2 (length l)) as H.
  { induction n as [|n IH]; intros l0 Hlen.
    - destruct l0; [reflexivity | simpl in Hlen; lia].
    - destruct l0 as [|x [|y rest]]; [reflexivity | reflexivity |].
      cbn [removal_sweep py_in existsb length Nat.div2].
      f_equal. apply IH. simpl in Hlen.
      destruct n; [lia|]. simpl. lia. }
  apply (H (length l)), le_n.
Qed.

(** X11.  [ddm_thread] looks at the subscriptions, the latency and the
    clocking of a device only when its connectivity is "ERROR".  When every
    device of every answer is reachable, whatever else is wrong with it,
    the thread reports nothing: no call of [add_to_alert_notif_push], no
    pending alert, and both temporary lists empty at the end. *)
Theorem X11_faults_of_reachable_devices_are_not_seen :
  forall (api : string -> DdmReply (list Device)) (w : World),
    all_reachable api ->
    let w' := exec (ddm_thread api) w in
    pushed w' = pushed w
    /\ ALERTS_NOTIF_LIST w' = ALERTS_NOTIF_LIST w
    /\ DDM_TEMP_LIST w' = []
    /\ DDM_TEMP_OFFLINE_LIST w' = []
    /\ DDM_Total_Errors w'
       = length (remove_inactive String.eqb [] (DDM_ERROR_LIST w)).
Proof.
  intros api w H. cbv zeta.
  destruct (ddm_thread_nothing_read api w (ddm_read_reachable api _ H))
    as (H1 & H2 & H3 & H4 & H5 & _ & H7 & _).
  rewrite H5 in H7. repeat split; assumption.
Qed.

Lemma X11_witness :
  let w' := exec (ddm_thread (ddm_reports [amp_out_of_sync])) one_domain in
  pushed w' = pushed one_domain
  /\ ALERTS_NOTIF_LIST w' = ALERTS_NOTIF_LIST one_domain
  /\ DDM_TEMP_LIST w' = []
  /\ DDM_TEMP_OFFLINE_LIST w' = []
  /\ DDM_Total_Errors w'
     = length (remove_inactive String.eqb [] (DDM_ERROR_LIST one_domain)).
Proof.
  apply (X11_faults_of_reachable_devices_are_not_seen
           (ddm_reports [amp_out_of_sync]) one_domain).
  intros domain code devices device E Hin. injection E as _ <-.
  destruct Hin as [<-|[]]. discriminate.
Defined.

(** X12.  When the query for the first Dante domain raises or is answered
    with a status other than 200, [ddm_thread] echoes the exception and
    goes on to its removal loops with both temporary lists empty, as if
    every fault had cleared: no alert is raised, the stored lists are
    pruned against the empty list, and the gauges are set to what is left.
    Because the removal loop passes over the element after each one it
    removes, half of a stored list without repetitions survives. *)
Theorem X12_failed_query_prunes_the_stored_lists :
  forall (api : string -> DdmReply (list Device)) (w : World)
         (domain : string) (rest : list string) (e : exn),
    DDM_DOMAINS w = domain :: rest ->
    ddm_query_error (api domain) = Some e ->
    let w' := exec (ddm_thread api) w in
    console w' = console w ++ [repr e]
    /\ pushed w' = pushed w
    /\ DDM_ERROR_LIST w' = remove_inactive String.eqb [] (DDM_ERROR_LIST w)
    /\ DDM_OFFLINE_LIST w' = remove_inactive String.eqb [] (DDM_OFFLINE_LIST w)
    /\ DDM_Total_Errors w' = length (DDM_ERROR_LIST w')
    /\ DDM_Missing_Devices w' = length (DDM_OFFLINE_LIST w')
    /\ (NoDup (DDM_ERROR_LIST w) ->
        DDM_Total_Errors w' = Nat.div2 (length (DDM_ERROR_LIST w)))
    /\ (NoDup (DDM_OFFLINE_LIST w) ->
        DDM_Missing_Devices w' = Nat.div2 (length (DDM_OFFLINE_LIST w))).
Proof.
  intros api w domain rest e Hd He. cbv zeta.
  pose proof (ddm_read_first_fails api domain rest e He) as Hread.
  pose proof (ddm_thread_console api w) as Hc.
  rewrite Hd, Hread in Hc. simpl in Hc.
  assert (fst (ddm_read api (DDM_DOMAINS w)) = []) as H0
    by now rewrite Hd, Hread.
  destruct (ddm_thread_nothing_read api w H0)
    as (H1 & _ & _ & _ & H5 & H6 & H7 & H8).
  repeat split; try assumption.
  - intros Hnd. rewrite H7, H5.
    rewrite (remove_inactive_sweep String.eqb String.eqb_eq) by exact Hnd.
    apply removal_sweep_none_length.
  - intros Hnd. rewrite H8, H6.
    rewrite (remove_inactive_sweep String.eqb String.eqb_eq) by exact Hnd.
    apply removal_sweep_none_length.
Qed.

Lemma X12_witness :
  DDM_Missing_Devices (exec (ddm_thread ddm_unavailable) four_offline) = 2.
Proof.
  assert (NoDup (DDM_OFFLINE_LIST four_offline)) as Hnd.
  { repeat constructor; simpl; intuition discriminate. }
  exact (proj2 (proj2 (proj2 (proj2 (proj2 (proj2 (proj2
           (X12_failed_query_prunes_the_stored_lists ddm_unavailable
              four_offline "Studio A" []
              (Exception "Exception" "Unexpected status code returned: 503")
              eq_refl eq_refl))))))) Hnd).
Defined.

(** ** Failing requests *)

(** X13.  When a request of [sage_vue_thread] fails before the scan (the
    check of the session, the login it may need, the systems or the devices
    request, the decoding of the systems), the thread only echoes an
    exception: the stored SageVue errors and both
    SageVue gauges keep their old values, and nothing is reported.  That
    includes a failure of the devices request, which is made before the
    systems that were already fetched are looked at. *)
Theorem X13_sage_vue_failure_keeps_the_old_picture :
  forall (api : SageVueApi) (e : exn) (w : World),
    sage_vue_request_fails api e ->
    let w' := exec (sage_vue_thread api) w in
    SageVue_Error_List w' = SageVue_Error_List w
    /\ Sagevue_Total_Errors w' = Sagevue_Total_Errors w
    /\ Sagevue_Missing_Devices w' = Sagevue_Missing_Devices w
    /\ pushed w' = pushed w
    /\ ALERTS_NOTIF_LIST w' = ALERTS_NOTIF_LIST w
    /\ exists e', console w' = console w ++ [repr e'].
Proof.
  intros api e w H. unfold sage_vue_request_fails in H.
  unfold exec, sage_vue_thread, try_except, bind, lift, click_echo, modify,
    ret, raise.
  destruct (auth_query api) as [e0|code];
    [cbn; repeat split; eauto|].
  destruct ((code =? 400)%nat || (code =? 401)%nat) eqn:Ec;
    [destruct (login api) as [e1|session]; [cbn; repeat split; eauto|]|];
    (destruct (systems_get api) as [e2|[e2|systems]];
       [cbn; repeat split; eauto| |];
     (destruct (devices_get api) as [e3|devices];
        [cbn; repeat split; eauto|]);
     [cbn; repeat split; eauto|];
     exfalso;
     destruct H as [H|[[[H|H] H']|[H|[H|H]]]]; try discriminate;
     injection H as ->; vm_compute in Ec; discriminate).
Qed.

Lemma X13_witness :
  let w' := exec (sage_vue_thread devices_time_out) one_domain in
  SageVue_Error_List w' = SageVue_Error_List one_domain
  /\ Sagevue_Total_Errors w' = Sagevue_Total_Errors one_domain
  /\ Sagevue_Missing_Devices w' = Sagevue_Missing_Devices one_domain
  /\ pushed w' = pushed one_domain
  /\ ALERTS_NOTIF_LIST w' = ALERTS_NOTIF_LIST one_domain
  /\ exists e', console w' = console one_domain ++ [repr e'].
Proof.
  apply (X13_sage_vue_failure_keeps_the_old_picture devices_time_out
           (Exception "ReadTimeout" "timed out") one_domain).
  right. right. right. left. reflexivity.
Defined.

Lemma get_dante_domains_fails (reply : DdmReply (list string)) (e : exn)
    (w : World) :
  ddm_query_error reply = Some e ->
  get_dante_domains reply w = (Exc e, set_DDM_DOMAINS [] w).
Proof.
  unfold ddm_query_error, get_dante_domains, run_ddm_query, bind, modify.
  destruct reply as [e'|[code domains]]; [intros H; now inversion H|].
  destruct (code =? 200)%nat; [discriminate | intros H; now inversion H].
Qed.

Lemma for_each_raises {A : Type} (body : A -> M unit) (x : A) (l : list A) :
  In x l ->
  (forall w, exists e w', body x w = (Exc e, w')) ->
  forall w, exists e w', for_each l body w = (Exc e, w').
Proof.
  intros Hin Hx. induction l as [|y rest IH]; [destruct Hin|].
  intros w. simpl. unfold bind.
  destruct (body y w) as [[[]|e] w1] eqn:E.
  - destruct Hin as [->|Hin].
    + destruct (Hx w) as (e & w' & E'). congruence.
    + apply (IH Hin).
  - eauto.
Qed.

(** X14.  [get_dante_domains] empties [DDM_DOMAINS] before it asks for the
    new ones, so a query that raises or is answered with a status other
    than 200 leaves the list empty.  Nothing handles the exception: at the
    start of [prog_thread] it ends the script before the first round, with
    no backend polled, and in a round in which the scheduled refresh is due
    the loop ends in that round. *)
Theorem X14_failed_domain_fetch_ends_the_loop :
  forall (reply : DdmReply (list string)) (e : exn),
    ddm_query_error reply = Some e ->
    (forall cycles w,
       prog_thread reply cycles w = (Exc e, set_DDM_DOMAINS [] w))
    /\ (forall c rest w,
          In (job_get_dante_domains reply) (due c) ->
          exists e' w', prog_loop (c :: rest) w = (Exc e', w')).
Proof.
  intros reply e He. split.
  - intros cycles w. unfold prog_thread, bind.
    now rewrite (get_dante_domains_fails reply e w He).
  - intros c rest w Hdue. simpl. unfold bind at 1. unfold prog_cycle, bind.
    destruct (poll_backends c w) as [[[]|e1] w1]; [|eauto].
    destruct (send_alert_notif w1) as [[[]|e2] w2]; [|eauto].
    unfold schedule_run_pending.
    destruct (for_each_raises run_job (job_get_dante_domains reply) (due c)
                Hdue) with (w := w2) as (e3 & w3 & E).
    { intros w0. exists e, (set_DDM_DOMAINS [] w0). simpl.
      now apply get_dante_domains_fails. }
    rewrite E. eauto.
Qed.

Lemma X14_witness :
  (forall cycles w,
     prog_thread (inr (503, [])) cycles w
     = (Exc (Exception "Exception" "Unexpected status code returned: 503"),
        set_DDM_DOMAINS [] w))
  /\ (forall c rest w,
        In (job_get_dante_domains (inr (503, []))) (due c) ->
        exists e' w', prog_loop (c :: rest) w = (Exc e', w')).
Proof.
  apply (X14_failed_domain_fetch_ends_the_loop (inr (503, []))).
  reflexivity.
Defined.

Lemma join_cr_cons (x : string) (l : list string) :
  l <> [] -> join_cr (x :: l) = x +++ CR +++ join_cr l.
Proof. destruct l; [congruence | reflexivity]. Qed.

Lemma join_cr_run_together (errs : list string) (e off : string)
    (offs : list string) :
  join_cr (errs ++ [e]) +++ join_cr (off :: offs)
  = join_cr (errs ++ (e +++ off) :: offs).
Proof.
  induction errs as [|x errs IH].
  - cbn [app]. destruct offs as [|y r]; [reflexivity|].
    rewrite (join_cr_cons (e +++ off)) by discriminate.
    rewrite (join_cr_cons off) by discriminate.
    cbn [join_cr]. now rewrite append_assoc.
  - cbn [app].
    rewrite (join_cr_cons x (errs ++ [e])) by (now destruct errs).
    rewrite (join_cr_cons x (errs ++ (e +++ off) :: offs))
      by (now destruct errs).
    now rewrite !append_assoc, IH.
Qed.

(** X15.  [get_ddm_status_message] joins the lines of each list with
    carriage returns but puts nothing between the two lists: when both
    hold something, the last error and the first offline device are
    rendered as one line. *)
Theorem X15_ddm_status_runs_two_lines_together :
  forall (w : World) (errs : list string) (e off : string)
         (offs : list string),
    DDM_ERROR_LIST w = errs ++ [e] ->
    DDM_OFFLINE_LIST w = off :: offs ->
    get_ddm_status_message w = join_cr (errs ++ (e +++ off) :: offs).
Proof.
  intros w errs e off offs He Ho. unfold get_ddm_status_message.
  rewrite He, Ho, join_cr_run_together.
  rewrite length_app. simpl.
  replace (length errs + 1) with (S (length errs)) by lia. reflexivity.
Qed.

Lemma X15_witness :
  get_ddm_status_message errors_and_offline
  = join_cr (["Studio A - amp-1 has a latency error."]
             ++ ("Studio A - amp-2 has a latency error."
                 +++ "Studio A - amp-3 is offline.") :: []).
Proof.
  apply (X15_ddm_status_runs_two_lines_together errors_and_offline
           ["Studio A - amp-1 has a latency error."]
           "Studio A - amp-2 has a latency error."
           "Studio A - amp-3 is offline." []); reflexivity.
Defined.

(** ** No entry is stored twice *)

Lemma NoDup_snoc {A : Type} (l : list A) (x : A) :
  NoDup l -> ~ In x l -> NoDup (l ++ [x]).
Proof.
  intros Hnd Hx. apply NoDup_app; [exact Hnd | repeat constructor; intros [] |].
  intros a Ha [<-|[]]. now apply Hx.
Qed.

Lemma remove_inactive_NoDup {A : Type} (eqb : A -> A -> bool)
    (current stored : list A) :
  (forall a b, eqb a b = true <-> a = b) ->
  NoDup stored -> NoDup (remove_inactive eqb current stored).
Proof. intros Heq. now apply remove_inactive_from_NoDup. Qed.

Ltac nodup_same H := unfold stored_lists_NoDup in *; cbn; exact H.

Ltac nodup_kept := let H := fresh "H" in intros ? ? H; nodup_same H.

Ltac nodup_set := let H := fresh "H" in intros ? H; nodup_same H.

Ltac nodup_pruned :=
  let H := fresh "H" in
  intros ? H; unfold stored_lists_NoDup in *; cbn;
  repeat split; try apply H;
  first [ apply (remove_inactive_NoDup String.eqb _ _ String.eqb_eq)
        | apply (remove_inactive_NoDup Room_eqb _ _ Room_eqb_eq) ];
  apply H.

Lemma push_NoDup (category device message : string) (w : World) :
  stored_lists_NoDup w ->
  stored_lists_NoDup (add_to_alert_notif_push category device message w).
Proof. apply push_frame; nodup_kept. Qed.

Lemma ddm_note_NoDup (w : World) (f : DdmFault) :
  stored_lists_NoDup w -> stored_lists_NoDup (ddm_note w f).
Proof.
  intros H. unfold ddm_note. destruct (is_offline f); cbv zeta.
  - destruct (py_in String.eqb (ddm_key f) _) eqn:E; cbn [negb].
    + nodup_same H.
    + apply push_NoDup. cbn in E.
      apply (py_in_false String.eqb String.eqb_eq) in E.
      unfold stored_lists_NoDup in *. cbn.
      repeat split; try apply H. apply NoDup_snoc; [apply H | exact E].
  - destruct (py_in String.eqb (ddm_key f) _) eqn:E; cbn [negb].
    + nodup_same H.
    + apply push_NoDup. cbn in E.
      apply (py_in_false String.eqb String.eqb_eq) in E.
      unfold stored_lists_NoDup in *. cbn.
      repeat split; try apply H. apply NoDup_snoc; [apply H | exact E].
Qed.

Lemma ddm_thread_NoDup (api : string -> DdmReply (list Device)) :
  preserves stored_lists_NoDup (ddm_thread api).
Proof.
  unfold ddm_thread, ddm_scan, run_ddm_query, click_echo.
  preserve; try nodup_set; try nodup_pruned.
  intros w H. apply preserves_fold_world; [|exact H].
  intros w0 device H0. rewrite ddm_device_notes.
  apply preserves_fold_world; [|exact H0]. apply ddm_note_NoDup.
Qed.

Lemma sage_vue_fault_NoDup (system : System) (st : list string * World)
    (fault : Fault) :
  stored_lists_NoDup (snd st) ->
  stored_lists_NoDup (snd (sage_vue_fault system st fault)).
Proof.
  destruct st as [temp w]. intros H. unfold sage_vue_fault. cbv zeta.
  destruct (py_in String.eqb _ (SageVue_Error_List w)) eqn:E; cbn [negb andb];
    [exact H|].
  destruct (negb (str_in "DAN1" (FaultMessage fault))
            && negb (str_in "NTP" (FaultMessage fault))); [|exact H].
  cbn [snd]. apply push_NoDup.
  apply (py_in_false String.eqb String.eqb_eq) in E.
  unfold stored_lists_NoDup in *. cbn.
  repeat split; try apply H. apply NoDup_snoc; [apply H | exact E].
Qed.

Lemma sage_vue_scan_NoDup (systems : list System) :
  preserves stored_lists_NoDup (sage_vue_scan systems).
Proof.
  intros w H. unfold sage_vue_scan.
  assert (forall st system,
            stored_lists_NoDup (snd st) ->
            stored_lists_NoDup (snd (sage_vue_system st system))) as Hs.
  { intros st system H0. unfold sage_vue_system.
    destruct (negb (String.eqb (Status system) "Green")); [|exact H0].
    apply preserves_fold; [|exact H0].
    intros st' fault. apply sage_vue_fault_NoDup. }
  pose proof (preserves_fold stored_lists_NoDup sage_vue_system systems Hs
                ([], w) H) as Hf.
  destruct (fold_left sage_vue_system systems ([], w)) as [temp w1].
  exact Hf.
Qed.

Lemma sage_vue_thread_NoDup (api : SageVueApi) :
  preserves stored_lists_NoDup (sage_vue_thread api).
Proof.
  unfold sage_vue_thread, sage_vue_diff, click_echo.
  preserve; try nodup_set; try nodup_pruned; apply sage_vue_scan_NoDup.
Qed.

Lemma fusion_offline_room_NoDup (st : list string * World) (room : string) :
  stored_lists_NoDup (snd st) ->
  stored_lists_NoDup (snd (fusion_offline_room st room)).
Proof.
  destruct st as [temp w]. intros H. unfold fusion_offline_room. cbv zeta.
  destruct (py_in String.eqb room (Fusion_Offline_List w)) eqn:E; cbn [negb];
    [exact H|].
  destruct (negb (any_in BLACKLISTED_KEYWORDS room)); [|exact H].
  cbn [snd]. apply push_NoDup.
  apply (py_in_false String.eqb String.eqb_eq) in E.
  unfold stored_lists_NoDup in *. cbn.
  repeat split; try apply H. apply NoDup_snoc; [apply H | exact E].
Qed.

Lemma fusion_error_room_NoDup (room : Room) :
  preserves stored_lists_NoDup (fusion_error_room room).
Proof.
  intros w H. unfold fusion_error_room, bind, gets, room_2.
  destruct (py_in Room_eqb room (Fusion_Error_List w)) eqn:E; cbn [negb];
    [exact H|].
  destruct (RawSerialValues room) as [|message others]; [exact H|].
  unfold ret at 1.
  destruct (negb (str_in "1:notice" message) && negb (str_in "0:ok" message));
    [|exact H].
  unfold modify. cbn [snd]. apply push_NoDup.
  apply (py_in_false Room_eqb Room_eqb_eq) in E.
  unfold stored_lists_NoDup in *. cbn.
  repeat split; try apply H. apply NoDup_snoc; [apply H | exact E].
Qed.

Lemma fusion_help_room_NoDup (room : Room) :
  preserves stored_lists_NoDup (fusion_help_room room).
Proof.
  intros w H. unfold fusion_help_room, bind, gets, modify.
  destruct (py_in Room_eqb room (Fusion_Help_Request_List w)) eqn:E;
    cbn [negb]; [exact H|].
  apply (py_in_false Room_eqb Room_eqb_eq) in E.
  assert (stored_lists_NoDup
            (set_Fusion_Help_Request_List
               (Fusion_Help_Request_List w ++ [room]) w)) as H1.
  { unfold stored_lists_NoDup in *. cbn.
    repeat split; try apply H. apply NoDup_snoc; [apply H | exact E]. }
  revert H1. generalize (set_Fusion_Help_Request_List
                           (Fusion_Help_Request_List w ++ [room]) w).
  intros w1 H1.
  pose proof (room_2_frame stored_lists_NoDup room w1 H1) as H2.
  destruct (room_2 room w1) as [[message|e] w2]; simpl in H2; [|exact H2].
  apply send_help_request_frame; try nodup_kept. exact H2.
Qed.

Lemma fusion_offline_scan_NoDup (rows : list string) :
  preserves stored_lists_NoDup (fusion_offline_scan rows).
Proof.
  intros w H. unfold fusion_offline_scan.
  pose proof (preserves_fold stored_lists_NoDup fusion_offline_room rows
                fusion_offline_room_NoDup ([], w) H) as Hf.
  destruct (fold_left fusion_offline_room rows ([], w)) as [temp w1].
  exact Hf.
Qed.

Lemma fusion_thread_NoDup (db : FusionDb) :
  preserves stored_lists_NoDup (fusion_thread db).
Proof.
  unfold fusion_thread, fusion_offline_diff.
  preserve; try nodup_set; try nodup_pruned;
    first [ apply fetch_messages_frame
          | apply fusion_error_room_NoDup
          | apply fusion_help_room_NoDup
          | apply fusion_offline_scan_NoDup ].
Qed.

Lemma prog_loop_NoDup (cycles : list Cycle) :
  preserves stored_lists_NoDup (prog_loop cycles).
Proof.
  induction cycles as [|c rest IH]; simpl; preserve; [|exact IH].
  unfold prog_cycle, poll_backends, click_echo.
  preserve; try nodup_set.
  - apply fusion_thread_NoDup.
  - apply sage_vue_thread_NoDup.
  - apply ddm_thread_NoDup.
  - apply send_alert_notif_frame; nodup_kept.
  - apply schedule_run_pending_frame; nodup_kept.
Qed.

(** X16.  The lists that the three threads keep from round to round never
    hold an entry twice: an entry is appended only when the list does not
    hold it, and the removal loops only take entries away.  [prog_thread]
    keeps this over any number of rounds, whatever the services answer and
    whether or not an exception ends the loop. *)
Theorem X16_stored_lists_hold_no_entry_twice :
  forall (domains : DdmReply (list string)) (cycles : list Cycle) (w : World),
    stored_lists_NoDup w ->
    stored_lists_NoDup (exec (prog_thread domains cycles) w).
Proof.
  intros domains cycles w H. unfold exec. revert w H.
  change (preserves stored_lists_NoDup (prog_thread domains cycles)).
  unfold prog_thread. preserve.
  - apply get_dante_domains_frame; nodup_kept.
  - apply prog_loop_NoDup.
Qed.

Lemma X16_witness :
  stored_lists_NoDup
    (exec (prog_thread (inr (200, ["Studio A"]))
             [busy_round None; quiet_round]) (initial [])).
Proof.
  apply (X16_stored_lists_hold_no_entry_twice (inr (200, ["Studio A"]))
           [busy_round None; quiet_round] (initial [])).
  unfold stored_lists_NoDup. simpl. repeat split; constructor.
Defined.

(** ** Two stale neighbours *)

Lemma removal_sweep_incl {A : Type} (eqb : A -> A -> bool)
    (current l : list A) (x : A) :
  In x (removal_sweep eqb current l) -> In x l.
Proof.
  assert (forall n (l0 : list A), length l0 <= n ->
            In x (removal_sweep eqb current l0) -> In x l0) as H.
  { induction n as [|n IH]; intros l0 Hlen.
    - destruct l0; [trivial | simpl in Hlen; lia].
    - destruct l0 as [|y rest]; [trivial|]. cbn [removal_sweep].
      destruct (py_in eqb y current).
      + intros [<-|Hin]; [now left | right].
        apply IH; [simpl in Hlen; lia | exact Hin].
      + destruct rest as [|z rest']; [intros []|].
        intros [<-|Hin]; [right; now left | right; right].
        apply IH; [simpl in Hlen; lia | exact Hin]. }
  apply (H (length l)), le_n.
Qed.

(** The loop takes the first of two neighbours out and never looks at the
    second. *)
Lemma stale_head_passes_over (current : list string) (a b : string)
    (l : list string) :
  NoDup (a :: b :: l) -> ~ In a current ->
  In b (remove_inactive String.eqb current (a :: b :: l))
  /\ ~ In a (remove_inactive String.eqb current (a :: b :: l)).
Proof.
  intros Hnd Ha.
  rewrite (remove_inactive_sweep String.eqb String.eqb_eq) by exact Hnd.
  cbn [removal_sweep].
  apply (py_in_false String.eqb String.eqb_eq) in Ha. rewrite Ha.
  split; [now left|].
  inversion Hnd as [|x l0 Hxa Hnd']; subst.
  intros [->|Hin]; [apply Hxa; now left|].
  apply removal_sweep_incl in Hin. apply Hxa. now right.
Qed.

Lemma ddm_scanned_NoDup (api : string -> DdmReply (list Device)) (w : World) :
  stored_lists_NoDup w ->
  NoDup (DDM_ERROR_LIST w
         ++ map ddm_key (filter (fun f => negb (is_offline f))
                           (ddm_newly_active api w)))
  /\ NoDup (DDM_OFFLINE_LIST w
            ++ map ddm_key (filter is_offline (ddm_newly_active api w))).
Proof.
  intros H. unfold ddm_newly_active.
  set (w1 := set_DDM_TEMP_OFFLINE_LIST [] (set_DDM_TEMP_LIST [] w)).
  set (items := fst (ddm_read api (DDM_DOMAINS w))).
  pose proof (ddm_notes_fields items w1) as Hf. cbv zeta in Hf.
  destruct Hf as (_ & _ & H3 & H4 & _).
  assert (stored_lists_NoDup w1) as H1 by nodup_same H.
  pose proof (preserves_fold_world stored_lists_NoDup ddm_note items
                ddm_note_NoDup w1 H1) as (He & Ho & _).
  rewrite H4 in He. rewrite H3 in Ho.
  change (ddm_seen w1) with (ddm_seen w) in *.
  split; assumption.
Qed.

Lemma sage_vue_scanned_NoDup (systems : list System) (w : World) :
  stored_lists_NoDup w ->
  NoDup (SageVue_Error_List w
         ++ map error_id (sage_vue_newly_active systems w)).
Proof.
  intros H. destruct (sage_vue_scan_fields systems w)
    as (w1 & Hscan & H1 & _).
  pose proof (sage_vue_scan_NoDup systems w H) as Hn.
  rewrite Hscan in Hn. cbn [snd] in Hn.
  destruct Hn as (_ & _ & Hs & _). now rewrite H1 in Hs.
Qed.

(** C2 fails on the code.  The removal loops edit the stored list while they
    iterate over it, and the element that follows a removed one is never
    examined.  When the first two keys of a stored list are both gone from
    what the round has read, the first is removed and the second stays:
    after the step the stored list holds a key that is not current, and the
    DDM gauges count it.  The comments of the loops say "remove any that are
    no longer active". *)
Theorem C2_second_of_two_stale_neighbours_stays :
  (forall (api : string -> DdmReply (list Device)) (w : World)
          (a b : string) (rest : list string),
     let w' := exec (ddm_thread api) w in
     stored_lists_NoDup w ->
     DDM_ERROR_LIST w = a :: b :: rest ->
     ~ In a (DDM_TEMP_LIST w') -> ~ In b (DDM_TEMP_LIST w') ->
     In b (DDM_ERROR_LIST w')
     /\ ~ In a (DDM_ERROR_LIST w')
     /\ 1 <= DDM_Total_Errors w')
  /\ (forall (api : string -> DdmReply (list Device)) (w : World)
             (a b : string) (rest : list string),
        let w' := exec (ddm_thread api) w in
        stored_lists_NoDup w ->
        DDM_OFFLINE_LIST w = a :: b :: rest ->
        ~ In a (DDM_TEMP_OFFLINE_LIST w') ->
        ~ In b (DDM_TEMP_OFFLINE_LIST w') ->
        In b (DDM_OFFLINE_LIST w')
        /\ ~ In a (DDM_OFFLINE_LIST w')
        /\ 1 <= DDM_Missing_Devices w')
  /\ (forall (systems : list System) (w : World)
             (a b : string) (rest : list string),
        let w' := exec (sage_vue_diff systems) w in
        let read := map error_id (sage_vue_faults systems) in
        stored_lists_NoDup w ->
        SageVue_Error_List w = a :: b :: rest ->
        ~ In a read -> ~ In b read ->
        In b (SageVue_Error_List w') /\ ~ In a (SageVue_Error_List w')).
Proof.
  split; [|split].
  - intros api w a b rest. cbv zeta. intros Hnd Hst Ha Hb.
    destruct (ddm_thread_fields api w)
      as (_ & _ & _ & _ & H4 & _ & _ & _ & _ & _ & H8).
    cbv zeta in *.
    destruct (ddm_scanned_NoDup api w Hnd) as [He _].
    rewrite Hst in H4, He. cbn [app] in H4, He.
    destruct (stale_head_passes_over _ a b _ He Ha) as [Hin Hout].
    rewrite <- H4 in Hin, Hout.
    split; [exact Hin|]. split; [exact Hout|].
    rewrite H8. destruct (DDM_ERROR_LIST (exec (ddm_thread api) w));
      [destruct Hin | simpl; lia].
  - intros api w a b rest. cbv zeta. intros Hnd Hst Ha Hb.
    destruct (ddm_thread_fields api w)
      as (_ & _ & _ & H3 & _ & _ & _ & _ & _ & H7 & _).
    cbv zeta in *.
    destruct (ddm_scanned_NoDup api w Hnd) as [_ Ho].
    rewrite Hst in H3, Ho. cbn [app] in H3, Ho.
    destruct (stale_head_passes_over _ a b _ Ho Ha) as [Hin Hout].
    rewrite <- H3 in Hin, Hout.
    split; [exact Hin|]. split; [exact Hout|].
    rewrite H7. destruct (DDM_OFFLINE_LIST (exec (ddm_thread api) w));
      [destruct Hin | simpl; lia].
  - intros systems w a b rest. cbv zeta. intros Hnd Hst Ha Hb.
    destruct (sage_vue_diff_fields systems w) as (_ & H1 & _).
    cbv zeta in *.
    pose proof (sage_vue_scanned_NoDup systems w Hnd) as Hs.
    rewrite Hst in H1, Hs. cbn [app] in H1, Hs.
    destruct (stale_head_passes_over _ a b _ Hs Ha) as [Hin Hout].
    rewrite <- H1 in Hin, Hout. split; assumption.
Qed.

Lemma C2_witness :
  let w' := exec (ddm_thread (ddm_reports [])) two_old_errors in
  DDM_TEMP_LIST w' = []
  /\ In "Studio A - amp-2 has a latency error." (DDM_ERROR_LIST w')
  /\ ~ In "Studio A - amp-1 has a latency error." (DDM_ERROR_LIST w')
  /\ 1 <= DDM_Total_Errors w'.
Proof.
  cbv zeta. split; [reflexivity|].
  apply (proj1 C2_second_of_two_stale_neighbours_stays (ddm_reports [])
           two_old_errors "Studio A - amp-1 has a latency error."
           "Studio A - amp-2 has a latency error." []).
  - unfold stored_lists_NoDup. simpl.
    repeat split; repeat constructor; simpl; intuition discriminate.
  - reflexivity.
  - vm_compute. tauto.
  - vm_compute. tauto.
Defined.

(** ** The Fusion error loop *)

Lemma push_fields (category device message : string) (w : World) :
  Fusion_Error_List (add_to_alert_notif_push category device message w)
  = Fusion_Error_List w
  /\ pushed (add_to_alert_notif_push category device message w)
     = pushed w ++ [(category, device, message)].
Proof.
  unfold add_to_alert_notif_push. cbv zeta.
  match goal with |- context [if ?b then _ else _] => destruct b end;
    split; reflexivity.
Qed.

Lemma fusion_error_room_step (room : Room) (w : World) :
  RawSerialValues room <> [] ->
  fusion_error_room room w
  = (Val tt,
     if negb (py_in Room_eqb room (Fusion_Error_List w))
        && fusion_error_accepts room
     then add_to_alert_notif_push "Fusion" (RoomName room)
            (hd "" (RawSerialValues room))
            (set_Fusion_Error_List (Fusion_Error_List w ++ [room]) w)
     else w).
Proof.
  intros Hmsg. unfold fusion_error_room, bind, gets, room_2,
    fusion_error_accepts.
  destruct (py_in Room_eqb room (Fusion_Error_List w)); cbn [negb andb];
    [reflexivity|].
  destruct (RawSerialValues room) as [|message others]; [congruence|].
  unfold ret at 1. cbn [hd].
  destruct (negb (str_in "1:notice" message) && negb (str_in "0:ok" message));
    reflexivity.
Qed.

Lemma error_loop_fields (rooms : list Room) (w : World) :
  (forall room, In room rooms -> RawSerialValues room <> []) ->
  exists w1,
    for_each rooms fusion_error_room w = (Val tt, w1)
    /\ Fusion_Error_List w1
       = Fusion_Error_List w ++ fusion_newly_failing rooms w
    /\ pushed w1
       = pushed w ++ map fusion_error_push (fusion_newly_failing rooms w).
Proof.
  revert w. induction rooms as [|room rest IH]; intros w Hmsg.
  - exists w. unfold fusion_newly_failing. simpl.
    now rewrite !app_nil_r.
  - assert (forall r, In r rest -> RawSerialValues r <> []) as Hrest
      by (intros r Hr; apply Hmsg; now right).
    simpl. unfold bind at 1.
    rewrite fusion_error_room_step by (apply Hmsg; now left).
    unfold fusion_newly_failing. cbn [newly_active].
    destruct (negb (py_in Room_eqb room (Fusion_Error_List w))
              && fusion_error_accepts room).
    + match goal with |- context [for_each rest fusion_error_room ?w0] =>
        destruct (IH w0 Hrest) as (w1 & E1 & H1 & H2);
        destruct (push_fields "Fusion" (RoomName room)
                    (hd "" (RawSerialValues room))
                    (set_Fusion_Error_List (Fusion_Error_List w ++ [room]) w))
          as [P1 P2]
      end.
      exists w1. split; [exact E1|].
      rewrite H1, H2, P2. unfold fusion_newly_failing. rewrite P1.
      cbn [Fusion_Error_List pushed set_Fusion_Error_List].
      rewrite (newly_active_ext (fun room0 : Room => room0) Room_eqb
                 fusion_error_accepts
                 (fun r => py_in Room_eqb r (Fusion_Error_List w ++ [room]))
                 (fun r => py_in Room_eqb r (Fusion_Error_List w)
                           || Room_eqb r room) rest)
        by (intros r; apply py_in_snoc).
      cbn [map]. rewrite <- !app_assoc. split; reflexivity.
    + apply IH, Hrest.
Qed.

(** X17.  The Fusion error loop, for rooms that all carry a message,
    returns, appends to [Fusion_Error_List] the rooms that were not stored
    and whose message contains neither "1:notice" nor "0:ok", and calls
    [add_to_alert_notif_push] for exactly these, once each and in order.
    A room is compared with its name, id and messages, so a stored room
    whose message has changed counts as new. *)
Theorem X17_error_loop_reports_new_failing_rooms :
  forall (rooms : list Room) (w : World),
    (forall room, In room rooms -> RawSerialValues room <> []) ->
    let new := fusion_newly_failing rooms w in
    (exists w1,
       for_each rooms fusion_error_room w = (Val tt, w1)
       /\ Fusion_Error_List w1 = Fusion_Error_List w ++ new
       /\ pushed w1 = pushed w ++ map fusion_error_push new)
    /\ NoDup new
    /\ (forall room,
          In room new <->
          In room rooms
          /\ ~ In room (Fusion_Error_List w)
          /\ ~ occurs_in "1:notice" (hd "" (RawSerialValues room))
          /\ ~ occurs_in "0:ok" (hd "" (RawSerialValues room))).
Proof.
  intros rooms w Hmsg new.
  assert (forall room, In room rooms ->
            (fusion_error_accepts room = true <->
             ~ occurs_in "1:notice" (hd "" (RawSerialValues room))
             /\ ~ occurs_in "0:ok" (hd "" (RawSerialValues room)))) as Hacc.
  { intros room Hin. unfold fusion_error_accepts.
    destruct (RawSerialValues room) as [|message others] eqn:Em;
      [exfalso; now apply (Hmsg room)|].
    cbn [hd]. rewrite andb_true_iff, !negb_true_iff.
    rewrite <- !str_in_spec.
    destruct (str_in "1:notice" message), (str_in "0:ok" message);
      intuition congruence. }
  split; [now apply error_loop_fields|]. split.
  - unfold new, fusion_newly_failing.
    rewrite <- (map_id (newly_active _ _ _ _ _)).
    apply (newly_active_NoDup (fun room : Room => room) Room_eqb
             fusion_error_accepts Room_eqb_eq).
  - intros room. unfold new, fusion_newly_failing. split.
    + intros Hin.
      apply (newly_active_In (fun room : Room => room) Room_eqb
               fusion_error_accepts) in Hin.
      destruct Hin as (Hin & Ha & Hs).
      apply (py_in_false Room_eqb Room_eqb_eq) in Hs.
      apply (Hacc room Hin) in Ha. tauto.
    + intros (Hin & Hs & Ha).
      apply (py_in_false Room_eqb Room_eqb_eq) in Hs.
      apply (Hacc room Hin) in Ha.
      pose proof (newly_active_complete (fun room : Room => room) Room_eqb
                    fusion_error_accepts Room_eqb_eq
                    (fun r => py_in Room_eqb r (Fusion_Error_List w))
                    rooms room Hin Ha Hs) as Hc.
      now rewrite map_id in Hc.
Qed.

Lemma X17_witness :
  let new := fusion_newly_failing three_error_rooms one_domain in
  (exists w1,
     for_each three_error_rooms fusion_error_room one_domain = (Val tt, w1)
     /\ Fusion_Error_List w1 = Fusion_Error_List one_domain ++ new
     /\ pushed w1 = pushed one_domain ++ map fusion_error_push new)
  /\ NoDup new
  /\ (forall room,
        In room new <->
        In room three_error_rooms
        /\ ~ In room (Fusion_Error_List one_domain)
        /\ ~ occurs_in "1:notice" (hd "" (RawSerialValues room))
        /\ ~ occurs_in "0:ok" (hd "" (RawSerialValues room))).
Proof.
  apply (X17_error_loop_reports_new_failing_rooms three_error_rooms
           one_domain).
  intros room [<-|[<-|[<-|[]]]]; discriminate.
Defined.

(** ** The error loop and a room without a message *)

Lemma for_each_app {A : Type} (body : A -> M unit) (l1 l2 : list A)
    (w : World) :
  for_each (l1 ++ l2) body w = (for_each l1 body ;; for_each l2 body) w.
Proof.
  revert w. induction l1 as [|x l1 IH]; intros w; [reflexivity|].
  cbn [app for_each].
  change ((body x ;; for_each (l1 ++ l2) body) w)
    with (match body x w with
          | (Val _, w1) => for_each (l1 ++ l2) body w1
          | (Exc e, w1) => (Exc e, w1)
          end).
  change (((body x ;; for_each l1 body) ;; for_each l2 body) w)
    with (match (match body x w with
                 | (Val _, w1) => for_each l1 body w1
                 | (Exc e, w1) => (Exc e, w1)
                 end) with
          | (Val _, w2) => for_each l2 body w2
          | (Exc e, w2) => (Exc e, w2)
          end).
  destruct (body x w) as [[[]|e] w1]; [apply IH | reflexivity].
Qed.

Lemma error_loop_stops_at_bare_room (before after : list Room) (bare : Room)
    (w : World) :
  error_rooms_have_message w ->
  (forall room, In room before -> RawSerialValues room <> []) ->
  RawSerialValues bare = [] ->
  exists w',
    for_each (before ++ bare :: after) fusion_error_room w
    = (Exc IndexError, w')
    /\ pushed w'
       = pushed w ++ map fusion_error_push (fusion_newly_failing before w)
    /\ Fusion_Error_List w'
       = Fusion_Error_List w ++ fusion_newly_failing before w.
Proof.
  intros Hinv Hmsg Hbare.
  destruct (error_loop_fields before w Hmsg) as (w1 & E & Hl & Hp).
  assert (error_rooms_have_message w1) as Hinv1.
  { pose proof (preserves_for_each error_rooms_have_message before
                  fusion_error_room fusion_error_room_message w Hinv) as H.
    now rewrite E in H. }
  exists w1. rewrite for_each_app. unfold bind. rewrite E.
  cbn [for_each]. unfold bind.
  rewrite (fusion_error_room_no_message bare w1 Hinv1 Hbare).
  repeat split; assumption.
Qed.

(** C1 fails on the code, in the loop over the Fusion error rooms.  The loop
    reads [room[2]] of every room that is not stored, and a room for which
    the message query returned no row has no such element: the loop ends
    with [IndexError] at that room.  The rooms listed after it, although
    they are read, carry an error message and are absent from the stored
    list, are neither stored nor handed to [add_to_alert_notif_push]; the
    calls made are those for the new rooms listed before it. *)
Theorem C1_room_without_message_hides_new_rooms :
  forall (before after : list Room) (bare : Room) (w : World),
    error_rooms_have_message w ->
    (forall room, In room before -> RawSerialValues room <> []) ->
    RawSerialValues bare = [] ->
    let new := fusion_newly_failing before w in
    exists w',
      for_each (before ++ bare :: after) fusion_error_room w
      = (Exc IndexError, w')
      /\ pushed w' = pushed w ++ map fusion_error_push new
      /\ Fusion_Error_List w' = Fusion_Error_List w ++ new
      /\ forall room,
           In room after -> fusion_error_accepts room = true ->
           ~ In room (Fusion_Error_List w) -> ~ In room before ->
           ~ In room new /\ ~ In room (Fusion_Error_List w').
Proof.
  intros before after bare w Hinv Hmsg Hbare new.
  destruct (error_loop_stops_at_bare_room before after bare w Hinv Hmsg Hbare)
    as (w' & E & Hp & Hl).
  exists w'. split; [exact E|]. split; [exact Hp|]. split; [exact Hl|].
  intros room Hafter Ha Hst Hbefore.
  assert (~ In room new) as Hnew.
  { intros Hin. unfold new, fusion_newly_failing in Hin.
    apply (newly_active_In (fun room : Room => room) Room_eqb
             fusion_error_accepts) in Hin.
    tauto. }
  split; [exact Hnew|]. rewrite Hl. intros Hin.
  apply in_app_or in Hin. tauto.
Qed.

Lemma C1_witness :
  exists w',
    for_each ([] ++ mkRoom "Room 101" "17" []
                    :: [mkRoom "Room 102" "18" ["2:error Projector lamp"]])
      fusion_error_room one_domain
    = (Exc IndexError, w')
    /\ pushed w' = []
    /\ Fusion_Error_List w' = [].
Proof.
  destruct (C1_room_without_message_hides_new_rooms []
              [mkRoom "Room 102" "18" ["2:error Projector lamp"]]
              (mkRoom "Room 101" "17" []) one_domain)
    as (w' & E & Hp & Hl & _).
  - intros room [].
  - intros room [].
  - reflexivity.
  - exists w'. split; [exact E|]. split; [exact Hp | exact Hl].
Defined.

(** C6 fails on the code, for the same reason.  With nothing stored, as
    after a start, and an error query whose first room has no message row,
    [fusion_thread] ends with [IndexError] once the offline rooms are done:
    whatever rooms with an error message follow in the answer, none of them
    is reported or stored, and the only calls of [add_to_alert_notif_push]
    are those of the offline rooms. *)
Theorem C6_nothing_stored_and_no_error_room_reported :
  forall (db : FusionDb) (w : World) (offline : list string)
         (rows : list (string * string)) (messages : string -> list string)
         (room_name room_id : string),
    Fusion_Error_List w = [] ->
    connect db = None ->
    offline_rooms db = inr offline ->
    error_rooms db = inr ((room_name, room_id) :: rows) ->
    messages_answered (error_message db) messages
      ((room_name, room_id) :: rows) ->
    messages room_id = [] ->
    let w' := exec (fusion_thread db) w in
    result (fusion_thread db) w = Exc IndexError
    /\ Fusion_Error_List w' = []
    /\ pushed w'
       = pushed w ++ map fusion_offline_push (fusion_newly_offline offline w).
Proof.
  intros db w offline rows messages room_name room_id
    Hst Hconn Hoff Herr Hmsg Hnone. cbv zeta.
  remember ((room_name, room_id) :: rows) as all eqn:Hall.
  unfold result, exec, fusion_thread, bind.
  rewrite Hconn, Hoff, Herr. simpl.
  pose proof (fusion_offline_diff_fields offline w) as Hf. cbv zeta in Hf.
  destruct Hf as (Hr & _ & Hp & _).
  pose proof (fusion_offline_diff_frame
                (fun w0 => Fusion_Error_List w0 = [])
                ltac:(intros; cbn; assumption) ltac:(intros; cbn; assumption)
                ltac:(intros; cbn; assumption) offline w Hst) as Hl.
  unfold result, exec in Hr, Hp.
  destruct (fusion_offline_diff offline w) as [[[]|e] w1]; simpl in *;
    [|discriminate].
  rewrite (fetch_messages_returns _ messages) by assumption.
  subst all. cbn [map fst snd for_each]. unfold bind.
  rewrite fusion_error_room_no_message;
    [| intros room Hin; rewrite Hl in Hin; destruct Hin | exact Hnone].
  cbn [fst snd]. repeat split; assumption.
Qed.

Lemma C6_witness :
  let w' := exec (fusion_thread bare_room_first) (initial []) in
  result (fusion_thread bare_room_first) (initial []) = Exc IndexError
  /\ Fusion_Error_List w' = []
  /\ pushed w'
     = pushed (initial [])
       ++ map fusion_offline_push (fusion_newly_offline [] (initial [])).
Proof.
  apply (C6_nothing_stored_and_no_error_room_reported bare_room_first
           (initial []) [] [("Room 102", "18")] lamp_messages
           "Room 101" "17"); try reflexivity.
  intros n i [H|[H|[]]]; reflexivity.
Defined.

(** ** Mute requests that go wrong *)

(** X18.  A mute request without a keyword has no effect: whatever the
    duration is, [mute_thread] raises [TypeError] before it has sent a
    notification or touched the mute list, and the handler of the [try]
    block, which builds its message from the keyword too, raises it
    again. *)
Theorem X18_mute_without_keyword_changes_nothing :
  forall (length : option string) (w : World),
    exists e,
      mute_thread (None, length) w = (Exc e, w)
      /\ exn_class e = "TypeError".
Proof.
  intros [minutes|] w; unfold mute_thread; cbn [fst snd].
  - destruct (negb (isnumeric minutes)); eexists; split; reflexivity.
  - eexists; split; reflexivity.
Qed.

(** X19.  When the duration passes [str.isnumeric] but [int] refuses it,
    and the acknowledgement has been sent, the keyword has entered the mute
    list when [int] raises; the handler only sends a notification, so the
    keyword stays in the list and [mute_thread] does not return
    "Success". *)
Theorem X19_duration_int_refuses_mutes_for_good :
  forall (kw minutes : string) (e : exn) (code : nat) (w : World),
    isnumeric minutes = true ->
    int_of_numeric minutes = inl e ->
    next_response w = Some code ->
    ALERTS_TEMP_IGNORE (exec (mute_thread (Some kw, Some minutes)) w)
    = ALERTS_TEMP_IGNORE w ++ [kw]
    /\ result (mute_thread (Some kw, Some minutes)) w <> Val "Success".
Proof.
  intros kw minutes e code w Hnum Hint Hnext.
  assert (exists r w',
            mute_thread (Some kw, Some minutes) w = (r, w')
            /\ ALERTS_TEMP_IGNORE w' = ALERTS_TEMP_IGNORE w ++ [kw]
            /\ r <> Val "Success") as (r & w' & E & Hl & Hr).
  { unfold mute_thread. cbn [fst snd]. rewrite Hnum. cbn [negb].
    unfold try_except, mute_thread_enter, as_str, bind, ret.
    unfold send_notification at 1. unfold bind, ret.
    match goal with |- context [requests_post ?p w] =>
      destruct (requests_post_answered p w code Hnext)
        as (w1 & -> & _ & Hf) end.
    unfold modify. rewrite Hint. unfold lift, raise.
    match goal with |- context [send_notification ?m ?w0] =>
      pose proof (send_notification_ignore m w0) as Hi;
      destruct (send_notification m w0) as [[[]|e'] w2] end;
      cbn in Hi; do 2 eexists; (split; [reflexivity|]);
      (split; [rewrite Hi; f_equal; apply Hf | discriminate]). }
  unfold exec, result. rewrite E. split; assumption.
Qed.

Lemma X19_witness :
  ALERTS_TEMP_IGNORE
    (exec (mute_thread (Some "amp", Some (String (ascii_of_nat 178) "")))
       (initial []))
  = ["amp"].
Proof.
  refine (proj1 (X19_duration_int_refuses_mutes_for_good "amp"
                   (String (ascii_of_nat 178) "") _ 200 (initial [])
                   _ _ _)).
  - vm_compute. reflexivity.
  - vm_compute. reflexivity.
  - reflexivity.
Defined.

(** ** Between two rounds *)

Lemma send_alert_notif_clears (w w1 : World) :
  send_alert_notif w = (Val tt, w1) -> ALERTS_NOTIF_LIST w1 = [].
Proof.
  unfold send_alert_notif, bind, gets, modify.
  destruct (SEND_ALERTS w && (0 <? length (ALERTS_NOTIF_LIST w))%nat).
  - destruct (requests_post _ w) as [[code|e] w0]; unfold ret;
      intros H; inversion H. reflexivity.
  - unfold ret. intros H. inversion H. reflexivity.
Qed.

Lemma prog_cycle_clears (c : Cycle) (w w1 : World) :
  prog_cycle c w = (Val tt, w1) -> ALERTS_NOTIF_LIST w1 = [].
Proof.
  unfold prog_cycle, bind.
  destruct (poll_backends c w) as [[[]|e0] w0]; [|discriminate].
  pose proof (send_alert_notif_clears w0) as Hc.
  destruct (send_alert_notif w0) as [[[]|e2] w2]; [|discriminate].
  specialize (Hc w2 eq_refl).
  pose proof (schedule_run_pending_frame
                (fun w' => ALERTS_NOTIF_LIST w' = [])
                ltac:(intros; cbn; assumption) ltac:(intros; cbn; assumption)
                ltac:(intros; cbn; assumption) ltac:(intros; cbn; assumption)
                (due c) w2 Hc) as Hs.
  destruct (schedule_run_pending (due c) w2) as [[[]|e3] w3];
    [|discriminate].
  unfold ret. intros H. inversion H. subst. exact Hs.
Qed.

(** X20.  No alert waits for a later round: whenever the loop of
    [prog_thread] is still running after at least one round, the list of
    pending alerts is empty, whether the alerts of the round were sent or,
    with alerting switched off, dropped. *)
Theorem X20_no_alert_pending_between_rounds :
  forall (cycles : list Cycle) (w : World),
    cycles <> [] ->
    result (prog_loop cycles) w = Val tt ->
    ALERTS_NOTIF_LIST (exec (prog_loop cycles) w) = [].
Proof.
  intros cycles. induction cycles as [|c rest IH]; intros w Hne;
    [congruence|].
  unfold result, exec in *. simpl. unfold bind.
  pose proof (prog_cycle_clears c w) as Hc.
  destruct (prog_cycle c w) as [[[]|e] w1]; [|discriminate].
  destruct rest as [|c' rest'].
  - intros _. simpl. now apply Hc.
  - apply IH. discriminate.
Qed.

Lemma X20_witness :
  ALERTS_NOTIF_LIST
    (exec (prog_loop [busy_round None; quiet_round])
       (set_SEND_ALERTS true one_domain))
  = [].
Proof.
  apply (X20_no_alert_pending_between_rounds [busy_round None; quiet_round]
           (set_SEND_ALERTS true one_domain)).
  - discriminate.
  - vm_compute. reflexivity.
Defined.

(** ** Help requests with alerting switched on *)

Lemma requests_post_answers (p : Post) (w : World) :
  webhook_answers w ->
  exists code w',
    requests_post p w = (Val code, w')
    /\ map fst (posted w') = map fst (posted w) ++ [p]
    /\ webhook_answers w'
    /\ lifecycle_unchanged w w'.
Proof.
  intros H. pose proof (requests_post_frame p w) as Hf.
  unfold exec in Hf. unfold requests_post in *. unfold webhook_answers in *.
  destruct (network w) as [|[e|code] rest] eqn:E.
  - do 2 eexists. split; [reflexivity|]. cbn. rewrite E, map_app.
    repeat split; try apply Hf. intros e [].
  - exfalso. apply (H e). now left.
  - do 2 eexists. split; [reflexivity|]. cbn. rewrite map_app.
    repeat split; try apply Hf. intros e He. apply (H e). now right.
Qed.

Lemma fusion_help_room_enabled (room : Room) (w : World) :
  ~ In room (Fusion_Help_Request_List w) ->
  RawSerialValues room <> [] ->
  SEND_ALERTS w = true ->
  webhook_answers w ->
  exists w',
    fusion_help_room room w = (Val tt, w')
    /\ Fusion_Help_Request_List w' = Fusion_Help_Request_List w ++ [room]
    /\ map fst (posted w') = map fst (posted w) ++ [help_post room]
    /\ SEND_ALERTS w' = true
    /\ webhook_answers w'.
Proof.
  intros Hnew Hmsg Hon Hnet. unfold fusion_help_room, bind, gets.
  apply (py_in_false Room_eqb Room_eqb_eq) in Hnew. rewrite Hnew. cbn [negb].
  unfold modify, room_2, help_post.
  destruct (RawSerialValues room) as [|message others]; [congruence|].
  unfold ret at 1. unfold send_help_request, bind, gets.
  cbn [SEND_ALERTS set_Fusion_Help_Request_List]. rewrite Hon. cbn [hd].
  match goal with |- context [requests_post ?p ?w0] =>
    destruct (requests_post_answers p w0 Hnet)
      as (code & w' & -> & Hp & Hn & Hf) end.
  exists w'. split; [reflexivity|].
  unfold lifecycle_unchanged in Hf. cbn in Hf, Hp.
  repeat split; try assumption; try apply Hf.
  destruct Hf as (Hs & _). now rewrite Hs.
Qed.

Lemma help_loop_enabled (rooms : list Room) (w : World) :
  SEND_ALERTS w = true ->
  webhook_answers w ->
  (forall room, In room rooms -> RawSerialValues room <> []) ->
  exists w1,
    for_each rooms fusion_help_room w = (Val tt, w1)
    /\ Fusion_Help_Request_List w1
       = Fusion_Help_Request_List w ++ fusion_newly_asking rooms w
    /\ map fst (posted w1)
       = map fst (posted w) ++ map help_post (fusion_newly_asking rooms w).
Proof.
  revert w. induction rooms as [|room rest IH]; intros w Hon Hnet Hmsg.
  - exists w. unfold fusion_newly_asking. simpl. now rewrite !app_nil_r.
  - assert (forall r, In r rest -> RawSerialValues r <> []) as Hrest
      by (intros r Hr; apply Hmsg; now right).
    simpl. unfold bind at 1. unfold fusion_newly_asking. cbn [newly_active].
    rewrite andb_true_r.
    destruct (py_in Room_eqb room (Fusion_Help_Request_List w)) eqn:E;
      cbn [negb].
    + rewrite fusion_help_room_stored
        by now apply (py_in_In Room_eqb Room_eqb_eq).
      apply IH; assumption.
    + apply (py_in_false Room_eqb Room_eqb_eq) in E.
      destruct (fusion_help_room_enabled room w E
                  (Hmsg room (or_introl eq_refl)) Hon Hnet)
        as (w' & -> & Hl & Hp & Hon' & Hnet').
      destruct (IH w' Hon' Hnet' Hrest) as (w1 & E1 & H1 & H2).
      exists w1. split; [exact E1|].
      rewrite H1, H2, Hl, Hp. unfold fusion_newly_asking. rewrite Hl.
      rewrite (newly_active_ext (fun room0 : Room => room0) Room_eqb
                 (fun _ => true)
                 (fun r => py_in Room_eqb r
                             (Fusion_Help_Request_List w ++ [room]))
                 (fun r => py_in Room_eqb r (Fusion_Help_Request_List w)
                           || Room_eqb r room) rest)
        by (intros r; apply py_in_snoc).
      cbn [map]. rewrite <- !app_assoc. split; reflexivity.
Qed.

(** X21.  With alerting switched on and a webhook that answers, the loop
    over the rooms asking for help makes one request per room that was not
    on [Fusion_Help_Request_List], in order, with the room name and the
    first message of the room, and appends these rooms to the list; for a
    room that is on the list already it makes none. *)
Theorem X21_one_help_request_per_new_room :
  forall (rooms : list Room) (w : World),
    SEND_ALERTS w = true ->
    webhook_answers w ->
    (forall room, In room rooms -> RawSerialValues room <> []) ->
    let new := fusion_newly_asking rooms w in
    (exists w1,
       for_each rooms fusion_help_room w = (Val tt, w1)
       /\ Fusion_Help_Request_List w1 = Fusion_Help_Request_List w ++ new
       /\ map fst (posted w1) = map fst (posted w) ++ map help_post new)
    /\ NoDup new
    /\ (forall room,
          In room new <->
          In room rooms /\ ~ In room (Fusion_Help_Request_List w)).
Proof.
  intros rooms w Hon Hnet Hmsg new.
  split; [now apply help_loop_enabled|]. split.
  - unfold new, fusion_newly_asking.
    rewrite <- (map_id (newly_active _ _ _ _ _)).
    apply (newly_active_NoDup (fun room : Room => room) Room_eqb
             (fun _ => true) Room_eqb_eq).
  - intros room. unfold new, fusion_newly_asking. split.
    + intros Hin.
      apply (newly_active_In (fun room : Room => room) Room_eqb
               (fun _ => true)) in Hin.
      destruct Hin as (Hin & _ & Hs).
      apply (py_in_false Room_eqb Room_eqb_eq) in Hs. tauto.
    + intros (Hin & Hs).
      apply (py_in_false Room_eqb Room_eqb_eq) in Hs.
      pose proof (newly_active_complete (fun room : Room => room) Room_eqb
                    (fun _ => true) Room_eqb_eq
                    (fun r => py_in Room_eqb r (Fusion_Help_Request_List w))
                    rooms room Hin eq_refl Hs) as Hc.
      now rewrite map_id in Hc.
Qed.

Lemma X21_witness :
  let w := set_SEND_ALERTS true one_domain in
  let new := fusion_newly_asking [room_101_help; room_101_help] w in
  (exists w1,
     for_each [room_101_help; room_101_help] fusion_help_room w = (Val tt, w1)
     /\ Fusion_Help_Request_List w1 = Fusion_Help_Request_List w ++ new
     /\ map fst (posted w1) = map fst (posted w) ++ map help_post new)
  /\ NoDup new
  /\ (forall room,
        In room new <->
        In room [room_101_help; room_101_help]
        /\ ~ In room (Fusion_Help_Request_List w)).
Proof.
  apply (X21_one_help_request_per_new_room [room_101_help; room_101_help]
           (set_SEND_ALERTS true one_domain)).
  - reflexivity.
  - intros e [].
  - intros room [<-|[<-|[]]]; discriminate.
Defined.

(** ** The alert switch *)

(** X22.  [enable_alerts] and [disable_alerts] set the switch before they
    notify.  The REST endpoints therefore change it even when the
    notification raises, in which case they raise too instead of answering
    "Success"; the scheduled jobs, which pass [False], change the switch
    and nothing else, and make no request. *)
Theorem X22_switch_is_set_before_the_notification :
  forall (w : World),
    SEND_ALERTS (exec http_enable w) = true
    /\ SEND_ALERTS (exec http_disable w) = false
    /\ (result http_enable w = Val "Success"
        <-> exists code, next_response w = Some code)
    /\ (result http_disable w = Val "Success"
        <-> exists code, next_response w = Some code)
    /\ run_job job_enable_alerts w = (Val tt, set_SEND_ALERTS true w)
    /\ run_job job_disable_alerts w = (Val tt, set_SEND_ALERTS false w).
Proof.
  intros w.
  unfold exec, result, http_enable, http_disable, enable_alerts,
    disable_alerts, send_notification, bind, modify, ret, requests_post,
    next_response.
  cbn [network set_SEND_ALERTS].
  destruct (network w) as [|[e|code] rest]; cbn;
    repeat split; try reflexivity; try discriminate; eauto;
    intros [code' H]; discriminate.
Qed.
